(** * A shallow embedding of the Bronze / Silver / Gold batch pipeline

    The Python sources manipulate pandas DataFrames.  A DataFrame is modelled
    row-major: an ordered list of column names and a list of rows, each row a
    list of cells.  The functions are modelled on well-formed tables ([wf]:
    distinct column names, rows as wide as the header) whose columns hold
    values of one kind.

    - Floating-point numbers are modelled by exact rationals ([Q]), the
      two infinities apart ([VInf]).  The null report is computed as the
      code computes it, in float64 ([DataQuality.float64]: every operation
      rounded to the nearest float); the other computations are exact.  A
      missing value (NaN, NaT, None, NA) is the single cell [VNull].
    - A Python [str] is modelled by the bytes of its UTF-8 encoding.
    - The wall clock is an explicit argument of every function that reads
      it; an object that a function updates in place is returned next to
      the result.
    - Python exceptions are values of [exn]; a function that can raise
      returns a [res].
    - Dictionaries are [gmap]s.
    - The records written by [log_event] are modelled where a statement is
      about them (the quality gates); elsewhere they are left out. *)

From Stdlib Require Import ZArith QArith Qround Qpower Lia DecimalString.
From stdpp Require Import base gmap strings list.

Open Scope Z_scope.

(** ** Cells, exceptions, tables *)

(** [datetime.datetime]: the fields of a Python datetime. *)
Record datetime := mkDatetime {
  year : Z; month : Z; day : Z;
  hour : Z; minute : Z; second : Z; microsecond : Z }.

(** One value of a column.  [VInf] is the float infinity ([neg] tells its
    sign), [VPeriod y m] a pandas [Period] of monthly frequency. *)
Inductive cell :=
| VNull
| VInt (z : Z)
| VFloat (q : Q)
| VInf (neg : bool)
| VStr (s : string)
| VBool (b : bool)
| VTime (t : datetime)
| VPeriod (y m : Z).

(** The Python exceptions the modelled code can raise. *)
Inductive exn := KeyError | IndexError | ValueError | TypeError | AttributeError.

Inductive res (A : Type) :=
| Ok (a : A)
| Raise (e : exn).
Arguments Ok {A} a.
Arguments Raise {A} e.

Global Instance res_ret : MRet res := fun A a => Ok a.

Global Instance res_bind : MBind res := fun A B k m =>
  match m with
  | Ok a => k a
  | Raise e => Raise e
  end.

(** A list comprehension whose body may raise. *)
Fixpoint traverse {A B} (f : A -> res B) (l : list A) : res (list B) :=
  match l with
  | [] => Ok []
  | a :: l' => b ← f a; bs ← traverse f l'; Ok (b :: bs)
  end.

(** [pd.DataFrame] *)
Record DataFrame := mkDF {
  columns : list string;
  rows : list (list cell) }.

(** Distinct column names, and every row as wide as the header. *)
Definition wf (df : DataFrame) : Prop :=
  NoDup (columns df) /\
  Forall (fun r => length r = length (columns df)) (rows df).

Definition datetime_eqb (a b : datetime) : bool :=
  (year a =? year b) && (month a =? month b) && (day a =? day b) &&
  (hour a =? hour b) && (minute a =? minute b) && (second a =? second b) &&
  (microsecond a =? microsecond b).

(** Equality of two cells as pandas compares keys and rows (in [merge],
    [duplicated], [isin]): numbers by value, missing values equal to each
    other. *)
Definition cell_eqb (a b : cell) : bool :=
  match a, b with
  | VNull, VNull => true
  | VInt x, VInt y => x =? y
  | VFloat x, VFloat y => Qeq_bool x y
  | VInt x, VFloat y => Qeq_bool (inject_Z x) y
  | VFloat x, VInt y => Qeq_bool x (inject_Z y)
  | VInf x, VInf y => Bool.eqb x y
  | VStr x, VStr y => String.eqb x y
  | VBool x, VBool y => Bool.eqb x y
  | VTime x, VTime y => datetime_eqb x y
  | VPeriod y1 m1, VPeriod y2 m2 => (y1 =? y2) && (m1 =? m2)
  | _, _ => false
  end.

Fixpoint row_eqb (r1 r2 : list cell) : bool :=
  match r1, r2 with
  | [], [] => true
  | a :: r1', b :: r2' => cell_eqb a b && row_eqb r1' r2'
  | _, _ => false
  end.

Definition isna (c : cell) : bool :=
  match c with VNull => true | _ => false end.

(** The finite number a cell holds, if it holds one; a boolean counts as 0
    or 1, as in every numpy operation. *)
Definition num_of_cell (c : cell) : option Q :=
  match c with
  | VInt z => Some (inject_Z z)
  | VFloat q => Some q
  | VBool b => Some (if b then 1 else 0)%Q
  | _ => None
  end.

Fixpoint index_of (name : string) (l : list string) : option nat :=
  match l with
  | [] => None
  | x :: l' => if String.eqb name x then Some 0%nat
               else option_map S (index_of name l')
  end.

(** [name in df.columns] *)
Definition has_column (df : DataFrame) (name : string) : bool :=
  match index_of name (columns df) with Some _ => true | None => false end.

(** [len(df)] *)
Definition len (df : DataFrame) : nat := length (rows df).

(** [df[name]], for a name among the columns. *)
Definition column (df : DataFrame) (name : string) : list cell :=
  match index_of name (columns df) with
  | Some i => map (fun r => nth i r VNull) (rows df)
  | None => []
  end.

(** [df[name] = vals]: overwrite the column when it exists, append it as the
    last column otherwise.  [vals] has one cell per row. *)
Definition set_column (df : DataFrame) (name : string) (vals : list cell) : DataFrame :=
  match index_of name (columns df) with
  | Some i => mkDF (columns df) (zip_with (fun r v => <[i := v]> r) (rows df) vals)
  | None => mkDF (columns df ++ [name]) (zip_with (fun r v => r ++ [v]) (rows df) vals)
  end.

(** [df[name] = v] for a scalar [v], broadcast to every row. *)
Definition set_scalar (df : DataFrame) (name : string) (v : cell) : DataFrame :=
  set_column df name (replicate (len df) v).

(** The cell of row [r] under column [name]; missing when the table has no
    such column. *)
Definition cell_at (df : DataFrame) (name : string) (r : list cell) : cell :=
  match index_of name (columns df) with
  | Some i => nth i r VNull
  | None => VNull
  end.

(** The cells of a row under the named columns, in the order named. *)
Definition project (df : DataFrame) (subset : list string) (r : list cell) : list cell :=
  map (fun c => cell_at df c r) subset.

(** A structured log record: [log_event(event_type, message, metadata)]. *)
Record event (M : Type) := mkEvent {
  event_type : string;
  message : string;
  metadata : M }.
Arguments mkEvent {M} _ _ _.
Arguments event_type {M} _.
Arguments message {M} _.
Arguments metadata {M} _.

(** Truth value of a Python dict: non-empty. *)
Definition truthy {A} (m : gmap string A) : bool :=
  negb (Nat.eqb (size m) 0).

(** ** utils/data_quality.py *)

Module DataQuality.

(** Rounding to the nearest integer, ties to the even one ([numpy.rint]). *)
Definition round_half_even (q : Q) : Z :=
  let f := Qfloor q in
  match Qcompare (q - inject_Z f) (1 # 2) with
  | Lt => f
  | Gt => f + 1
  | Eq => if Z.even f then f else f + 1
  end.

(** The float64 nearest to the positive rational [n / d], ties to the even
    significand.  The exponent [e] is the one that brings the significand
    [n / d / 2 ^ e] into [2 ^ 52, 2 ^ 53); it is not bounded: a ratio of two
    row counts, and its product by [10 ^ 4], is far from the ends of the
    format. *)
Definition float64_of (n d : positive) : Q :=
  let q := (Zpos n # d)%Q in
  let e0 := Z.log2 (Zpos n) - Z.log2 (Zpos d) - 52 in
  let e := if Qlt_le_dec (q / 2 ^ e0) (2 ^ 52) then e0 - 1 else e0 in
  (inject_Z (round_half_even (q / 2 ^ e)) * 2 ^ e)%Q.

(** The float64 nearest to a rational, as the rational it stands for. *)
Definition float64 (q : Q) : Q :=
  match Qnum q with
  | Z0 => 0%Q
  | Zpos n => Qred (float64_of n (Qden q))
  | Zneg n => Qred (- float64_of n (Qden q))
  end.

(** [series.isna().mean()]: the number of missing cells divided by the
    number of cells, a float64 division of two counts; NaN ([None]) on an
    empty series. *)
Definition null_ratio (s : list cell) : option Q :=
  match s with
  | [] => None
  | _ => Some (float64 (Z.of_nat (length (filter (fun c => isna c = true) s))
                        # Pos.of_nat (length s)))
  end.

(** [round(x, ndigits)] on the [numpy.float64] that [mean()] returns: numpy
    multiplies by [10 ^ ndigits], rounds to the nearest integer and divides
    by [10 ^ ndigits], each step a float64 operation. *)
Definition py_round (x : Q) (ndigits : nat) : Q :=
  let scale := inject_Z (10 ^ Z.of_nat ndigits) in
  float64 (inject_Z (round_half_even (float64 (x * scale))) / scale).

(** The entry of one column in the null report, if it gets one. *)
Definition null_entry (df : DataFrame) (threshold : Q) (col : string) : option Q :=
  match null_ratio (column df col) with
  | Some null_ratio =>
      if Qlt_le_dec threshold null_ratio then Some (py_round null_ratio 4) else None
  | None => None
  end.

(** The null report of a table whose column names are distinct.  (With a
    name that two columns share, [df[col]] is a table and the comparison
    with the threshold raises [ValueError]: the statements about the report
    are on well-formed tables.) *)
Definition validate_nulls (df : DataFrame) (threshold : Q) : gmap string Q :=
  foldl (fun null_report col =>
           match null_entry df threshold col with
           | Some v => <[col := v]> null_report
           | None => null_report
           end) ∅ (columns df).

(** [df.duplicated()] on the compared rows: a row is marked when an earlier
    row equals it.  (The model is meant for tables with at least one column:
    pandas takes a table without columns for empty, whatever its index, and
    marks nothing.) *)
Fixpoint duplicated_from (seen rs : list (list cell)) : list bool :=
  match rs with
  | [] => []
  | r :: rs' => existsb (row_eqb r) seen :: duplicated_from (r :: seen) rs'
  end.

Definition duplicated (df : DataFrame) (subset : option (list string)) : res (list bool) :=
  match subset with
  | Some (c :: cs) =>
      if forallb (has_column df) (c :: cs)
      then Ok (duplicated_from [] (map (project df (c :: cs)) (rows df)))
      else Raise KeyError
  | _ => Ok (duplicated_from [] (rows df))
  end.

Record dup_report := mkDup {
  num_duplicates : Z;
  sample_rows : list (list (string * cell)) }.

Fixpoint select {A} (mask : list bool) (l : list A) : list A :=
  match mask, l with
  | b :: mask', a :: l' => if b then a :: select mask' l' else select mask' l'
  | _, _ => []
  end.

(** The report is [None] for the empty dict. *)
Definition validate_duplicates (df : DataFrame) (subset : option (list string))
  : res (option dup_report) :=
  dup_mask ← duplicated df subset;
  let num_duplicates := length (filter (fun b => b = true) dup_mask) in
  if (0 <? Z.of_nat num_duplicates)
  then Ok (Some (mkDup (Z.of_nat num_duplicates)
                       (map (fun r => zip_with pair (columns df) r)
                            (take 5 (select dup_mask (rows df))))))
  else Ok None.

(** The limits of one column; [None] stands for the infinite default of
    [limits.get]. *)
Record limits := mkLimits { lim_min : option Q; lim_max : option Q }.

(** [x < min_val] on one cell; a missing value compares false. *)
Definition below (c : cell) (min_val : option Q) : res bool :=
  match c, min_val with
  | VNull, _ => Ok false
  | VInf neg, Some _ => Ok neg
  | VInf _, None => Ok false
  | _, _ =>
      match num_of_cell c, min_val with
      | Some x, Some m => Ok (if Qlt_le_dec x m then true else false)
      | Some _, None => Ok false
      | None, _ => Raise TypeError
      end
  end.

(** [x > max_val] on one cell. *)
Definition above (c : cell) (max_val : option Q) : res bool :=
  match c, max_val with
  | VNull, _ => Ok false
  | VInf neg, Some _ => Ok (negb neg)
  | VInf _, None => Ok false
  | _, _ =>
      match num_of_cell c, max_val with
      | Some x, Some m => Ok (if Qlt_le_dec m x then true else false)
      | Some _, None => Ok false
      | None, _ => Raise TypeError
      end
  end.

Definition count_true (l : list bool) : Z :=
  Z.of_nat (length (filter (fun b => b = true) l)).

Fixpoint validate_ranges_loop (df : DataFrame) (ranges : list (string * limits))
    (range_report : gmap string (Z * Z)) : res (gmap string (Z * Z)) :=
  match ranges with
  | [] => Ok range_report
  | (col, lim) :: ranges' =>
      if has_column df col then
        lows ← traverse (fun c => below c (lim_min lim)) (column df col);
        highs ← traverse (fun c => above c (lim_max lim)) (column df col);
        let min_violations := count_true lows in
        let max_violations := count_true highs in
        if (0 <? min_violations) || (0 <? max_violations)
        then validate_ranges_loop df ranges'
               (<[col := (min_violations, max_violations)]> range_report)
        else validate_ranges_loop df ranges' range_report
      else validate_ranges_loop df ranges' range_report
  end.

(** [ranges] is [None] when the argument is left out. *)
Definition validate_ranges (df : DataFrame) (ranges : option (list (string * limits)))
  : res (gmap string (Z * Z)) :=
  match ranges with
  | None | Some [] => Ok ∅
  | Some ranges => validate_ranges_loop df ranges ∅
  end.

(** One sub-report of a quality report. *)
Inductive finding :=
| Nulls (r : gmap string Q)
| Duplicates (r : dup_report)
| RangeViolations (r : gmap string (Z * Z)).

Definition full_data_quality_check (df : DataFrame) (null_threshold : Q)
    (ranges : option (list (string * limits))) (subset_duplicates : option (list string))
  : res (gmap string finding) :=
  let report : gmap string finding := ∅ in
  let nulls := validate_nulls df null_threshold in
  let report := if truthy nulls then <["nulls" := Nulls nulls]> report else report in
  duplicates ← validate_duplicates df subset_duplicates;
  let report := match duplicates with
                | Some d => <["duplicates" := Duplicates d]> report
                | None => report
                end in
  range_violations ← validate_ranges df ranges;
  let report := if truthy range_violations
                then <["range_violations" := RangeViolations range_violations]> report
                else report in
  Ok report.

End DataQuality.

(** ** utils/metrics.py *)

Module Metrics.

(** A measure cell read as a number: missing, or a finite rational.  Cells
    that hold no finite number (strings, dates, infinities) are outside
    what the KPI functions are modelled on; pandas rejects most of them
    with a [TypeError], and so does the model. *)
Definition as_number (c : cell) : res (option Q) :=
  match c with
  | VNull => Ok None
  | _ => match num_of_cell c with
         | Some q => Ok (Some q)
         | None => Raise TypeError
         end
  end.

Definition numbers (s : list cell) : res (list (option Q)) := traverse as_number s.

(** The non-missing values, as every pandas reduction keeps them
    ([skipna=True]). *)
Fixpoint present (xs : list (option Q)) : list Q :=
  match xs with
  | [] => []
  | Some q :: xs' => q :: present xs'
  | None :: xs' => present xs'
  end.

Fixpoint Qsum (qs : list Q) : Q :=
  match qs with
  | [] => 0%Q
  | q :: qs' => (q + Qsum qs')%Q
  end.

Definition Qmax (a b : Q) : Q := if Qlt_le_dec a b then b else a.
Definition Qmin (a b : Q) : Q := if Qlt_le_dec b a then b else a.

(** [Series.sum()]: 0 on an empty or all-missing series. *)
Definition series_sum (xs : list (option Q)) : cell :=
  VFloat (Qred (Qsum (present xs))).

(** [Series.mean()]: NaN when no value is present. *)
Definition series_mean (xs : list (option Q)) : cell :=
  match present xs with
  | [] => VNull
  | qs => VFloat (Qred (Qsum qs / inject_Z (Z.of_nat (length qs))))
  end.

Definition series_max (xs : list (option Q)) : cell :=
  match present xs with
  | [] => VNull
  | q :: qs => VFloat (Qred (fold_left Qmax qs q))
  end.

Definition series_min (xs : list (option Q)) : cell :=
  match present xs with
  | [] => VNull
  | q :: qs => VFloat (Qred (fold_left Qmin qs q))
  end.

Definition total (df : DataFrame) (column_name : string) : res cell :=
  if has_column df column_name
  then xs ← numbers (column df column_name); Ok (series_sum xs)
  else Ok (VFloat 0).

Definition mean (df : DataFrame) (column_name : string) : res cell :=
  if has_column df column_name && (0 <? Z.of_nat (len df))
  then xs ← numbers (column df column_name); Ok (series_mean xs)
  else Ok (VFloat 0).

Definition maximum (df : DataFrame) (column_name : string) : res cell :=
  if has_column df column_name && (0 <? Z.of_nat (len df))
  then xs ← numbers (column df column_name); Ok (series_max xs)
  else Ok (VFloat 0).

Definition minimum (df : DataFrame) (column_name : string) : res cell :=
  if has_column df column_name && (0 <? Z.of_nat (len df))
  then xs ← numbers (column df column_name); Ok (series_min xs)
  else Ok (VFloat 0).

(** [Series.cumsum()]: the running sum of the present values; a missing
    value stays missing and leaves the running sum as it was. *)
Fixpoint cumsum_from (acc : Q) (xs : list (option Q)) : list cell :=
  match xs with
  | [] => []
  | Some q :: xs' => VFloat (Qred (acc + q)) :: cumsum_from (acc + q) xs'
  | None :: xs' => VNull :: cumsum_from acc xs'
  end.

Definition cumsum (xs : list (option Q)) : list cell := cumsum_from 0 xs.

(** The state of the sliding window of [rolling(window).mean()]: how many
    present values it holds, and their sum. *)
Definition add_obs (x : option Q) (st : Z * Q) : Z * Q :=
  match x with
  | Some q => (fst st + 1, (snd st + q)%Q)
  | None => st
  end.

Definition remove_obs (x : option Q) (st : Z * Q) : Z * Q :=
  match x with
  | Some q => (fst st - 1, (snd st - q)%Q)
  | None => st
  end.

(** The window's mean when it holds at least [min_periods] values. *)
Definition window_output (min_periods : Z) (st : Z * Q) : cell :=
  if min_periods <=? fst st
  then VFloat (Qred (snd st / inject_Z (fst st)))
  else VNull.

(** One pass over the series: at position [i] the value enters the window
    and, once the window is full, the value [window] places back leaves
    it. *)
Fixpoint roll_from (window : nat) (min_periods : Z) (xs : list (option Q))
    (i : nat) (st : Z * Q) (rest : list (option Q)) : list cell :=
  match rest with
  | [] => []
  | x :: rest' =>
      let st := add_obs x st in
      let st := if (window <=? i)%nat
                then remove_obs (nth (i - window) xs None) st
                else st in
      window_output min_periods st :: roll_from window min_periods xs (S i) st rest'
  end.

(** [Series.rolling(window, min_periods=1).mean()]; pandas refuses a
    window shorter than [min_periods]. *)
Definition rolling_mean (window : Z) (xs : list (option Q)) : res (list cell) :=
  if window <? 1 then Raise ValueError
  else Ok (roll_from (Z.to_nat window) 1 xs 0 (0, 0%Q) xs).

(** Whether a keyed value belongs to the group of key [k]. *)
Definition same_key (k : list cell) (kx : list cell * option Q) : bool :=
  row_eqb k (fst kx).

(** [df.groupby(group_by)[column].transform(f)] for an [f] that, like
    [cumsum] and the rolling mean, gives at each position a value that
    depends on the earlier positions only: the value of row [i] is the last
    value of [f] on the rows up to [i] that carry the key of row [i].  Rows
    whose key has a missing part belong to no group. *)
Fixpoint grouped_from (f : list (option Q) -> res (list cell))
    (seen rest : list (list cell * option Q)) : res (list cell) :=
  match rest with
  | [] => Ok []
  | (k, x) :: rest' =>
      v ← (if existsb isna k then Ok VNull
           else ys ← f (map snd (List.filter (same_key k) (seen ++ [(k, x)])));
                Ok (List.last ys VNull));
      vs ← grouped_from f (seen ++ [(k, x)]) rest';
      Ok (v :: vs)
  end.

Definition grouped (df : DataFrame) (group_by : list string)
    (f : list (option Q) -> res (list cell)) (xs : list (option Q)) : res (list cell) :=
  if forallb (has_column df) group_by
  then grouped_from f [] (zip_with pair (map (project df group_by) (rows df)) xs)
  else Raise KeyError.

(** [group_by] is [None] when the argument is left out; an empty list is as
    false as [None]. *)
Definition cumulative (df : DataFrame) (column_name : string)
    (group_by : option (list string)) : res (list cell) :=
  if negb (has_column df column_name) then Ok (replicate (len df) (VInt 0))
  else
    xs ← numbers (column df column_name);
    match group_by with
    | Some (g :: gs) => grouped df (g :: gs) (fun s => Ok (cumsum s)) xs
    | _ => Ok (cumsum xs)
    end.

Definition rolling_average (df : DataFrame) (column_name : string) (window : Z)
    (group_by : option (list string)) : res (list cell) :=
  if negb (has_column df column_name) then Ok (replicate (len df) (VInt 0))
  else
    xs ← numbers (column df column_name);
    match group_by with
    | Some (g :: gs) => grouped df (g :: gs) (rolling_mean window) xs
    | _ => rolling_mean window xs
    end.

(** [series.iloc[-1]] *)
Definition iloc_last (s : list cell) : res cell :=
  match s with
  | [] => Raise IndexError
  | _ => Ok (List.last s VNull)
  end.

(** [str.lower()] on ASCII letters. *)
Definition lower_ascii (a : Ascii.ascii) : Ascii.ascii :=
  let n := Ascii.nat_of_ascii a in
  if (65 <=? n)%nat && (n <=? 90)%nat then Ascii.ascii_of_nat (n + 32) else a.

Fixpoint lower (s : string) : string :=
  match s with
  | EmptyString => EmptyString
  | String a s' => String (lower_ascii a) (lower s')
  end.

Fixpoint foldM {A B} (f : B -> A -> res B) (b : B) (l : list A) : res B :=
  match l with
  | [] => Ok b
  | a :: l' => b' ← f b a; foldM f b' l'
  end.

(** The body of the first loop of [calculate_kpis]. *)
Definition kpi_block (df : DataFrame) (metrics : gmap string cell) (col : string)
  : res (gmap string cell) :=
  if has_column df col then
    t ← total df col;
    let metrics := <["total_" +:+ lower col := t]> metrics in
    a ← mean df col;
    let metrics := <["avg_" +:+ lower col := a]> metrics in
    mx ← maximum df col;
    let metrics := <["max_" +:+ lower col := mx]> metrics in
    mn ← minimum df col;
    let metrics := <["min_" +:+ lower col := mn]> metrics in
    cs ← cumulative df col None;
    c ← iloc_last cs;
    Ok (<["cumulative_" +:+ lower col := c]> metrics)
  else Ok metrics.

(** The body of the second loop. *)
Definition rolling_block (df : DataFrame) (metrics : gmap string cell) (col : string)
  : res (gmap string cell) :=
  if has_column df col then
    rs ← rolling_average df col 3 None;
    r ← iloc_last rs;
    Ok (<["rolling_avg_" +:+ lower col := r]> metrics)
  else Ok metrics.

Definition calculate_kpis (df : DataFrame) : res (gmap string cell) :=
  metrics ← foldM (kpi_block df) ∅ ["Sales"; "Quantity"; "Stock"];
  foldM (rolling_block df) metrics ["Sales"; "Quantity"].

End Metrics.


(** ** Dates *)

(** What [pd.to_datetime] raises on a value it does not convert: a
    [TypeError] on a value of a type it refuses (a bool, a period), a
    [ValueError] (a parser error, a date out of bounds) on a string or a
    number it cannot read.  The type is pandas' choice, not the code's. *)
Definition conversion_error (c : cell) : exn :=
  match c with
  | VBool _ | VPeriod _ _ => TypeError
  | _ => ValueError
  end.

Section Dates.

(** pandas' parser for the values of a column that are not datetimes yet
    (strings, epoch numbers); [None] when it rejects the value. *)
Variable parse_datetime : cell -> option datetime.

Definition to_datetime_cell (c : cell) : res cell :=
  match c with
  | VNull => Ok VNull
  | VTime t => Ok (VTime t)
  | _ => match parse_datetime c with
         | Some t => Ok (VTime t)
         | None => Raise (conversion_error c)
         end
  end.

(** [pd.to_datetime(series)] *)
Definition to_datetime (s : list cell) : res (list cell) :=
  traverse to_datetime_cell s.

End Dates.

(** [.dt.to_period('M')] on one datetime: its year and month; [NaT] stays
    [NaT]. *)
Definition to_period_M (c : cell) : cell :=
  match c with
  | VTime t => VPeriod (year t) (month t)
  | _ => VNull
  end.

Definition PARTITION_COLUMN : string := "partition_month".

(** ** The records of the pipeline log *)

(** What a record of the pipeline log carries as metadata: nothing, the
    issues of a quality gate, the exception a stage caught ([str(e)]), the
    path of a file written, or a dictionary of KPIs. *)
Inductive meta :=
| NoMeta
| Issues (issues : gmap string DataQuality.finding)
| Error (e : exn)
| FilePath (file_path : string)
| Kpis (kpis : gmap string cell).

Definition record : Type := event meta.

(** The record a quality gate writes; [log_event] leaves an empty
    dictionary out. *)
Definition quality_record (ev : event (gmap string DataQuality.finding)) : record :=
  mkEvent (event_type ev) (message ev)
          (if truthy (metadata ev) then Issues (metadata ev) else NoMeta).

(** [str(n)] for a length. *)
Definition str_of_nat (n : nat) : string := NilEmpty.string_of_uint (Nat.to_uint n).

(** ** transform/bronze_transform.py *)

Module Bronze.

Section Stage.

Variable parse_datetime : cell -> option datetime.

(** [now] is what [datetime.datetime.now()] returns in the call and [today]
    what [datetime.datetime.today()] returns: two readings of the clock. *)
Definition add_metadata_columns (now today : datetime) (df : DataFrame)
    (cube_name : string) : res DataFrame :=
  let df := set_scalar df "cube_name" (VStr cube_name) in
  let df := set_scalar df "bronze_extraction_time" (VTime now) in
  if negb (has_column df PARTITION_COLUMN) then
    if has_column df "Date" then
      dates ← to_datetime parse_datetime (column df "Date");
      Ok (set_column df PARTITION_COLUMN (map to_period_M dates))
    else
      Ok (set_scalar df PARTITION_COLUMN (VPeriod (year today) (month today)))
  else Ok df.

End Stage.

(** The quality gate returns the table it was given, and logs one record
    whose metadata is the dictionary of issues. *)
Definition run_data_quality (df : DataFrame) (cube_name : string)
  : res (DataFrame * event (gmap string DataQuality.finding)) :=
  let issues : gmap string DataQuality.finding := ∅ in
  let null_report := DataQuality.validate_nulls df 0 in
  let issues := if truthy null_report
                then <["nulls" := DataQuality.Nulls null_report]> issues else issues in
  duplicates_report ← DataQuality.validate_duplicates df None;
  let issues := match duplicates_report with
                | Some d => <["duplicates" := DataQuality.Duplicates d]> issues
                | None => issues
                end in
  ranges_report ← DataQuality.validate_ranges df None;
  let issues := if truthy ranges_report
                then <["range_violations" := DataQuality.RangeViolations ranges_report]> issues
                else issues in
  if truthy issues
  then Ok (df, mkEvent "data_quality_issues"
                 ("Cube " +:+ cube_name +:+ " failed validation") issues)
  else Ok (df, mkEvent "data_quality_pass"
                 ("Cube " +:+ cube_name +:+ " passed all validation checks") ∅).

Definition BRONZE_PATH : string := "./data/bronze/".

(** [COLUMN_TYPES], in the order the dictionary lists its items. *)
Definition COLUMN_TYPES : list (string * string) :=
  [("Sales", "float"); ("Quantity", "int"); ("Date", "datetime64[ns]");
   ("Region", "string"); ("Country", "string"); ("City", "string");
   ("Product", "string")].

Section Casting.

(** [series.astype(dtype)]: the converted series, or the exception pandas
    raises when a value cannot be converted. *)
Variable astype : list cell -> string -> res (list cell).

(** The body of the loop of [enforce_column_types], on the table and the
    log so far. *)
Definition cast_column (st : DataFrame * list record) (item : string * string)
  : DataFrame * list record :=
  let col := fst item in
  let dtype := snd item in
  if has_column (fst st) col then
    match astype (column (fst st) col) dtype with
    | Ok s => (set_column (fst st) col s, snd st)
    | Raise e =>
        (fst st,
         snd st ++ [mkEvent "type_cast_error"
                      ("Failed to cast column " +:+ col +:+ " to " +:+ dtype)
                      (Error e)])
    end
  else st.

(** The table with its columns cast, and the records of the casts that
    failed. *)
Definition enforce_column_types (df : DataFrame) : DataFrame * list record :=
  foldl cast_column (df, []) COLUMN_TYPES.

Variable parse_datetime : cell -> option datetime.

(** [os.path.join(BRONZE_PATH, f"{cube_name}_bronze.parquet")], for a cube
    name that is the stem of a file name. *)
Definition bronze_file (cube_name : string) : string :=
  BRONZE_PATH +:+ cube_name +:+ "_bronze.parquet".

(** [save_bronze]: the file written, and the record logged.  The storage
    layer is taken to accept every table. *)
Definition save_bronze (files : gmap string DataFrame) (df : DataFrame)
    (cube_name : string) : gmap string DataFrame * record :=
  let file_path := bronze_file cube_name in
  (<[file_path := df]> files,
   mkEvent "bronze_save"
     ("Saved " +:+ str_of_nat (len df) +:+ " rows for cube " +:+ cube_name)
     (FilePath file_path)).

(** The body of the loop of [transform_bronze_layer] for one cube: the
    files of the Bronze folder and the log, before and after.  [now] and
    [today] give the readings of the clock while the cube named is
    processed. *)
Definition transform_cube (now today : string -> datetime)
    (st : gmap string DataFrame * list record) (cube : string * DataFrame)
  : gmap string DataFrame * list record :=
  let cube_name := fst cube in
  let files := fst st in
  let failed (log : list record) (e : exn) :=
    (files, log ++ [mkEvent "transform_error"
                      ("Failed transformation for cube " +:+ cube_name) (Error e)]) in
  let (df, cast_log) := enforce_column_types (snd cube) in
  let log := snd st ++ cast_log ++
             [mkEvent "type_enforce"
                ("Enforced column types for cube " +:+ cube_name) NoMeta] in
  match add_metadata_columns parse_datetime (now cube_name) (today cube_name)
                             df cube_name with
  | Raise e => failed log e
  | Ok df =>
      let log := log ++ [mkEvent "metadata_added"
                           ("Added metadata columns for cube " +:+ cube_name) NoMeta] in
      match run_data_quality df cube_name with
      | Raise e => failed log e
      | Ok (df, ev) =>
          let log := log ++ [quality_record ev] in
          let (files, saved) := save_bronze files df cube_name in
          (files, log ++ [saved])
      end
  end.

(** [transform_bronze_layer], from the dictionary [read_bronze_files]
    returned (its items in order) and the files of the Bronze folder. *)
Definition transform_bronze_layer (now today : string -> datetime)
    (all_cubes : list (string * DataFrame)) (files : gmap string DataFrame)
  : gmap string DataFrame * list record :=
  let log := [mkEvent "pipeline_start" "Starting Bronze transformation pipeline" NoMeta] in
  let (files, log) := foldl (transform_cube now today) (files, log) all_cubes in
  (files, log ++ [mkEvent "pipeline_end"
                    "Bronze transformation pipeline completed successfully" NoMeta]).

End Casting.

End Bronze.

(** ** bronze_transform.py, the configuration-driven variant of the stage *)

Module BronzeConfigured.

Section Stage.

Variable parse_datetime : cell -> option datetime.

(** [config["partitioning"]["column"]], read from a file that is not part of
    the sources. *)
Variable PARTITION_COL : string.

(** The table [save_bronze] hands to the storage layer. *)
Definition save_bronze (df : DataFrame) (table_name : string) : res DataFrame :=
  if negb (has_column df PARTITION_COL) then
    if has_column df "Date" then
      dates ← to_datetime parse_datetime (column df "Date");
      Ok (set_column df PARTITION_COL (map to_period_M dates))
    else
      Ok (set_scalar df PARTITION_COL (VPeriod 2025 11))
  else Ok df.

End Stage.

End BronzeConfigured.

(** ** hashlib.md5 (RFC 1321), on the bytes of a string

    A Python [str] is modelled by the bytes of its UTF-8 encoding, so
    [s.encode()] is the identity. *)

Module MD5.

Definition mask32 : Z := 0xffffffff.
Definition add32 (a b : Z) : Z := Z.land (a + b) mask32.
Definition not32 (a : Z) : Z := Z.lxor a mask32.
Definition rotl32 (x : Z) (c : Z) : Z :=
  Z.lor (Z.land (Z.shiftl x c) mask32) (Z.shiftr x (32 - c)).

Definition shifts : list Z :=
  [7; 12; 17; 22; 7; 12; 17; 22; 7; 12; 17; 22; 7; 12; 17; 22;
   5; 9; 14; 20; 5; 9; 14; 20; 5; 9; 14; 20; 5; 9; 14; 20;
   4; 11; 16; 23; 4; 11; 16; 23; 4; 11; 16; 23; 4; 11; 16; 23;
   6; 10; 15; 21; 6; 10; 15; 21; 6; 10; 15; 21; 6; 10; 15; 21].

Definition sines : list Z :=
  [0xd76aa478; 0xe8c7b756; 0x242070db; 0xc1bdceee;
   0xf57c0faf; 0x4787c62a; 0xa8304613; 0xfd469501;
   0x698098d8; 0x8b44f7af; 0xffff5bb1; 0x895cd7be;
   0x6b901122; 0xfd987193; 0xa679438e; 0x49b40821;
   0xf61e2562; 0xc040b340; 0x265e5a51; 0xe9b6c7aa;
   0xd62f105d; 0x02441453; 0xd8a1e681; 0xe7d3fbc8;
   0x21e1cde6; 0xc33707d6; 0xf4d50d87; 0x455a14ed;
   0xa9e3e905; 0xfcefa3f8; 0x676f02d9; 0x8d2a4c8a;
   0xfffa3942; 0x8771f681; 0x6d9d6122; 0xfde5380c;
   0xa4beea44; 0x4bdecfa9; 0xf6bb4b60; 0xbebfbc70;
   0x289b7ec6; 0xeaa127fa; 0xd4ef3085; 0x04881d05;
   0xd9d4d039; 0xe6db99e5; 0x1fa27cf8; 0xc4ac5665;
   0xf4292244; 0x432aff97; 0xab9423a7; 0xfc93a039;
   0x655b59c3; 0x8f0ccc92; 0xffeff47d; 0x85845dd1;
   0x6fa87e4f; 0xfe2ce6e0; 0xa3014314; 0x4e0811a1;
   0xf7537e82; 0xbd3af235; 0x2ad7d2bb; 0xeb86d391].

(** The message followed by the bit 1, zero bits up to 56 modulo 64 bytes, and
    the bit length as 8 little-endian bytes. *)
Definition le_bytes (n : nat) (x : Z) : list Z :=
  map (fun i => Z.land (Z.shiftr x (8 * Z.of_nat i)) 0xff) (seq 0 n).

Definition pad (msg : list Z) : list Z :=
  let n := Z.of_nat (length msg) in
  let zeros := Z.to_nat ((55 - n) mod 64) in
  msg ++ [0x80] ++ replicate zeros 0 ++ le_bytes 8 (Z.land (8 * n) 0xffffffffffffffff).

Fixpoint word_le (bs : list Z) : Z :=
  match bs with
  | [] => 0
  | b :: bs' => b + 256 * word_le bs'
  end.

Fixpoint words (n : nat) (bs : list Z) : list Z :=
  match n with
  | O => []
  | S n' => word_le (take 4 bs) :: words n' (drop 4 bs)
  end.

Record state := mkState { sa : Z; sb : Z; sc : Z; sd : Z }.

Definition round (m : list Z) (st : state) (i : nat) : state :=
  let '(mkState a b c d) := st in
  let iz := Z.of_nat i in
  let '(f, g) :=
    if iz <? 16 then (Z.lor (Z.land b c) (Z.land (not32 b) d), iz)
    else if iz <? 32 then (Z.lor (Z.land d b) (Z.land (not32 d) c), (5 * iz + 1) mod 16)
    else if iz <? 48 then (Z.lxor (Z.lxor b c) d, (3 * iz + 5) mod 16)
    else (Z.lxor c (Z.lor b (not32 d)), (7 * iz) mod 16) in
  let f := add32 (add32 (add32 f a) (nth i sines 0)) (nth (Z.to_nat g) m 0) in
  mkState d (add32 b (rotl32 f (nth i shifts 0))) b c.

Definition chunk (st : state) (block : list Z) : state :=
  let m := words 16 block in
  let st' := fold_left (round m) (seq 0 64) st in
  mkState (add32 (sa st) (sa st')) (add32 (sb st) (sb st'))
          (add32 (sc st) (sc st')) (add32 (sd st) (sd st')).

Fixpoint chunks (n : nat) (st : state) (bs : list Z) : state :=
  match n with
  | O => st
  | S n' => chunks n' (chunk st (take 64 bs)) (drop 64 bs)
  end.

Definition digest (msg : list Z) : list Z :=
  let p := pad msg in
  let st := chunks (length p / 64) (mkState 0x67452301 0xefcdab89 0x98badcfe 0x10325476) p in
  le_bytes 4 (sa st) ++ le_bytes 4 (sb st) ++ le_bytes 4 (sc st) ++ le_bytes 4 (sd st).

Definition hex_digit (n : Z) : Ascii.ascii :=
  Ascii.ascii_of_nat (Z.to_nat (if n <? 10 then 48 + n else 87 + n)).

Fixpoint hex (bs : list Z) : string :=
  match bs with
  | [] => EmptyString
  | b :: bs' => String (hex_digit (b / 16)) (String (hex_digit (b mod 16)) (hex bs'))
  end.

Fixpoint bytes_of_string (s : string) : list Z :=
  match s with
  | EmptyString => []
  | String a s' => Z.of_nat (Ascii.nat_of_ascii a) :: bytes_of_string s'
  end.

(** [hashlib.md5(s.encode()).hexdigest()] *)
Definition hexdigest (s : string) : string := hex (digest (bytes_of_string s)).

End MD5.

(** ** transform/silver_transform.py *)

Module Silver.

Definition SCD_TYPE2_COLUMNS : list string := ["Sales"; "Quantity"].

(** [sep.join(l)] *)
Fixpoint join (sep : string) (l : list string) : string :=
  match l with
  | [] => EmptyString
  | [x] => x
  | x :: l' => x +:+ sep +:+ join sep l'
  end.

Section Keys.

(** Python's [str] on the value of a cell. *)
Variable str : cell -> string.

Definition generate_surrogate_key (args : list cell) : string :=
  let concat_str := join "_" (map str args) in
  MD5.hexdigest concat_str.

(** [series.drop_duplicates()]: the first occurrence of each value. *)
Fixpoint drop_duplicates_from (seen s : list cell) : list cell :=
  match s with
  | [] => []
  | c :: s' =>
      if existsb (cell_eqb c) seen then drop_duplicates_from seen s'
      else c :: drop_duplicates_from (c :: seen) s'
  end.

Definition drop_duplicates (s : list cell) : list cell := drop_duplicates_from [] s.

(** [df[[col]].drop_duplicates().copy()] *)
Definition distinct_values (df : DataFrame) (col : string) : DataFrame :=
  mkDF [col] (map (fun v => [v]) (drop_duplicates (column df col))).

(** [int(x.strftime("%Y%m%d"))]: [NaT] has no [strftime] result, and a
    value that is no datetime has no [strftime] at all. *)
Definition date_key (x : cell) : res cell :=
  match x with
  | VTime t => Ok (VInt (year t * 10000 + month t * 100 + day t))
  | VNull => Raise ValueError
  | _ => Raise AttributeError
  end.

(** One dimension keyed by the hash of its value. *)
Definition hashed_dimension (df : DataFrame) (dims : gmap string DataFrame)
    (col : string) : gmap string DataFrame :=
  if has_column df col then
    let dim := distinct_values df col in
    let dim := set_column dim (col +:+ "Key")
                 (map (fun x => VStr (generate_surrogate_key [x])) (column dim col)) in
    <["Dim" +:+ col := dim]> dims
  else dims.

Definition build_dimensions (df : DataFrame) : res (gmap string DataFrame) :=
  let dims : gmap string DataFrame := ∅ in
  dims ← (if has_column df "Date" then
            let dim_date := distinct_values df "Date" in
            keys ← traverse date_key (column dim_date "Date");
            Ok (<["DimDate" := set_column dim_date "DateKey" keys]> dims)
          else Ok dims);
  let region_cols := ["Region"; "Country"; "City"] in
  let dims := foldl (hashed_dimension df) dims region_cols in
  let dims := hashed_dimension df dims "Product" in
  Ok dims.

End Keys.

(** The columns [pd.merge] joins on. *)
Definition merge_keys : list string := "cube_name" :: SCD_TYPE2_COLUMNS.

(** Names [pd.merge(..., indicator=True)] refuses to find among the columns
    of either side. *)
Definition indicator_names : list string :=
  ["_merge"; "_left_indicator"; "_right_indicator"].

(** Whether a row of the incoming table finds a row of the history with the
    same key. *)
Definition matches (df hist : DataFrame) (r : list cell) : bool :=
  existsb (fun h => row_eqb (project df merge_keys r) (project hist merge_keys h))
          (rows hist).

(** The rows of the left join that [_merge] marks ["left_only"]. *)
Definition left_only (df hist : DataFrame) : list (list cell) :=
  List.filter (fun r => negb (matches df hist r)) (rows df).

(** [series.isin(values)] *)
Definition isin (s values : list cell) : list bool :=
  map (fun c => existsb (cell_eqb c) values) s.

(** [df.loc[mask, name] = v]: a column that does not exist yet is created,
    missing outside the mask. *)
Definition set_where (df : DataFrame) (mask : list bool) (name : string) (v : cell)
  : DataFrame :=
  match index_of name (columns df) with
  | Some i =>
      mkDF (columns df)
           (zip_with (fun r (m : bool) => if m then <[i := v]> r else r) (rows df) mask)
  | None =>
      mkDF (columns df ++ [name])
           (zip_with (fun r (m : bool) => r ++ [if m then v else VNull]) (rows df) mask)
  end.

(** [pd.concat([a, b], ignore_index=True)]: the columns of [a], then those
    of [b] that [a] lacks; a cell nobody provides is missing. *)
Definition concat (a b : DataFrame) : DataFrame :=
  let cols := columns a ++ List.filter (fun c => negb (has_column a c)) (columns b) in
  mkDF cols (map (project a cols) (rows a) ++ map (project b cols) (rows b)).

(** A column of the incoming table that the left join renames (suffix
    [_x]): one that is no key and that the history has too. *)
Definition renamed_by_merge (hist : DataFrame) (c : string) : bool :=
  negb (existsb (String.eqb c) merge_keys) && has_column hist c.

(** [now] is the reading of the clock in the call.  The second component is
    the caller's [historical_df] object as the call leaves it: the function
    updates it in place. *)
Definition apply_scd_type2 (now : datetime) (df : DataFrame)
    (historical_df : option DataFrame) : res DataFrame * option DataFrame :=
  let df := set_scalar df "EffectiveDate" (VTime now) in
  let df := set_scalar df "EndDate" VNull in
  let df := set_scalar df "CurrentFlag" (VBool true) in
  match historical_df with
  | None => (Ok df, None)
  | Some hist =>
      if negb (forallb (has_column df) merge_keys && forallb (has_column hist) merge_keys)
      then (Raise KeyError, Some hist)
      else if existsb (fun c => has_column df c || has_column hist c) indicator_names
      then (Raise ValueError, Some hist)
      else
        let updated := left_only df hist in
        match updated with
        | [] => (Ok df, Some hist)
        | _ :: _ =>
            let mask := isin (column hist "cube_name")
                             (column (mkDF (columns df) updated) "cube_name") in
            let hist' := set_where hist mask "CurrentFlag" (VBool false) in
            let hist' := set_where hist' mask "EndDate" (VTime now) in
            if existsb (renamed_by_merge hist) (columns df)
            then (Raise KeyError, Some hist')
            else (Ok (concat hist' (mkDF (columns df) updated)), Some hist')
        end
  end.

Definition run_data_quality (df : DataFrame) (cube_name : string)
  : res (DataFrame * event (gmap string DataQuality.finding)) :=
  let issues : gmap string DataQuality.finding := ∅ in
  let null_report := DataQuality.validate_nulls df 0 in
  let issues := if truthy null_report
                then <["nulls" := DataQuality.Nulls null_report]> issues else issues in
  duplicates_report ← DataQuality.validate_duplicates df None;
  let issues := match duplicates_report with
                | Some d => <["duplicates" := DataQuality.Duplicates d]> issues
                | None => issues
                end in
  if truthy issues
  then Ok (df, mkEvent "silver_data_quality_issues"
                 ("Cube " +:+ cube_name +:+ " validation failed") issues)
  else Ok (df, mkEvent "silver_data_quality_pass"
                 ("Cube " +:+ cube_name +:+ " passed validation") ∅).

Definition SILVER_PATH : string := "./data/silver/".

(** [os.path.join(SILVER_PATH, f"{cube_name}_silver.parquet")], for a cube
    name that is the stem of a file name. *)
Definition silver_file (cube_name : string) : string :=
  SILVER_PATH +:+ cube_name +:+ "_silver.parquet".

(** [save_silver]: the file written, and the record logged.  The storage
    layer is taken to accept every table. *)
Definition save_silver (files : gmap string DataFrame) (df : DataFrame)
    (cube_name : string) : gmap string DataFrame * record :=
  let file_path := silver_file cube_name in
  (<[file_path := df]> files,
   mkEvent "silver_save"
     ("Saved " +:+ str_of_nat (len df) +:+ " rows for cube " +:+ cube_name)
     (FilePath file_path)).

(** The state of the loop of [transform_silver_layer]: the dictionary
    [historical_data], the files of the Silver folder, and the log. *)
Record pipeline_state := mkState {
  historical_data : gmap string DataFrame;
  files : gmap string DataFrame;
  log : list record }.

Section Pipeline.

Variable str : cell -> string.

(** The reading of the clock while the cube named is processed. *)
Variable now : string -> datetime.

(** The body of the loop for one cube.  [apply_scd_type2] updates the
    history table it is given in place, and that table is the object the
    dictionary holds. *)
Definition transform_cube (st : pipeline_state) (cube : string * DataFrame)
  : pipeline_state :=
  let cube_name := fst cube in
  let df := snd cube in
  let failed (hist : gmap string DataFrame) (log : list record) (e : exn) :=
    mkState hist (files st)
      (log ++ [mkEvent "silver_transform_error"
                 ("Failed to transform cube " +:+ cube_name) (Error e)]) in
  match build_dimensions str df with
  | Raise e => failed (historical_data st) (log st) e
  | Ok dims =>
      let log := log st ++
                 [mkEvent "silver_dimensions"
                    ("Created " +:+ str_of_nat (size dims) +:+ " dimensions") NoMeta] in
      let hist_df := historical_data st !! cube_name in
      let (df_scd, hist_df) := apply_scd_type2 (now cube_name) df hist_df in
      let hist := match hist_df with
                  | Some h => <[cube_name := h]> (historical_data st)
                  | None => historical_data st
                  end in
      match df_scd with
      | Raise e => failed hist log e
      | Ok df_scd =>
          match run_data_quality df_scd cube_name with
          | Raise e => failed hist log e
          | Ok (df_scd, ev) =>
              let log := log ++ [quality_record ev] in
              let (files, saved) := save_silver (files st) df_scd cube_name in
              mkState (<[cube_name := df_scd]> hist) files (log ++ [saved])
          end
      end
  end.

(** [transform_silver_layer], from the dictionary [read_bronze_files]
    returned (its items in order) and the files of the Silver folder.
    [historical_data] starts as the empty dictionary. *)
Definition transform_silver_layer (all_cubes : list (string * DataFrame))
    (folder : gmap string DataFrame) : pipeline_state :=
  let start := [mkEvent "pipeline_start" "Starting Silver transformation pipeline" NoMeta] in
  let st := foldl transform_cube (mkState ∅ folder start) all_cubes in
  mkState (historical_data st) (files st)
    (log st ++ [mkEvent "pipeline_end"
                  "Silver transformation pipeline completed successfully" NoMeta]).

End Pipeline.

End Silver.

(** ** transform/gold_transform.py *)

Module Gold.

(** [series.replace(0, 1)]: a number equal to zero becomes 1; pandas leaves
    booleans as they are. *)
Definition replace_zero (c : cell) : cell :=
  match c with
  | VInt z => if z =? 0 then VInt 1 else c
  | VFloat q => if Qeq_bool q 0 then VInt 1 else c
  | _ => c
  end.

(** An operand of a float division: missing, finite, or infinite. *)
Inductive operand := ONull | OFin (q : Q) | OInf (neg : bool).

Definition operand_of (c : cell) : res operand :=
  match c with
  | VNull => Ok ONull
  | VInf s => Ok (OInf s)
  | _ => match num_of_cell c with
         | Some q => Ok (OFin q)
         | None => Raise TypeError
         end
  end.

(** Float division of two cells, as [series / series] does it row by row:
    a missing operand gives a missing result, a zero divisor an infinity
    (or NaN for 0/0) and no exception; only operands that are no numbers
    raise. *)
Definition cell_div (a b : cell) : res cell :=
  x ← operand_of a;
  y ← operand_of b;
  Ok (match x, y with
      | ONull, _ | _, ONull => VNull
      | OInf _, OInf _ => VNull
      | OInf s, OFin y => VInf (if Qlt_le_dec y 0 then negb s else s)
      | OFin _, OInf _ => VFloat 0
      | OFin x, OFin y =>
          if Qeq_bool y 0
          then (if Qeq_bool x 0 then VNull
                else VInf (if Qlt_le_dec x 0 then true else false))
          else VFloat (Qred (x / y))
      end).

Fixpoint series_div (s1 s2 : list cell) : res (list cell) :=
  match s1, s2 with
  | a :: s1', b :: s2' => q ← cell_div a b; qs ← series_div s1' s2'; Ok (q :: qs)
  | _, _ => Ok []
  end.

Section Stage.

Variable parse_datetime : cell -> option datetime.

(** The first block of [enrich_with_dimensions]: the year-month partition,
    if it is missing. *)
Definition derive_partition (df : DataFrame) : res DataFrame :=
  if negb (has_column df PARTITION_COLUMN) && has_column df "Date" then
    dates ← to_datetime parse_datetime (column df "Date");
    Ok (set_column df PARTITION_COLUMN (map to_period_M dates))
  else Ok df.

(** The second block: the derived metrics. *)
Definition derive_metrics (df : DataFrame) : res DataFrame :=
  if has_column df "Sales" && has_column df "Quantity" then
    ratio ← series_div (column df "Sales") (map replace_zero (column df "Quantity"));
    Ok (set_column df "SalesPerUnit" ratio)
  else Ok df.

Definition enrich_with_dimensions (df : DataFrame) : res DataFrame :=
  df ← derive_partition df;
  derive_metrics df.

End Stage.

Definition run_data_quality (df : DataFrame) (cube_name : string)
  : res (DataFrame * event (gmap string DataQuality.finding)) :=
  let issues : gmap string DataQuality.finding := ∅ in
  let null_report := DataQuality.validate_nulls df 0 in
  let issues := if truthy null_report
                then <["nulls" := DataQuality.Nulls null_report]> issues else issues in
  duplicates_report ← DataQuality.validate_duplicates df None;
  let issues := match duplicates_report with
                | Some d => <["duplicates" := DataQuality.Duplicates d]> issues
                | None => issues
                end in
  if truthy issues
  then Ok (df, mkEvent "gold_data_quality_issues"
                 ("Cube " +:+ cube_name +:+ " validation failed") issues)
  else Ok (df, mkEvent "gold_data_quality_pass"
                 ("Cube " +:+ cube_name +:+ " passed validation") ∅).

(** *** Aggregation *)

(** The aggregation functions [AGGREGATIONS] names. *)
Inductive agg_func := Sum | Mean | Max | Min.

Definition func_name (f : agg_func) : string :=
  match f with
  | Sum => "sum"
  | Mean => "mean"
  | Max => "max"
  | Min => "min"
  end.

(** [AGGREGATIONS], in the order the dictionary lists its items. *)
Definition AGGREGATIONS : list (string * list agg_func) :=
  [("Sales", [Sum; Mean; Max; Min]); ("Quantity", [Sum; Mean])].

(** One aggregate of the values of a group; missing values are left out,
    as in [Series.sum()] and the like. *)
Definition aggregate (f : agg_func) (xs : list (option Q)) : cell :=
  match f with
  | Sum => Metrics.series_sum xs
  | Mean => Metrics.series_mean xs
  | Max => Metrics.series_max xs
  | Min => Metrics.series_min xs
  end.

Fixpoint Zs_compare (a b : list Z) : comparison :=
  match a, b with
  | [], [] => Eq
  | [], _ :: _ => Lt
  | _ :: _, [] => Gt
  | x :: a', y :: b' =>
      match x ?= y with
      | Eq => Zs_compare a' b'
      | c => c
      end
  end.

(** The order in which [groupby] sorts the values of a key column: strings
    by code point, periods and datetimes by date, numbers by value.  Two
    values of different kinds do not occur in one column of the tables
    modelled; they compare as equal here. *)
Definition cell_compare (a b : cell) : comparison :=
  match a, b with
  | VStr x, VStr y => String.compare x y
  | VPeriod y1 m1, VPeriod y2 m2 => Zs_compare [y1; m1] [y2; m2]
  | VTime x, VTime y =>
      Zs_compare [year x; month x; day x; hour x; minute x; second x; microsecond x]
                 [year y; month y; day y; hour y; minute y; second y; microsecond y]
  | _, _ =>
      match num_of_cell a, num_of_cell b with
      | Some x, Some y => Qcompare x y
      | _, _ => Eq
      end
  end.

(** Keys of several columns are ordered column by column. *)
Fixpoint key_compare (k1 k2 : list cell) : comparison :=
  match k1, k2 with
  | [], [] => Eq
  | [], _ :: _ => Lt
  | _ :: _, [] => Gt
  | a :: k1', b :: k2' =>
      match cell_compare a b with
      | Eq => key_compare k1' k2'
      | c => c
      end
  end.

Fixpoint insert_key (k : list cell) (ks : list (list cell)) : list (list cell) :=
  match ks with
  | [] => [k]
  | h :: t =>
      match key_compare k h with
      | Gt => h :: insert_key k t
      | _ => k :: ks
      end
  end.

(** [sort=True] *)
Definition sort_keys (ks : list (list cell)) : list (list cell) :=
  foldr insert_key [] ks.

(** The first occurrence of each key. *)
Fixpoint distinct_keys (seen ks : list (list cell)) : list (list cell) :=
  match ks with
  | [] => []
  | k :: ks' =>
      if existsb (row_eqb k) seen then distinct_keys seen ks'
      else k :: distinct_keys (k :: seen) ks'
  end.

(** [dropna=True]: a row with a missing value in its key belongs to no
    group. *)
Definition complete (k : list cell) : bool := negb (existsb isna k).

(** The keys of the groups of [df.groupby(group_by)], in the order of the
    result. *)
Definition group_keys (df : DataFrame) (group_by : list string) : list (list cell) :=
  sort_keys (distinct_keys []
               (List.filter complete (map (project df group_by) (rows df)))).

(** The values of the series [xs] in the rows of the group of key [k]. *)
Definition group_values (df : DataFrame) (group_by : list string) (k : list cell)
    (xs : list (option Q)) : list (option Q) :=
  map snd (List.filter (Metrics.same_key k)
             (zip_with pair (map (project df group_by) (rows df)) xs)).

(** The entries of [AGGREGATIONS] for the columns the table has. *)
Definition agg_dict (df : DataFrame) : list (string * list agg_func) :=
  List.filter (fun item => has_column df (fst item)) AGGREGATIONS.

(** The flattened names of the aggregated columns: ["_".join(col).strip()]
    on the pairs of a column and a function. *)
Definition flat_names (aggs : list (string * list agg_func)) : list string :=
  flat_map (fun item => map (fun f => fst item +:+ "_" +:+ func_name f) (snd item)) aggs.

Section Aggregation.

(** What [df.groupby(group_by).agg(...)], with the names flattened and the
    index reset, makes of keys pandas does not take as the names of columns
    of the table: a name that is no column, or no key at all on a table
    without rows. *)
Variable irregular_groupby : DataFrame -> list string -> res DataFrame.

(** Keys that are columns of the table, at least one of them: one row for
    each group, the key and then the aggregates.  Aggregating a column that
    is not numeric raises; [reset_index] refuses to insert a key column
    under a name the table already has. *)
Definition aggregate_gold (df : DataFrame) (group_by : list string) : res DataFrame :=
  match agg_dict df with
  | [] => Ok df
  | aggs =>
      match group_by with
      | [] => if (0 <? len df)%nat then Raise ValueError
              else irregular_groupby df group_by
      | _ =>
          if negb (forallb (has_column df) group_by) then irregular_groupby df group_by
          else
            series ← traverse (fun item =>
                                 xs ← Metrics.numbers (column df (fst item));
                                 Ok (snd item, xs)) aggs;
            let aggregates (k : list cell) :=
              flat_map (fun fx => map (fun f => aggregate f
                                                  (group_values df group_by k (snd fx)))
                                      (fst fx)) series in
            let names := group_by ++ flat_names aggs in
            if bool_decide (NoDup names)
            then Ok (mkDF names (map (fun k => k ++ aggregates k) (group_keys df group_by)))
            else Raise ValueError
      end
  end.

(** *** The pipeline *)

Variable parse_datetime : cell -> option datetime.

Definition GOLD_PATH : string := "./data/gold/".

(** [os.path.join(GOLD_PATH, f"{cube_name}_gold.parquet")], for a cube name
    that is the stem of a file name. *)
Definition gold_file (cube_name : string) : string :=
  GOLD_PATH +:+ cube_name +:+ "_gold.parquet".

(** [save_gold]: the file written, and the record logged.  The storage
    layer is taken to accept every table. *)
Definition save_gold (files : gmap string DataFrame) (df : DataFrame)
    (cube_name : string) : gmap string DataFrame * record :=
  let file_path := gold_file cube_name in
  (<[file_path := df]> files,
   mkEvent "gold_save"
     ("Saved " +:+ str_of_nat (len df) +:+ " rows for Gold cube " +:+ cube_name)
     (FilePath file_path)).

Definition group_by_cols : list string :=
  ["Region"; "Country"; "City"; "Product"; PARTITION_COLUMN].

(** The keys of the dictionary [calculate_kpis] returns, in the order in
    which it makes them. *)
Definition kpi_order : list string :=
  flat_map (fun col => map (fun prefix => prefix +:+ Metrics.lower col)
                           ["total_"; "avg_"; "max_"; "min_"; "cumulative_"])
           ["Sales"; "Quantity"; "Stock"] ++
  map (fun col => "rolling_avg_" +:+ Metrics.lower col) ["Sales"; "Quantity"].

(** A column put at the right of the table, whatever the names the table
    has. *)
Definition append_column (df : DataFrame) (name : string) (vals : list cell)
  : DataFrame :=
  mkDF (columns df ++ [name]) (zip_with (fun r v => r ++ [v]) (rows df) vals).

(** [pd.concat([df_agg, pd.DataFrame([kpis] * len(df_agg))], axis=1)]: one
    constant column for each KPI; none when the table has no rows. *)
Definition with_kpis (df_agg : DataFrame) (kpis : gmap string cell) : DataFrame :=
  foldl (fun df k =>
           match kpis !! k with
           | Some v => if (0 <? len df_agg)%nat
                       then append_column df k (replicate (len df_agg) v)
                       else df
           | None => df
           end) df_agg kpi_order.

(** [str(group_by)], for names without quotes. *)
Definition str_of_names (names : list string) : string :=
  "[" +:+ Silver.join ", " (map (fun n => "'" +:+ n +:+ "'") names) +:+ "]".

(** The body of the loop of [transform_gold_layer] for one cube: the files
    of the Gold folder and the log, before and after.  A table in which two
    columns have one name makes the quality gate raise (the null ratio of
    such a column is no number). *)
Definition transform_cube (st : gmap string DataFrame * list record)
    (cube : string * DataFrame) : gmap string DataFrame * list record :=
  let cube_name := fst cube in
  let files := fst st in
  let failed (log : list record) (e : exn) :=
    (files, log ++ [mkEvent "gold_transform_error"
                      ("Failed Gold transformation for cube " +:+ cube_name) (Error e)]) in
  match enrich_with_dimensions parse_datetime (snd cube) with
  | Raise e => failed (snd st) e
  | Ok df =>
      let log := snd st ++ [mkEvent "gold_enrichment"
                              "Enriched Silver dataframe with derived metrics" NoMeta] in
      let group_by := List.filter (has_column df) group_by_cols in
      match aggregate_gold df group_by with
      | Raise e => failed log e
      | Ok df_agg =>
          let log := match agg_dict df with
                     | [] => log
                     | _ => log ++ [mkEvent "gold_aggregation"
                                      ("Aggregated Gold table on " +:+ str_of_names group_by)
                                      NoMeta]
                     end in
          match Metrics.calculate_kpis df_agg with
          | Raise e => failed log e
          | Ok kpis =>
              let df_agg := with_kpis df_agg kpis in
              let log := log ++ [mkEvent "gold_kpis"
                                   ("Calculated KPIs for cube " +:+ cube_name)
                                   (Kpis kpis)] in
              if bool_decide (NoDup (columns df_agg)) then
                match run_data_quality df_agg cube_name with
                | Raise e => failed log e
                | Ok (df_agg, ev) =>
                    let log := log ++ [quality_record ev] in
                    let (files, saved) := save_gold files df_agg cube_name in
                    (files, log ++ [saved])
                end
              else failed log ValueError
          end
      end
  end.

(** [transform_gold_layer], from the dictionary [read_silver_files]
    returned (its items in order) and the files of the Gold folder. *)
Definition transform_gold_layer (all_cubes : list (string * DataFrame))
    (files : gmap string DataFrame) : gmap string DataFrame * list record :=
  let log := [mkEvent "pipeline_start" "Starting Gold transformation pipeline" NoMeta] in
  let (files, log) := foldl transform_cube (files, log) all_cubes in
  (files, log ++ [mkEvent "pipeline_end"
                    "Gold transformation pipeline completed successfully" NoMeta]).

End Aggregation.

End Gold.

(** ** extract/extract_mdx.py *)

Module Extract.

(** What an attempt to reach a cube can raise: an error of the driver or of
    the SQL layer, with its message, or a Python exception of the code
    modelled here. *)
Inductive error :=
| DriverError (message : string)
| PythonError (e : exn).

(** The outcome of a [try] block. *)
Inductive attempt (A : Type) :=
| Success (a : A)
| Failure (err : error).
Arguments Success {A} a.
Arguments Failure {A} err.

(** An entry of [config["mdx"]["cubes"]]. *)
Record cube_config := mkCube {
  name : string;
  query : string;
  server : string;
  database : string;
  username : string;
  password : string }.

(** A record of the log; the metadata is the error, if there is one.  The
    records [connect_mdx] writes are left out. *)
Definition record : Type := event (option error).

Definition MAX_RETRIES : nat := 3.

Section Extraction.

(** [config["partitioning"]["column"]] *)
Variable PARTITION_COL : string.

Variable parse_datetime : cell -> option datetime.

(** The source: what [connect_mdx], [pd.read_sql] and [conn.close()] give
    for a cube at the attempt of the given number (from 0). *)
Variable fetch : cube_config -> nat -> attempt DataFrame.

(** The readings of the clock in the attempt of the given number. *)
Variables today now : nat -> datetime.

(** The body of the [try] block of [extract_cube]: the table it returns, or
    the exception it raises, and the record it writes. *)
Definition try_extract (cube : cube_config) (i : nat) : attempt DataFrame * list record :=
  match fetch cube i with
  | Failure err => (Failure err, [])
  | Success df =>
      let log := [mkEvent "extraction"
                    ("Extracted " +:+ str_of_nat (len df) +:+ " rows from cube '" +:+
                     name cube +:+ "'") None] in
      let partitioned :=
        if negb (has_column df PARTITION_COL) then
          if has_column df "Date" then
            dates ← to_datetime parse_datetime (column df "Date");
            Ok (set_column df PARTITION_COL (map to_period_M dates))
          else
            Ok (set_scalar df PARTITION_COL
                  (VPeriod (year (today i)) (month (today i))))
        else Ok df in
      match partitioned with
      | Raise e => (Failure (PythonError e), log)
      | Ok df =>
          let df := set_scalar df "cube_name" (VStr (name cube)) in
          let df := set_scalar df "extraction_timestamp" (VTime (now i)) in
          (Success df, log)
      end
  end.

(** The loop [while attempt < MAX_RETRIES], with [fuel] the number of
    attempts left, [MAX_RETRIES - attempt].  A loop that ends without a
    [return] makes the function return [None]. *)
Fixpoint retry (cube : cube_config) (fuel i : nat) (log : list record)
  : attempt (option DataFrame) * list record :=
  match fuel with
  | O => (Success None, log)
  | S fuel' =>
      match try_extract cube i with
      | (Success df, written) => (Success (Some df), log ++ written)
      | (Failure err, written) =>
          let i := S i in
          let log := log ++ written ++
                     [mkEvent "extraction_error"
                        ("Attempt " +:+ str_of_nat i +:+ " failed for cube '" +:+
                         name cube +:+ "'") (Some err)] in
          if (MAX_RETRIES <=? i)%nat then (Failure err, log)
          else retry cube fuel' i
                 (log ++ [mkEvent "extraction_retry"
                            ("Retrying cube '" +:+ name cube +:+ "' extraction") None])
      end
  end.

Definition extract_cube (cube : cube_config) : attempt (option DataFrame) * list record :=
  retry cube MAX_RETRIES 0 [].

(** One step of either loop of [extract_all_cubes]: the result of the
    extraction of a cube is stored under the name of the cube, and an
    exception is logged and dropped. *)
Definition collect (results : gmap string (option DataFrame)) (cube : cube_config)
  : gmap string (option DataFrame) :=
  match fst (extract_cube cube) with
  | Success df => <[name cube := df]> results
  | Failure _ => results
  end.

(** [extract_all_cubes]: the dictionary it returns.  [completed] is the
    order in which the futures complete when the extraction is parallel, a
    permutation of [MDX_CUBES]; what the source gives a cube is taken not to
    depend on the other extractions under way. *)
Definition extract_all_cubes (MDX_CUBES : list cube_config) (parallel : bool)
    (completed : list cube_config) : gmap string (option DataFrame) :=
  if parallel then foldl collect ∅ completed
  else foldl collect ∅ MDX_CUBES.

End Extraction.

End Extract.

(** ** api/api.py *)

Module Api.

Definition API_TOKEN : string := "securetoken123".

(** [CACHE_TTL], in seconds. *)
Definition CACHE_TTL : Q := 300.

(** What a request can end with instead of a result: an [HTTPException],
    or an exception nothing handles. *)
Inductive http_error :=
| HTTPException (status_code : Z) (detail : string)
| Unhandled (e : exn).

Inductive response (A : Type) :=
| Returns (a : A)
| Raises (err : http_error).
Arguments Returns {A} a.
Arguments Raises {A} err.

(** [verify_token] *)
Definition verify_token (x_api_key : string) : response unit :=
  if negb (String.eqb x_api_key API_TOKEN)
  then Raises (HTTPException 401 "Unauthorized")
  else Returns tt.

(** [s.endswith(suffix)]: some tail of [s] is [suffix]. *)
Fixpoint endswith (s suffix : string) : bool :=
  if String.eqb s suffix then true
  else match s with
       | EmptyString => false
       | String _ s' => endswith s' suffix
       end.

(** The Gold folder: the names [os.listdir] gives, in its order, each with
    what [pd.read_parquet] makes of the file. *)
Definition folder : Type := list (string * res DataFrame).

(** [get_gold_tables] *)
Definition get_gold_tables (gold : folder) : list string :=
  List.filter (fun f => endswith f ".parquet") (map fst gold).

(** The file of a given name in the folder. *)
Fixpoint file (gold : folder) (file_name : string) : option (res DataFrame) :=
  match gold with
  | [] => None
  | (f, content) :: gold' => if String.eqb f file_name then Some content
                             else file gold' file_name
  end.

(** [CACHE]: the table and the time at which it was read. *)
Definition cache : Type := gmap string (DataFrame * datetime).

(** [df.to_dict(orient="records")]: one dictionary for each row; of two
    columns of one name the later wins. *)
Definition to_dict_records (df : DataFrame) : list (gmap string cell) :=
  map (fun r => foldl (fun m cv => <[fst cv := snd cv]> m) ∅
                      (zip_with pair (columns df) r)) (rows df).

(** [df[mask]] *)
Fixpoint select_rows (rs : list (list cell)) (mask : list bool) : list (list cell) :=
  match rs, mask with
  | r :: rs', m :: mask' => if m then r :: select_rows rs' mask' else select_rows rs' mask'
  | _, _ => []
  end.

(** [df.head(n)]: the first [n] rows, or all but the last [-n]. *)
Definition head (df : DataFrame) (n : Z) : DataFrame :=
  if 0 <=? n then mkDF (columns df) (take (Z.to_nat n) (rows df))
  else mkDF (columns df) (take (len df - Z.to_nat (- n)) (rows df)).

(** [df.columns] and [df[name]], for the functions that have parameters
    called [columns] and [column]. *)
Definition header (df : DataFrame) : list string := columns df.
Definition series (df : DataFrame) (name : string) : list cell := column df name.

(** [calculate_metrics] *)
Definition calculate_metrics (df : DataFrame) : res (gmap string cell) :=
  let metrics : gmap string cell := ∅ in
  metrics ← (if has_column df "Sales" then
               xs ← Metrics.numbers (column df "Sales");
               let metrics := <["total_sales" := Metrics.series_sum xs]> metrics in
               let metrics := <["avg_sales" := Metrics.series_mean xs]> metrics in
               let metrics := <["max_sales" := Metrics.series_max xs]> metrics in
               Ok (<["min_sales" := Metrics.series_min xs]> metrics)
             else Ok metrics);
  if has_column df "Quantity" then
    ys ← Metrics.numbers (column df "Quantity");
    let metrics := <["total_quantity" := Metrics.series_sum ys]> metrics in
    Ok (<["avg_quantity" := Metrics.series_mean ys]> metrics)
  else Ok metrics.

Section Service.

Variable gold : folder.

(** [(now - timestamp).total_seconds()] *)
Variable total_seconds : datetime -> datetime -> Q.

(** [df.query(filters)], with the exception it raises on an expression it
    cannot evaluate. *)
Variable query : DataFrame -> string -> res DataFrame.

(** [series.astype(str).str.contains(value, case=False, na=False)], with
    the exception it raises on a pattern it cannot compile. *)
Variable contains : list cell -> string -> res (list bool).

(** [str(e)] *)
Variable str_of_exn : exn -> string.

(** [load_table]: what it returns or raises, and the cache as it leaves
    it.  [now] is the reading of the clock in the call. *)
Definition load_table (table_name : string) (now : datetime) (c : cache)
  : response DataFrame * cache :=
  match file gold (table_name +:+ ".parquet") with
  | None =>
      (Raises (HTTPException 404 ("Table '" +:+ table_name +:+ "' not found")), c)
  | Some content =>
      let read :=
        match content with
        | Ok df => (Returns df, <[table_name := (df, now)]> c)
        | Raise e => (Raises (Unhandled e), c)
        end in
      match c !! table_name with
      | Some (df, timestamp) =>
          if Qlt_le_dec (total_seconds now timestamp) CACHE_TTL
          then (Returns df, c)
          else read
      | None => read
      end
  end.

(** The body of [query_table] once the table is loaded.  [columns] and
    [filters] are [None] when the request leaves them out; FastAPI admits a
    [limit] from 1 to 1000 and an [offset] that is not negative. *)
Definition query_rows (df : DataFrame) (columns : option (list string))
    (limit offset : nat) (filters : option string)
  : response (list (gmap string cell)) :=
  let filtered :=
    match filters with
    | Some (String a s) =>
        match query df (String a s) with
        | Ok df => Returns df
        | Raise e => Raises (HTTPException 400 ("Invalid filter: " +:+ str_of_exn e))
        end
    | _ => Returns df
    end in
  match filtered with
  | Raises err => Raises err
  | Returns df =>
      let selected :=
        match columns with
        | Some (c :: cs) =>
            let missing_cols :=
              List.filter (fun c => negb (has_column df c)) (c :: cs) in
            match missing_cols with
            | [] => Returns (mkDF (c :: cs) (map (project df (c :: cs)) (rows df)))
            | _ => Raises (HTTPException 400
                             ("Columns not found: " +:+ Gold.str_of_names missing_cols))
            end
        | _ => Returns df
        end in
      match selected with
      | Raises err => Raises err
      | Returns df =>
          let df_paginated :=
            mkDF (header df) (take limit (drop offset (rows df))) in
          Returns (to_dict_records df_paginated)
      end
  end.

(** [query_table], behind [verify_token]. *)
Definition query_table (x_api_key table_name : string) (columns : option (list string))
    (limit offset : nat) (filters : option string) (now : datetime) (c : cache)
  : response (list (gmap string cell)) * cache :=
  match verify_token x_api_key with
  | Raises err => (Raises err, c)
  | Returns _ =>
      match load_table table_name now c with
      | (Raises err, c) => (Raises err, c)
      | (Returns df, c) => (query_rows df columns limit offset filters, c)
      end
  end.

(** [get_metrics], behind [verify_token]. *)
Definition get_metrics (x_api_key table_name : string) (now : datetime) (c : cache)
  : response (gmap string cell) * cache :=
  match verify_token x_api_key with
  | Raises err => (Raises err, c)
  | Returns _ =>
      match load_table table_name now c with
      | (Raises err, c) => (Raises err, c)
      | (Returns df, c) =>
          match calculate_metrics df with
          | Ok metrics => (Returns metrics, c)
          | Raise e => (Raises (Unhandled e), c)
          end
      end
  end.

(** The loop of [search_tables] over the tables left, with the results so
    far.  [now] gives the reading of the clock when the table named is
    loaded. *)
Fixpoint search_loop (column value : string) (limit : Z) (now : string -> datetime)
    (tables : list string) (results : list (string * list (gmap string cell)))
    (c : cache) : response (list (string * list (gmap string cell))) * cache :=
  match tables with
  | [] => (Returns results, c)
  | table_name :: tables' =>
      match load_table table_name (now table_name) c with
      | (Raises err, c) => (Raises err, c)
      | (Returns df, c) =>
          if has_column df column then
            match contains (series df column) value with
            | Raise e => (Raises (Unhandled e), c)
            | Ok mask =>
                let matches := mkDF (header df) (select_rows (rows df) mask) in
                let results :=
                  match rows matches with
                  | [] => results
                  | _ => results ++ [(table_name, to_dict_records (head matches limit))]
                  end in
                search_loop column value limit now tables' results c
            end
          else search_loop column value limit now tables' results c
      end
  end.

(** [search_tables], behind [verify_token]. *)
Definition search_tables (x_api_key column value : string) (limit : Z)
    (now : string -> datetime) (c : cache)
  : response (list (string * list (gmap string cell))) * cache :=
  match verify_token x_api_key with
  | Raises err => (Raises err, c)
  | Returns _ => search_loop column value limit now (get_gold_tables gold) [] c
  end.

End Service.

End Api.

(** * The vocabulary of the statements *)

(** The batch of the null-gate example: four rows, one missing sale. *)
Definition null_gate_batch : DataFrame :=
  mkDF ["Sales"] [[VInt 100]; [VNull]; [VInt 200]; [VInt 300]].

(** Three rows, one missing sale: a null ratio of one third. *)
Definition one_third_batch : DataFrame :=
  mkDF ["Sales"] [[VNull]; [VInt 1]; [VInt 2]].

(** Eight hundred rows, seventeen missing sales: a null ratio of 0.02125,
    half way between 0.0212 and 0.0213. *)
Definition tie_batch : DataFrame :=
  mkDF ["Sales"] (replicate 17 [VNull] ++ replicate 783 [VInt 1]).

(** A null report that maps exactly the columns whose null ratio exceeds the
    threshold to that ratio. *)
Definition reports_null_ratios (df : DataFrame) (threshold : Q)
    (report : gmap string Q) : Prop :=
  forall col v,
    report !! col = Some v <->
    col ∈ columns df /\
    exists r, DataQuality.null_ratio (column df col) = Some r /\
              (threshold < r)%Q /\ (v == r)%Q.

(** The mean of the last [k] values of a series, as [Series.mean()] takes
    it. *)
Definition mean_of_last (k : nat) (xs : list (option Q)) : cell :=
  Metrics.series_mean (drop (length xs - k) xs).

(** The rolling average the claim describes: at position [i], the mean of
    the last [min (i + 1) w] values seen so far. *)
Definition partial_window_mean (w : nat) (xs : list (option Q)) (i : nat) : cell :=
  mean_of_last (Nat.min (i + 1) w) (take (i + 1) xs).

(** The state of the window agrees with the values [l] it holds. *)
Definition tracks (st : Z * Q) (l : list (option Q)) : Prop :=
  fst st = Z.of_nat (length (Metrics.present l)) /\
  (snd st == Metrics.Qsum (Metrics.present l))%Q.

(** The values in a window of [w] rows once position [i] has been
    processed. *)
Definition window_at (w : nat) (xs : list (option Q)) (i : nat) : list (option Q) :=
  drop (i + 1 - w) (take (i + 1) xs).

(** The table of the rolling-average example. *)
Definition rolling_example : DataFrame :=
  mkDF ["Sales"] [[VInt 10]; [VInt 20]; [VInt 30]; [VInt 40]].

(** An empty table that has the column the KPIs read. *)
Definition empty_sales : DataFrame := mkDF ["Sales"] [].

(** The partition values of the table a stage produces. *)
Definition partition_values (name : string) (r : res DataFrame) : res (list cell) :=
  df ← r; Ok (column df name).

(** The rule both stages share, for the value [fallback] used when the table
    has neither column. *)
Definition assigned_partition (parse_datetime : cell -> option datetime)
    (name : string) (fallback : cell) (df : DataFrame)
  : res (list cell) :=
  if has_column df name then Ok (column df name)
  else if has_column df "Date" then
    dates ← to_datetime parse_datetime (column df "Date");
    Ok (map to_period_M dates)
  else Ok (replicate (len df) fallback).

(** A batch with neither a partition column nor a date column. *)
Definition undated_batch : DataFrame := mkDF ["Sales"] [[VInt 1]].

Definition run_in_november : datetime := mkDatetime 2025 11 30 23 59 0 0.
Definition run_in_december : datetime := mkDatetime 2025 12 1 0 1 0 0.

(** Partition assignment as the claim wants it: whatever the clock says,
    the same input gets the same partition values. *)
Definition partition_independent_of_clock
    (parse_datetime : cell -> option datetime) (df : DataFrame) (cube_name : string) : Prop :=
  forall now1 today1 now2 today2,
    partition_values PARTITION_COLUMN
      (Bronze.add_metadata_columns parse_datetime now1 today1 df cube_name) =
    partition_values PARTITION_COLUMN
      (Bronze.add_metadata_columns parse_datetime now2 today2 df cube_name).

(** A cell of a numeric measure: a finite number, or missing. *)
Definition measure (c : cell) : Prop :=
  match c with
  | VNull | VInt _ | VFloat _ => True
  | _ => False
  end.

(** The ratio the claim describes: the sales divided by the quantity, with
    1 in the place of a quantity of 0; missing when an operand is. *)
Definition guarded_ratio (sales quantity : cell) : cell :=
  match num_of_cell sales, num_of_cell quantity with
  | Some s, Some q => VFloat (Qred (s / (if Qeq_bool q 0 then 1 else q)))
  | _, _ => VNull
  end.

(** Three sales rows: a quantity of zero, a quantity of four, a missing
    sale with a zero quantity. *)
Definition zero_quantity_batch : DataFrame :=
  mkDF ["Sales"; "Quantity"]
       [[VFloat 100; VInt 0]; [VFloat 50; VInt 4]; [VNull; VFloat 0]].

(** ** History rows *)

(** The identity of a row in the history merge: its cube and its tracked
    attributes. *)
Definition identity (df : DataFrame) (r : list cell) : list cell :=
  project df Silver.merge_keys r.

(** The rows of a table that carry the identity [id]. *)
Definition versions (df : DataFrame) (id : list cell) : list (list cell) :=
  List.filter (fun r => row_eqb (identity df r) id) (rows df).

(** An open row: [CurrentFlag] true and no [EndDate]. *)
Definition is_open (df : DataFrame) (r : list cell) : bool :=
  cell_eqb (cell_at df "CurrentFlag" r) (VBool true) && isna (cell_at df "EndDate" r).

Definition open_versions (df : DataFrame) (id : list cell) : list (list cell) :=
  List.filter (is_open df) (versions df id).

(** The interval a row is valid for. *)
Definition interval (df : DataFrame) (r : list cell) : cell * cell :=
  (cell_at df "EffectiveDate" r, cell_at df "EndDate" r).

Definition datetime_fields (t : datetime) : list Z :=
  [year t; month t; day t; hour t; minute t; second t; microsecond t].

Fixpoint lex_ltb (a b : list Z) : bool :=
  match a, b with
  | x :: a', y :: b' => (x <? y) || ((x =? y) && lex_ltb a' b')
  | _, _ => false
  end.

Definition datetime_ltb (a b : datetime) : bool :=
  lex_ltb (datetime_fields a) (datetime_fields b).

(** Intervals in order, each starting where the one before ends; only the
    last may be open. *)
Inductive chain : list (cell * cell) -> Prop :=
| chain_nil : chain []
| chain_open s : chain [(VTime s, VNull)]
| chain_closed s e : datetime_ltb s e = true -> chain [(VTime s, VTime e)]
| chain_step s e iv l :
    datetime_ltb s e = true -> chain ((VTime e, iv) :: l) ->
    chain ((VTime s, VTime e) :: (VTime e, iv) :: l).

(** Contiguous and non-overlapping: the intervals can be put in a chain. *)
Definition contiguous (l : list (cell * cell)) : Prop :=
  exists l', Permutation l l' /\ chain l'.

(** The history invariant of the claim, on one table. *)
Definition history_invariant (df : DataFrame) : Prop :=
  forall id,
    (length (open_versions df id) <= 1)%nat /\
    contiguous (map (interval df) (versions df id)).

(** The invariant holds of whatever table the merge returns. *)
Definition history_invariant_after (now : datetime) (df : DataFrame)
    (historical_df : option DataFrame) : Prop :=
  forall out,
    fst (Silver.apply_scd_type2 now df historical_df) = Ok out -> history_invariant out.

(** No two rows of the batch carry the same identity. *)
Definition distinct_identities (df : DataFrame) : Prop :=
  forall id, (length (versions df id) <= 1)%nat.

(** A table that carries the three history columns. *)
Definition history_table (h : DataFrame) : Prop :=
  has_column h "EffectiveDate" = true /\
  has_column h "EndDate" = true /\
  has_column h "CurrentFlag" = true.

(** What [df[name] = v] does to one row. *)
Definition tagged (df : DataFrame) (name : string) (v : cell) (r : list cell) : list cell :=
  match index_of name (columns df) with
  | Some i => <[i := v]> r
  | None => r ++ [v]
  end.

(** The incoming table once it carries the three history columns. *)
Definition stamped (now : datetime) (df : DataFrame) : DataFrame :=
  set_scalar (set_scalar (set_scalar df "EffectiveDate" (VTime now)) "EndDate" VNull)
             "CurrentFlag" (VBool true).

Definition first_run : datetime := mkDatetime 2025 1 1 6 0 0 0.
Definition second_run : datetime := mkDatetime 2025 2 1 6 0 0 0.
Definition third_run : datetime := mkDatetime 2025 3 1 6 0 0 0.

(** Two regions of one cube that sold the same quantity for the same
    amount. *)
Definition twin_batch : DataFrame :=
  mkDF ["cube_name"; "Region"; "Sales"; "Quantity"]
       [[VStr "sales"; VStr "North"; VFloat 10; VInt 1];
        [VStr "sales"; VStr "South"; VFloat 10; VInt 1]].

(** Two rows with different tracked attributes. *)
Definition plain_batch : DataFrame :=
  mkDF ["cube_name"; "Sales"; "Quantity"]
       [[VStr "sales"; VFloat 10; VInt 1]; [VStr "sales"; VFloat 12; VInt 2]].

Definition history_columns : list string :=
  ["cube_name"; "Sales"; "Quantity"; "EffectiveDate"; "EndDate"; "CurrentFlag"].

(** A history with one closed version and the version that replaced it. *)
Definition closed_history : DataFrame :=
  mkDF history_columns
       [[VStr "sales"; VFloat 10; VInt 1; VTime first_run; VTime second_run; VBool false];
        [VStr "sales"; VFloat 12; VInt 1; VTime second_run; VNull; VBool true]].

(** The batch that repeats the current version of [closed_history]. *)
Definition unchanged_batch : DataFrame :=
  mkDF ["cube_name"; "Sales"; "Quantity"] [[VStr "sales"; VFloat 12; VInt 1]].

(** A batch with a new value of the tracked attributes. *)
Definition changed_batch : DataFrame :=
  mkDF ["cube_name"; "Sales"; "Quantity"] [[VStr "sales"; VFloat 15; VInt 1]].

Definition history_after_first_run : DataFrame :=
  mkDF history_columns
       [[VStr "sales"; VFloat 12; VInt 1; VTime first_run; VNull; VBool true]].

(** ** Surrogate keys *)

(** The dimension tables whose key is the hash of the value. *)
Definition hashed_columns : list string := ["Region"; "Country"; "City"; "Product"].

(** The canonical string form of the arguments of a key. *)
Definition canonical (str : cell -> string) (args : list cell) : string :=
  Silver.join "_" (map str args).

(** Every row of the table is a value next to the hash of the value. *)
Definition keyed (str : cell -> string) (t : DataFrame) : Prop :=
  forall r, r ∈ rows t ->
    exists v, r = [v; VStr (Silver.generate_surrogate_key str [v])].

(** The hashed dimensions of a dictionary of dimensions are keyed. *)
Definition hashed_keyed (str : cell -> string) (dims : gmap string DataFrame) : Prop :=
  forall c t, c ∈ hashed_columns -> dims !! ("Dim" +:+ c) = Some t -> keyed str t.

(** [str] on string values. *)
Definition str_of_text (c : cell) : string :=
  match c with
  | VStr s => s
  | _ => EmptyString
  end.

(** A batch in which a region and a product share a name. *)
Definition named_batch : DataFrame :=
  mkDF ["Region"; "Product"]
       [[VStr "North"; VStr "West"]; [VStr "South"; VStr "North"];
        [VStr "North"; VStr "North"]].

(** A batch whose second and third rows repeat the first. *)
Definition repeated_batch : DataFrame :=
  mkDF ["Region"; "Sales"]
       [[VStr "North"; VInt 10]; [VStr "North"; VInt 10]; [VStr "North"; VInt 10]].

(** ** More vocabulary: the quality checks *)

(** Some row of the list equals an earlier row. *)
Definition repeats (rs : list (list cell)) : Prop :=
  exists i j ri rj,
    (i < j)%nat /\ rs !! i = Some ri /\ rs !! j = Some rj /\ row_eqb rj ri = true.


(** The values of a series strictly below the lower limit, and strictly
    above the upper limit; a limit that is not given excludes nothing. *)
Definition below_limit (lim : DataQuality.limits) (c : cell) : bool :=
  match num_of_cell c, DataQuality.lim_min lim with
  | Some x, Some m => if Qlt_le_dec x m then true else false
  | _, _ => false
  end.

Definition above_limit (lim : DataQuality.limits) (c : cell) : bool :=
  match num_of_cell c, DataQuality.lim_max lim with
  | Some x, Some m => if Qlt_le_dec m x then true else false
  | _, _ => false
  end.

Definition count_where (p : cell -> bool) (s : list cell) : Z :=
  Z.of_nat (length (List.filter p s)).

(** A table with a repeated row and a missing sale. *)
Definition flawed_batch : DataFrame :=
  mkDF ["Region"; "Sales"]
       [[VStr "North"; VInt 10]; [VStr "South"; VNull]; [VStr "North"; VInt 10]].

(** A table without flaws. *)
Definition clean_batch : DataFrame :=
  mkDF ["Region"; "Sales"]
       [[VStr "North"; VInt 10]; [VStr "South"; VInt 20]; [VStr "North"; VInt 30]].

(** Limits for two measures, one of them one-sided. *)
Definition sales_limits : list (string * DataQuality.limits) :=
  [("Sales", DataQuality.mkLimits (Some 15%Q) (Some 25%Q));
   ("Stock", DataQuality.mkLimits (Some 0%Q) None)].

(** The entry the range check makes for one column and its limits, if it
    makes one. *)
Definition range_entry (df : DataFrame) (lim : DataQuality.limits) (col : string)
  : option (Z * Z) :=
  if has_column df col then
    let lo := count_where (below_limit lim) (column df col) in
    let hi := count_where (above_limit lim) (column df col) in
    if (0 <? lo) || (0 <? hi) then Some (lo, hi) else None
  else None.

(** The entry of a column under the first limits that name it. *)
Fixpoint expected_ranges (df : DataFrame) (ranges : list (string * DataQuality.limits))
    (col : string) : option (Z * Z) :=
  match ranges with
  | [] => None
  | (c, lim) :: rest =>
      if String.eqb col c then range_entry df lim col else expected_ranges df rest col
  end.

(** A table with a stock column. *)
Definition stock_batch : DataFrame :=
  mkDF ["Sales"; "Stock"]
       [[VInt 10; VInt 5]; [VInt 20; VInt (-1)]; [VNull; VInt 7]; [VInt 30; VNull];
        [VInt 15; VInt 0]].

(** ** More vocabulary: the KPIs *)

(** The running total at position [i]: the sum of the values present up to
    and including [i]; missing where the value at [i] is missing. *)
Definition running_total (xs : list (option Q)) (i : nat) : cell :=
  match xs !! i with
  | Some (Some _) => VFloat (Qred (Metrics.Qsum (Metrics.present (take (S i) xs))))
  | _ => VNull
  end.

(** The measures [calculate_kpis] looks for. *)
Definition KPI_COLUMNS : list string := ["Sales"; "Quantity"; "Stock"].

(** The entry of a KPI dictionary for one measure. *)
Definition kpi (m : gmap string cell) (prefix col : string) : option cell :=
  m !! (prefix +:+ Metrics.lower col).

(** The six entries [calculate_kpis] makes for a measure whose values are
    [xs]: no rolling average for ["Stock"]. *)
Definition kpis_of (m : gmap string cell) (col : string) (xs : list (option Q)) : Prop :=
  kpi m "total_" col = Some (Metrics.series_sum xs) /\
  kpi m "avg_" col = Some (Metrics.series_mean xs) /\
  kpi m "max_" col = Some (Metrics.series_max xs) /\
  kpi m "min_" col = Some (Metrics.series_min xs) /\
  kpi m "cumulative_" col = Some (running_total xs (length xs - 1)) /\
  kpi m "rolling_avg_" col =
    if String.eqb col "Stock" then None
    else Some (partial_window_mean 3 xs (length xs - 1)).

Definition no_kpis (m : gmap string cell) (col : string) : Prop :=
  kpi m "total_" col = None /\ kpi m "avg_" col = None /\
  kpi m "max_" col = None /\ kpi m "min_" col = None /\
  kpi m "cumulative_" col = None /\ kpi m "rolling_avg_" col = None.

(** Five days of sales and stock, one sale missing. *)
Definition week_batch : DataFrame :=
  mkDF ["Sales"; "Stock"]
       [[VInt 100; VInt 500]; [VInt 150; VInt 480]; [VNull; VInt 460];
        [VInt 130; VInt 450]; [VInt 170; VInt 440]].

(** ** More vocabulary: the Bronze stage *)

(** The type a dictionary of column types gives a column. *)
Fixpoint dtype_of (types : list (string * string)) (c : string) : option string :=
  match types with
  | [] => None
  | (k, d) :: rest => if String.eqb c k then Some d else dtype_of rest c
  end.

Section Casts.

Variable astype : list cell -> string -> res (list cell).

(** What the cast makes of a column of the table: its values converted to
    the type the dictionary names, or the values themselves when the
    dictionary does not name the column or the conversion fails. *)
Definition cast_of (types : list (string * string)) (df : DataFrame) (c : string)
  : list cell :=
  match dtype_of types c with
  | Some d => match astype (column df c) d with
              | Ok s => s
              | Raise _ => column df c
              end
  | None => column df c
  end.

(** The record of the cast of one column, if it fails on the table. *)
Definition cast_failure (df : DataFrame) (item : string * string) : list record :=
  if has_column df (fst item) then
    match astype (column df (fst item)) (snd item) with
    | Ok _ => []
    | Raise e =>
        [mkEvent "type_cast_error"
           ("Failed to cast column " +:+ fst item +:+ " to " +:+ snd item) (Error e)]
    end
  else [].

Definition cast_failures (types : list (string * string)) (df : DataFrame)
  : list record :=
  flat_map (cast_failure df) types.

End Casts.

(** A conversion that refuses to make integers of a series with a missing
    value, turns integers into floats, and leaves the rest. *)
Definition astype_example (s : list cell) (dtype : string) : res (list cell) :=
  if String.eqb dtype "int" then
    if existsb isna s then Raise ValueError else Ok s
  else if String.eqb dtype "float" then
    Ok (map (fun c => match c with VInt z => VFloat (inject_Z z) | _ => c end) s)
  else Ok s.

(** A raw extract: one quantity is missing. *)
Definition raw_batch : DataFrame :=
  mkDF ["Region"; "Sales"; "Quantity"]
       [[VStr "North"; VInt 10; VInt 1]; [VStr "South"; VInt 20; VNull]].

(** A value of a date column that [pd.to_datetime] rejects. *)
Definition unparsable (parse_datetime : cell -> option datetime) (c : cell) : Prop :=
  match c with
  | VNull | VTime _ => False
  | _ => parse_datetime c = None
  end.

(** A parser that knows one date. *)
Definition parse_example (c : cell) : option datetime :=
  match c with
  | VStr "2025-03-09" => Some (mkDatetime 2025 3 9 0 0 0 0)
  | _ => None
  end.

Definition dated_batch : DataFrame :=
  mkDF ["Date"; "Sales"] [[VStr "2025-03-09"; VInt 10]; [VNull; VInt 20]].

Definition misdated_batch : DataFrame :=
  mkDF ["Date"; "Sales"] [[VStr "2025-03-09"; VInt 10]; [VStr "yesterday"; VInt 20]].

Definition noon (y m d : Z) : datetime := mkDatetime y m d 12 0 0 0.

(** What the Bronze stage makes of one cube: the table it saves, or the
    exception it catches. *)
Definition bronze_outcome (astype : list cell -> string -> res (list cell))
    (parse_datetime : cell -> option datetime) (now today : string -> datetime)
    (cube : string * DataFrame) : res DataFrame :=
  Bronze.add_metadata_columns parse_datetime (now (fst cube)) (today (fst cube))
    (fst (Bronze.enforce_column_types astype (snd cube))) (fst cube).

Definition is_raise {A} (r : res A) : bool :=
  match r with Raise _ => true | Ok _ => false end.

(** The records of a given type in a log. *)
Definition records_of (type : string) (log : list record) : list record :=
  List.filter (fun r => String.eqb (event_type r) type) log.

(** ** More vocabulary: the Silver stage *)

(** The columns [build_dimensions] makes a dimension of. *)
Definition dimension_columns : list string :=
  ["Date"; "Region"; "Country"; "City"; "Product"].

(** No two places of the series hold equal values. *)
Definition distinct_cells (s : list cell) : Prop :=
  forall i j a b, s !! i = Some a -> s !! j = Some b -> cell_eqb a b = true -> i = j.

(** The series [d] holds values of [s], and every value of [s] equals one
    of [d]. *)
Definition same_values (s d : list cell) : Prop :=
  (forall c, c ∈ d -> c ∈ s) /\
  (forall c, c ∈ s -> exists c', c' ∈ d /\ cell_eqb c c' = true).


(** What the Silver stage makes of one cube on its first sight of it: the
    batch, every row stamped as the current version, or the exception
    [build_dimensions] raises. *)
Definition silver_outcome (str : cell -> string) (now : string -> datetime)
    (cube : string * DataFrame) : res DataFrame :=
  match Silver.build_dimensions str (snd cube) with
  | Ok _ => Ok (stamped (now (fst cube)) (snd cube))
  | Raise e => Raise e
  end.

(** A batch with dates, one of them missing. *)
Definition undated_row_batch : DataFrame :=
  mkDF ["Date"; "Region"]
       [[VTime (mkDatetime 2025 3 9 0 0 0 0); VStr "North"]; [VNull; VStr "South"]].

(** A batch in which a region shows up three times. *)
Definition regions_batch : DataFrame :=
  mkDF ["Region"; "Sales"]
       [[VStr "North"; VInt 10]; [VStr "South"; VInt 20]; [VStr "North"; VInt 30];
        [VNull; VInt 5]; [VStr "North"; VInt 7]].

(** ** More vocabulary: the Gold stage *)

(** No key of the list equals a later one. *)
Fixpoint all_distinct (ks : list (list cell)) : Prop :=
  match ks with
  | [] => True
  | k :: rest => (forall k', k' ∈ rest -> row_eqb k k' = false) /\ all_distinct rest
  end.

(** Each key is followed by one that does not come before it. *)
Fixpoint key_sorted (ks : list (list cell)) : Prop :=
  match ks with
  | k1 :: (k2 :: _) as rest => Gold.key_compare k1 k2 <> Gt /\ key_sorted rest
  | _ => True
  end.

(** The keys the table's rows have under the columns [group_by]. *)
Definition keys_of (df : DataFrame) (group_by : list string) : list (list cell) :=
  map (project df group_by) (rows df).

(** The values of a series in the rows whose key is complete. *)
Definition complete_values (df : DataFrame) (group_by : list string)
    (xs : list (option Q)) : list (option Q) :=
  map snd (List.filter (fun kx => Gold.complete (fst kx))
             (zip_with pair (keys_of df group_by) xs)).

(** Keys [aggregate_gold] groups by without asking more of pandas: at
    least one, each a column of the table, and none under a name an
    aggregate gets. *)
Definition regular_keys (df : DataFrame) (group_by : list string) : Prop :=
  group_by <> [] /\
  Forall (fun c => has_column df c = true) group_by /\
  NoDup (group_by ++ Gold.flat_names (Gold.agg_dict df)).

(** The aggregated columns of the table are numeric. *)
Definition numeric_measures (df : DataFrame) : Prop :=
  forall item, item ∈ Gold.agg_dict df -> Forall measure (column df (fst item)).

(** Sales by region and product, with a row that has no region. *)
Definition sales_batch : DataFrame :=
  mkDF ["Region"; "Product"; "Sales"; "Quantity"]
       [[VStr "South"; VStr "tea"; VInt 10; VInt 1];
        [VStr "North"; VStr "tea"; VInt 20; VInt 2];
        [VStr "South"; VStr "tea"; VInt 30; VNull];
        [VNull; VStr "tea"; VInt 5; VInt 1];
        [VStr "North"; VStr "cocoa"; VNull; VInt 4]].

(** A groupby that stands for pandas on irregular keys. *)
Definition no_irregular_groupby (df : DataFrame) (group_by : list string)
  : res DataFrame := Raise KeyError.

(** The aggregates of the group of key [k], for the series to aggregate and
    the functions to apply to each. *)
Definition aggregates_of (df : DataFrame) (group_by : list string)
    (series : list (list Gold.agg_func * list (option Q))) (k : list cell) : list cell :=
  flat_map (fun fx => map (fun f => Gold.aggregate f
                                      (Gold.group_values df group_by k (snd fx)))
                          (fst fx)) series.

(** The series to aggregate: the numbers of each aggregated column. *)
Definition series_of (df : DataFrame) (aggs : list (string * list Gold.agg_func))
  : res (list (list Gold.agg_func * list (option Q))) :=
  traverse (fun item => xs ← Metrics.numbers (column df (fst item)); Ok (snd item, xs)) aggs.

(** The value a present or missing number adds to a sum. *)
Definition addend (x : option Q) : Q :=
  match x with Some q => q | None => 0%Q end.

(** The sum of the sums of the groups of keys [G] over keyed values. *)
Fixpoint groups_sum (G : list (list cell)) (L : list (list cell * option Q)) : Q :=
  match G with
  | [] => 0%Q
  | k :: G' =>
      (Metrics.Qsum (Metrics.present (map snd (List.filter (Metrics.same_key k) L))) +
       groups_sum G' L)%Q
  end.

(** The keys the Gold pipeline groups a table by. *)
Definition gold_keys (df : DataFrame) : list string :=
  List.filter (has_column df) Gold.group_by_cols.

(** What the Gold stage makes of the table of one cube: the table it
    saves, or the exception it catches. *)
Definition gold_table (irregular_groupby : DataFrame -> list string -> res DataFrame)
    (parse_datetime : cell -> option datetime) (df : DataFrame) : res DataFrame :=
  df ← Gold.enrich_with_dimensions parse_datetime df;
  df_agg ← Gold.aggregate_gold irregular_groupby df (gold_keys df);
  kpis ← Metrics.calculate_kpis df_agg;
  let out := Gold.with_kpis df_agg kpis in
  if bool_decide (NoDup (columns out)) then Ok out else Raise ValueError.

(** A cube with measures and no dimension. *)
Definition bare_batch : DataFrame :=
  mkDF ["Sales"; "Quantity"] [[VInt 10; VInt 1]; [VInt 20; VInt 2]].

(** A cube without measures. *)
Definition visits_batch : DataFrame :=
  mkDF ["Region"; "Visits"] [[VStr "North"; VInt 3]; [VStr "South"; VInt 4]].

(** ** More vocabulary: the extraction *)

Definition failed {A} (r : Extract.attempt A) : bool :=
  match r with Extract.Failure _ => true | Extract.Success _ => false end.

(** The number of attempts that fail before the first that succeeds, among
    the attempts that may be made. *)
Fixpoint leading_failures {A} (r : nat -> Extract.attempt A) (i fuel : nat) : nat :=
  match fuel with
  | O => O
  | S fuel' => if failed (r i) then S (leading_failures r (S i) fuel') else O
  end.

(** What the attempt of a given number (from 0) at a cube ends with. *)
Definition attempt_outcome (PARTITION_COL : string)
    (parse_datetime : cell -> option datetime)
    (fetch : Extract.cube_config -> nat -> Extract.attempt DataFrame)
    (today now : nat -> datetime) (cube : Extract.cube_config) (i : nat)
  : Extract.attempt DataFrame :=
  fst (Extract.try_extract PARTITION_COL parse_datetime fetch today now cube i).

(** The records of a given type in the log of an extraction. *)
Definition extract_records_of (type : string) (log : list Extract.record)
  : list Extract.record :=
  List.filter (fun r => String.eqb (event_type r) type) log.

(** A source that answers at the third attempt. *)
Definition flaky_fetch (cube : Extract.cube_config) (i : nat) : Extract.attempt DataFrame :=
  if (i <? 2)%nat then Extract.Failure (Extract.DriverError "timeout")
  else Extract.Success dated_batch.

(** A source that never answers the cube named "returns". *)
Definition partial_fetch (cube : Extract.cube_config) (i : nat)
  : Extract.attempt DataFrame :=
  if String.eqb (Extract.name cube) "returns"
  then Extract.Failure (Extract.DriverError "refused")
  else Extract.Success dated_batch.

Definition cube_named (n : string) : Extract.cube_config :=
  Extract.mkCube n "SELECT 1" "" "" "" "".

(** ** More vocabulary: the API *)

(** A name with [k] more [.parquet] extensions. *)
Fixpoint with_extensions (t : string) (k : nat) : string :=
  match k with
  | O => t
  | S k' => with_extensions t k' +:+ ".parquet"
  end.


(** The keys the API's metrics and the pipeline's KPIs share. *)
Definition shared_metrics : list string :=
  ["total_sales"; "avg_sales"; "max_sales"; "min_sales"; "total_quantity"; "avg_quantity"].

(** A Gold folder with one table and a file of notes. *)
Definition gold_folder : Api.folder :=
  [("sales_gold.parquet", Ok week_batch); ("notes.txt", Raise ValueError)].

(** A folder without tables. *)
Definition notes_folder : Api.folder := [("notes.txt", Raise ValueError)].

Definition no_contains (s : list cell) (value : string) : res (list bool) :=
  Ok (map (fun _ => false) s).
Definition seconds_of_day (t : datetime) : Q :=
  inject_Z (hour t * 3600 + minute t * 60 + second t).
Definition same_day_seconds (now timestamp : datetime) : Q :=
  seconds_of_day now - seconds_of_day timestamp.
Definition at_time (h m : Z) : datetime := mkDatetime 2025 4 1 h m 0 0.

(** * Facts about tables *)

Lemma index_of_lookup name l i :
  index_of name l = Some i -> l !! i = Some name.
Proof.
  revert i. induction l as [|x l IH]; intros i; simpl; [discriminate|].
  destruct (String.eqb_spec name x) as [->|Hne].
  - intros [= <-]. reflexivity.
  - destruct (index_of name l) as [j|]; simpl; [|discriminate].
    intros [= <-]. simpl. apply IH. reflexivity.
Qed.

Lemma index_of_lt name l i :
  index_of name l = Some i -> (i < length l)%nat.
Proof. intros H. apply index_of_lookup in H. eapply lookup_lt_Some, H. Qed.

Lemma index_of_None name l :
  index_of name l = None <-> name ∉ l.
Proof.
  induction l as [|x l IH]; simpl.
  - split; [intros _; apply not_elem_of_nil | reflexivity].
  - destruct (String.eqb_spec name x) as [->|Hne].
    + split; [discriminate|]. intros H. exfalso. apply H. left.
    + destruct (index_of name l) as [j|]; simpl.
      * split; [discriminate|]. intros H. exfalso.
        assert (name ∉ l) as Hl by (intros ?; apply H; right; assumption).
        apply IH in Hl. discriminate.
      * split; [|reflexivity]. intros _ Hin.
        apply elem_of_cons in Hin as [?|Hin]; [contradiction|].
        destruct IH as [IH _]. apply (IH eq_refl), Hin.
Qed.

Lemma index_of_app_l name l l' i :
  index_of name l = Some i -> index_of name (l ++ l') = Some i.
Proof.
  revert i. induction l as [|x l IH]; intros i; simpl; [discriminate|].
  destruct (String.eqb name x); [tauto|].
  destruct (index_of name l) as [j|]; simpl; [|discriminate].
  intros [= <-]. rewrite (IH j eq_refl). reflexivity.
Qed.

Lemma index_of_app_new name l :
  index_of name l = None -> index_of name (l ++ [name]) = Some (length l).
Proof.
  induction l as [|x l IH]; simpl.
  - rewrite String.eqb_refl. reflexivity.
  - destruct (String.eqb name x); [discriminate|].
    destruct (index_of name l) as [j|]; simpl; [discriminate|].
    intros _. rewrite IH; reflexivity.
Qed.

Lemma index_of_app_other name x l :
  index_of name l = None -> name <> x -> index_of name (l ++ [x]) = None.
Proof.
  intros Hl Hne. apply index_of_None. apply index_of_None in Hl.
  intros Hin. apply elem_of_app in Hin as [?|Hin]; [contradiction|].
  apply list_elem_of_singleton in Hin. contradiction.
Qed.

Lemma has_column_true df c :
  has_column df c = true <-> c ∈ columns df.
Proof.
  unfold has_column. destruct (index_of c (columns df)) as [i|] eqn:E.
  - split; [|reflexivity]. intros _.
    apply list_elem_of_lookup. exists i. apply index_of_lookup, E.
  - split; [discriminate|]. intros Hin. apply index_of_None in E. contradiction.
Qed.

Lemma zip_with_length_eq {A B C} (f : A -> B -> C) l1 l2 :
  length l1 = length l2 -> length (zip_with f l1 l2) = length l1.
Proof.
  revert l2. induction l1 as [|a l1 IH]; intros [|b l2]; simpl; try discriminate; auto.
Qed.

Lemma zip_with_const {A B C} (f : A -> B -> C) l v :
  zip_with f l (replicate (length l) v) = map (fun a => f a v) l.
Proof. induction l as [|a l IH]; simpl; [reflexivity|]. rewrite IH. reflexivity. Qed.

Lemma columns_set_column df name vals :
  columns (set_column df name vals) =
  if has_column df name then columns df else columns df ++ [name].
Proof.
  unfold set_column, has_column. destruct (index_of name (columns df)); reflexivity.
Qed.

Lemma has_column_set_column df name vals c :
  has_column (set_column df name vals) c = has_column df c || String.eqb c name.
Proof.
  unfold has_column at 1. rewrite columns_set_column.
  destruct (has_column df name) eqn:Hn.
  - fold (has_column df c). destruct (String.eqb_spec c name) as [->|].
    + rewrite Hn. reflexivity.
    + rewrite orb_false_r. reflexivity.
  - unfold has_column in *.
    destruct (index_of c (columns df)) as [i|] eqn:Hc.
    + rewrite (index_of_app_l _ _ _ _ Hc). reflexivity.
    + destruct (String.eqb_spec c name) as [->|Hne].
      * rewrite index_of_app_new by assumption. reflexivity.
      * rewrite index_of_app_other by assumption. reflexivity.
Qed.

Lemma len_set_column df name vals :
  length vals = len df -> len (set_column df name vals) = len df.
Proof.
  intros H. unfold set_column, len in *.
  destruct (index_of name (columns df)); simpl; apply zip_with_length_eq; congruence.
Qed.

Lemma rows_set_scalar df name v :
  rows (set_scalar df name v) =
  match index_of name (columns df) with
  | Some i => map (fun r => <[i := v]> r) (rows df)
  | None => map (fun r => r ++ [v]) (rows df)
  end.
Proof.
  unfold set_scalar, set_column, len.
  destruct (index_of name (columns df)); simpl; rewrite zip_with_const; reflexivity.
Qed.

Lemma wf_set_column df name vals :
  wf df -> length vals = len df -> wf (set_column df name vals).
Proof.
  intros [Hnd Hrows] Hlen. unfold set_column.
  destruct (index_of name (columns df)) as [i|] eqn:E; split; simpl.
  - assumption.
  - unfold len in Hlen. clear E. revert vals Hlen.
    induction Hrows as [|r rs Hr Hrs IH]; intros [|v vals]; simpl;
      try discriminate; constructor.
    + rewrite length_insert. assumption.
    + apply IH. congruence.
  - apply NoDup_app. split; [assumption|]. split.
    + intros x Hx Hx'. apply list_elem_of_singleton in Hx'. subst x.
      apply index_of_None in E. contradiction.
    + apply NoDup_singleton.
  - unfold len in Hlen. clear E. revert vals Hlen.
    induction Hrows as [|r rs Hr Hrs IH]; intros [|v vals]; simpl;
      try discriminate; constructor.
    + rewrite !length_app. simpl. lia.
    + apply IH. congruence.
Qed.

Lemma column_set_column_same df name vals :
  wf df -> length vals = len df -> column (set_column df name vals) name = vals.
Proof.
  intros [_ Hrows] Hlen. unfold column, set_column, len in *.
  destruct (index_of name (columns df)) as [i|] eqn:E; simpl.
  - rewrite E. pose proof (index_of_lt _ _ _ E) as Hi. clear E.
    revert vals Hlen.
    induction Hrows as [|r rs Hr Hrs IH]; intros [|v vals]; simpl;
      try discriminate; [reflexivity|].
    intros [= Hlen]. rewrite IH by assumption. f_equal.
    apply nth_lookup_Some. apply list_lookup_insert_eq. lia.
  - rewrite index_of_app_new by assumption. clear E. revert vals Hlen.
    induction Hrows as [|r rs Hr Hrs IH]; intros [|v vals]; simpl;
      try discriminate; [reflexivity|].
    intros [= Hlen]. rewrite IH by assumption. f_equal.
    rewrite <- Hr. rewrite app_nth2 by lia. rewrite Nat.sub_diag. reflexivity.
Qed.

Lemma column_set_column_other df name vals c :
  wf df -> length vals = len df -> c <> name ->
  column (set_column df name vals) c = column df c.
Proof.
  intros [_ Hrows] Hlen Hne. unfold column, set_column, len in *.
  destruct (index_of name (columns df)) as [i|] eqn:E; simpl.
  - destruct (index_of c (columns df)) as [j|] eqn:Ec; [|reflexivity].
    assert (i <> j) as Hij.
    { intros <-. apply index_of_lookup in E, Ec. congruence. }
    clear E Ec. revert vals Hlen.
    induction Hrows as [|r rs Hr Hrs IH]; intros [|v vals]; simpl;
      try discriminate; [reflexivity|].
    intros [= Hlen]. rewrite IH by assumption. f_equal.
    destruct (r !! j) as [x|] eqn:Hj.
    + rewrite (nth_lookup_Some _ _ _ _ Hj).
      apply nth_lookup_Some. rewrite list_lookup_insert_ne; assumption.
    + apply lookup_ge_None in Hj.
      rewrite !nth_overflow; [reflexivity| lia | rewrite length_insert; lia].
  - destruct (index_of c (columns df)) as [j|] eqn:Ec.
    + rewrite (index_of_app_l _ _ _ _ Ec).
      pose proof (index_of_lt _ _ _ Ec) as Hj. clear E Ec. revert vals Hlen.
      induction Hrows as [|r rs Hr Hrs IH]; intros [|v vals]; simpl;
        try discriminate; [reflexivity|].
      intros [= Hlen]. rewrite IH by assumption. f_equal.
      apply app_nth1. lia.
    + rewrite index_of_app_other by assumption. reflexivity.
Qed.

Lemma length_column df c :
  has_column df c = true -> length (column df c) = len df.
Proof.
  unfold has_column, column, len. destruct (index_of c (columns df)); [|discriminate].
  intros _. apply length_map.
Qed.

Lemma wf_set_scalar df name v : wf df -> wf (set_scalar df name v).
Proof. intros H. apply wf_set_column; [assumption|]. apply length_replicate. Qed.

Lemma len_set_scalar df name v : len (set_scalar df name v) = len df.
Proof. apply len_set_column, length_replicate. Qed.

Lemma has_column_set_scalar df name v c :
  has_column (set_scalar df name v) c = has_column df c || String.eqb c name.
Proof. apply has_column_set_column. Qed.

Lemma column_set_scalar_same df name v :
  wf df -> column (set_scalar df name v) name = replicate (len df) v.
Proof. intros H. apply column_set_column_same; [assumption|]. apply length_replicate. Qed.

Lemma column_set_scalar_other df name v c :
  wf df -> c <> name -> column (set_scalar df name v) c = column df c.
Proof. intros H. apply column_set_column_other; [assumption|]. apply length_replicate. Qed.

(** Well-formedness of a table that is written out. *)
Ltac wf_concrete :=
  split; [apply (bool_decide_unpack _); vm_compute; exact I | repeat constructor].

(** Two cells equal to a third are equal to each other. *)
Lemma cell_eqb_common a b c :
  cell_eqb a c = true -> cell_eqb b c = true -> cell_eqb a b = true.
Proof.
  destruct a as [|x|x|x|x|x|x|x x'], b as [|y|y|y|y|y|y|y y'],
           c as [|z|z|z|z|z|z|z z'];
    simpl; try discriminate; intros H1 H2; try reflexivity;
    repeat match goal with
    | H : (_ && _)%bool = true |- _ => apply andb_prop in H as [? ?]
    | H : (_ =? _) = true |- _ => apply Z.eqb_eq in H
    | H : Qeq_bool _ _ = true |- _ => apply Qeq_bool_eq in H
    | H : String.eqb _ _ = true |- _ => apply String.eqb_eq in H
    | H : Bool.eqb _ _ = true |- _ => apply Bool.eqb_prop in H
    | H : datetime_eqb _ _ = true |- _ => unfold datetime_eqb in H
    end; subst;
    rewrite ?Z.eqb_refl, ?String.eqb_refl, ?Bool.eqb_reflx; try reflexivity.
  all: try (apply Qeq_eq_bool;
            first [ assumption | symmetry; assumption
                  | etransitivity; [eassumption | symmetry; eassumption] ]).
  - apply Z.eqb_eq, inject_Z_injective.
    etransitivity; [eassumption | symmetry; eassumption].
  - unfold datetime_eqb.
    repeat (apply andb_true_intro; split); apply Z.eqb_eq; congruence.
Qed.

Lemma row_eqb_common r1 r2 r3 :
  row_eqb r1 r3 = true -> row_eqb r2 r3 = true -> row_eqb r1 r2 = true.
Proof.
  revert r2 r3. induction r1 as [|a r1 IH]; intros [|b r2] [|c r3]; simpl;
    try discriminate; try reflexivity.
  intros H1 H2. apply andb_prop in H1 as [Ha H1], H2 as [Hb H2].
  rewrite (cell_eqb_common _ _ _ Ha Hb), (IH _ _ H1 H2). reflexivity.
Qed.

(** * The quality gate *)

Section Floats.






End Floats.

Section NullReport.

Lemma foldl_insert_lookup {A} (f : string -> option A) (l : list string)
    (m0 : gmap string A) (k : string) :
  foldl (fun m c => match f c with Some v => <[c := v]> m | None => m end) m0 l !! k =
  if decide (k ∈ l)
  then match f k with Some v => Some v | None => m0 !! k end
  else m0 !! k.
Proof.
  revert m0. induction l as [|a l IH]; intros m0; simpl.
  - destruct (decide (k ∈ [])) as [H|_]; [|reflexivity].
    apply elem_of_nil in H. contradiction.
  - rewrite IH. clear IH.
    assert ((match f a with Some v => <[a := v]> m0 | None => m0 end) !! k =
            if decide (k = a)
            then match f k with Some v => Some v | None => m0 !! k end
            else m0 !! k) as Hstep.
    { destruct (decide (k = a)) as [->|Hne].
      - destruct (f a); [apply lookup_insert_eq | reflexivity].
      - destruct (f a); [apply lookup_insert_ne; congruence | reflexivity]. }
    rewrite Hstep. clear Hstep.
    destruct (decide (k = a)) as [->|Hne].
    + destruct (decide (a ∈ a :: l)) as [_|Hn]; [|exfalso; apply Hn; left].
      destruct (decide (a ∈ l)), (f a); reflexivity.
    + destruct (decide (k ∈ l)) as [Hin|Hnin].
      * destruct (decide (k ∈ a :: l)) as [_|Hn]; [reflexivity|].
        exfalso. apply Hn. right. exact Hin.
      * destruct (decide (k ∈ a :: l)) as [Hin|_]; [|reflexivity].
        apply elem_of_cons in Hin as [?|?]; contradiction.
Qed.

Lemma validate_nulls_lookup df threshold col :
  DataQuality.validate_nulls df threshold !! col =
  if decide (col ∈ columns df) then DataQuality.null_entry df threshold col else None.
Proof.
  unfold DataQuality.validate_nulls.
  rewrite (foldl_insert_lookup (DataQuality.null_entry df threshold)).
  rewrite lookup_empty.
  destruct (decide (col ∈ columns df)); [|reflexivity].
  destruct (DataQuality.null_entry df threshold col); reflexivity.
Qed.

End NullReport.

(** C7, as the code has it: on a table with distinct column names the null
    report holds exactly the columns whose null ratio is strictly above the
    threshold, and maps each of them to its null ratio rounded to four
    decimal places, the ratio and the rounding being those of float64.  The
    batch with sales [100, null, 200, 300] gives ["Sales" -> 0.25] at
    threshold 0 and the empty report at threshold 0.5. *)
Theorem validate_nulls_reports_rounded_ratio :
  (forall df threshold col v,
     wf df ->
     (DataQuality.validate_nulls df threshold !! col = Some v <->
      col ∈ columns df /\
      exists r, DataQuality.null_ratio (column df col) = Some r /\
                (threshold < r)%Q /\ v = DataQuality.py_round r 4)) /\
  DataQuality.validate_nulls null_gate_batch 0 = {[ "Sales" := (1 # 4)%Q ]} /\
  DataQuality.validate_nulls null_gate_batch (1 # 2) = ∅.
Proof.
  split; [|split; vm_compute; reflexivity].
  intros df threshold col v _. rewrite validate_nulls_lookup.
  unfold DataQuality.null_entry.
  destruct (decide (col ∈ columns df)) as [Hin|Hnin].
  - destruct (DataQuality.null_ratio (column df col)) as [r|] eqn:Hr.
    + destruct (Qlt_le_dec threshold r) as [Hlt|Hle].
      * split.
        -- intros [= <-]. split; [assumption|]. exists r. auto.
        -- intros (_ & r' & [= <-] & _ & ->). reflexivity.
      * split; [discriminate|].
        intros (_ & r' & [= <-] & Hlt & _). exfalso.
        apply (Qlt_not_le _ _ Hlt), Hle.
    + split; [discriminate|]. intros (_ & r' & [=] & _).
  - split; [discriminate|]. intros [? _]. contradiction.
Qed.

Lemma wf_tie_batch : wf tie_batch.
Proof. wf_concrete. Qed.

(** With 17 missing sales in 800 rows the ratio is the float 0.02125; its
    product by 10000 is the float just above 212.5, and the report says
    0.0213, where the rounding of the exact ratio would give 0.0212. *)
Lemma validate_nulls_reports_rounded_ratio_witness :
  wf tie_batch /\
  DataQuality.validate_nulls tie_batch 0 !! "Sales" =
    Some (DataQuality.float64 (213 # 10000)).
Proof.
  split; [exact wf_tie_batch|].
  destruct validate_nulls_reports_rounded_ratio as [H _].
  apply (H tie_batch 0%Q "Sales" (DataQuality.float64 (213 # 10000)) wf_tie_batch).
  split; [left|]. exists (DataQuality.float64 (17 # 800)).
  repeat split; vm_compute; reflexivity.
Defined.

(** C7, as the claim words it, fails: with one missing sale in three rows the
    null ratio is the float nearest to 1/3, and the report says 0.3333. *)
Lemma validate_nulls_reports_ratio_counterexample :
  ~ reports_null_ratios one_third_batch 0
      (DataQuality.validate_nulls one_third_batch 0).
Proof.
  intros H.
  destruct (H "Sales" (DataQuality.float64 (3333 # 10000))) as [H1 _].
  destruct H1 as (_ & r & Hr & _ & Heq); [vm_compute; reflexivity|].
  vm_compute in Hr. injection Hr as <-.
  vm_compute in Heq. discriminate.
Qed.

Section Gates.

Lemma truthy_empty {A} : truthy (∅ : gmap string A) = false.
Proof. unfold truthy. rewrite map_size_empty. reflexivity. Qed.

Lemma validate_duplicates_total df :
  exists r, DataQuality.validate_duplicates df None = Ok r.
Proof.
  unfold DataQuality.validate_duplicates, DataQuality.duplicated. simpl.
  destruct (0 <? _); eauto.
Qed.

Lemma issues_without_ranges (nulls : gmap string Q) (dups : option DataQuality.dup_report) :
  (match dups with
   | Some d => <["duplicates" := DataQuality.Duplicates d]>
                 (if truthy nulls
                  then <["nulls" := DataQuality.Nulls nulls]> (∅ : gmap string DataQuality.finding)
                  else ∅)
   | None => if truthy nulls
             then <["nulls" := DataQuality.Nulls nulls]> (∅ : gmap string DataQuality.finding)
             else ∅
   end) !! "range_violations" = None.
Proof.
  destruct dups, (truthy nulls);
    repeat (rewrite lookup_insert_ne by discriminate); apply lookup_empty.
Qed.

End Gates.

(** C10: without a [ranges] argument (or with [None], or with an empty dict)
    [validate_ranges] returns the empty report for every table; the Bronze
    gate is the only gate that calls it, and calls it that way, so the issues
    that the Bronze, Silver and Gold gates log never hold a
    ["range_violations"] entry. *)
Theorem range_violations_never_reported :
  (forall df, DataQuality.validate_ranges df None = Ok ∅) /\
  (forall df, DataQuality.validate_ranges df (Some []) = Ok ∅) /\
  (forall df cube_name, exists ev,
     Bronze.run_data_quality df cube_name = Ok (df, ev) /\
     metadata ev !! "range_violations" = None) /\
  (forall df cube_name, exists ev,
     Silver.run_data_quality df cube_name = Ok (df, ev) /\
     metadata ev !! "range_violations" = None) /\
  (forall df cube_name, exists ev,
     Gold.run_data_quality df cube_name = Ok (df, ev) /\
     metadata ev !! "range_violations" = None).
Proof.
  split; [reflexivity|]. split; [reflexivity|].
  split; [|split]; intros df cube_name.
  - unfold Bronze.run_data_quality.
    destruct (validate_duplicates_total df) as [dups ->].
    cbn [mbind res_bind DataQuality.validate_ranges]. rewrite truthy_empty.
    destruct (truthy _) eqn:Hi; eexists; (split; [reflexivity|]); simpl.
    + apply issues_without_ranges.
    + apply lookup_empty.
  - unfold Silver.run_data_quality.
    destruct (validate_duplicates_total df) as [dups ->].
    cbn [mbind res_bind].
    destruct (truthy _) eqn:Hi; eexists; (split; [reflexivity|]); simpl.
    + apply issues_without_ranges.
    + apply lookup_empty.
  - unfold Gold.run_data_quality.
    destruct (validate_duplicates_total df) as [dups ->].
    cbn [mbind res_bind].
    destruct (truthy _) eqn:Hi; eexists; (split; [reflexivity|]); simpl.
    + apply issues_without_ranges.
    + apply lookup_empty.
Qed.

(** A duplicates report is only made when there are duplicates, and it
    carries at most five sample rows. *)
Theorem duplicates_report_bounded df subset r :
  DataQuality.validate_duplicates df subset = Ok (Some r) ->
  0 < DataQuality.num_duplicates r /\ (length (DataQuality.sample_rows r) <= 5)%nat.
Proof.
  unfold DataQuality.validate_duplicates.
  destruct (DataQuality.duplicated df subset) as [dup_mask|e]; simpl; [|discriminate].
  destruct (0 <? _) eqn:Hpos; [|discriminate].
  intros [= <-]. simpl. split.
  - apply Z.ltb_lt, Hpos.
  - rewrite length_map, length_take. lia.
Qed.

Lemma duplicates_report_example :
  exists r,
    DataQuality.validate_duplicates repeated_batch None = Ok (Some r) /\
    0 < DataQuality.num_duplicates r /\
    (length (DataQuality.sample_rows r) <= 5)%nat.
Proof.
  eexists. split; [reflexivity|].
  apply (duplicates_report_bounded repeated_batch None). reflexivity.
Defined.

(** * The KPI functions *)

Section Defaults.

Variable df : DataFrame.
Variable column_name : string.

(** The column is absent, or the table has no row. *)
Hypothesis Hempty : has_column df column_name = false \/ rows df = [].

Lemma column_of_empty : rows df = [] -> column df column_name = [].
Proof.
  intros H. unfold column. rewrite H. destruct (index_of _ _); reflexivity.
Qed.

Lemma total_default : Metrics.total df column_name = Ok (VFloat 0).
Proof.
  unfold Metrics.total. destruct (has_column df column_name) eqn:Hc; [|reflexivity].
  destruct Hempty as [?|Hr]; [discriminate|].
  rewrite (column_of_empty Hr). reflexivity.
Qed.

Lemma guard_false :
  has_column df column_name && (0 <? Z.of_nat (len df)) = false.
Proof.
  destruct Hempty as [->|Hr]; [reflexivity|].
  unfold len. rewrite Hr. apply andb_false_r.
Qed.

Lemma mean_default : Metrics.mean df column_name = Ok (VFloat 0).
Proof. unfold Metrics.mean. rewrite guard_false. reflexivity. Qed.

Lemma maximum_default : Metrics.maximum df column_name = Ok (VFloat 0).
Proof. unfold Metrics.maximum. rewrite guard_false. reflexivity. Qed.

Lemma minimum_default : Metrics.minimum df column_name = Ok (VFloat 0).
Proof. unfold Metrics.minimum. rewrite guard_false. reflexivity. Qed.

End Defaults.

(** The four KPI functions return 0 when the column is absent or the table
    is empty. *)
Theorem kpi_neutral_default df column_name :
  has_column df column_name = false \/ rows df = [] ->
  Metrics.total df column_name = Ok (VFloat 0) /\
  Metrics.mean df column_name = Ok (VFloat 0) /\
  Metrics.maximum df column_name = Ok (VFloat 0) /\
  Metrics.minimum df column_name = Ok (VFloat 0).
Proof.
  intros H. repeat split;
    [apply total_default | apply mean_default
     | apply maximum_default | apply minimum_default]; exact H.
Qed.

Lemma kpi_neutral_default_example :
  (has_column empty_sales "Sales" = false \/ rows empty_sales = []) /\
  Metrics.mean empty_sales "Sales" = Ok (VFloat 0).
Proof.
  split; [right; reflexivity|].
  apply (kpi_neutral_default empty_sales "Sales"). right. reflexivity.
Defined.

(** [calculate_kpis] skips the columns the table lacks. *)
Lemma calculate_kpis_without_measures df :
  has_column df "Sales" = false -> has_column df "Quantity" = false ->
  has_column df "Stock" = false ->
  Metrics.calculate_kpis df = Ok ∅.
Proof.
  intros H1 H2 H3. unfold Metrics.calculate_kpis. simpl.
  unfold Metrics.kpi_block, Metrics.rolling_block. rewrite H1, H2, H3. reflexivity.
Qed.

(** C6, where the code departs from it: on the empty table that has a
    ["Sales"] column the four KPI functions return 0, and [calculate_kpis]
    raises [IndexError], at [cumulative(df, col).iloc[-1]]. *)
Theorem calculate_kpis_raises_on_empty_table :
  Metrics.total empty_sales "Sales" = Ok (VFloat 0) /\
  Metrics.mean empty_sales "Sales" = Ok (VFloat 0) /\
  Metrics.maximum empty_sales "Sales" = Ok (VFloat 0) /\
  Metrics.minimum empty_sales "Sales" = Ok (VFloat 0) /\
  Metrics.cumulative empty_sales "Sales" None = Ok [] /\
  Metrics.calculate_kpis empty_sales = Raise IndexError.
Proof. repeat split; vm_compute; reflexivity. Qed.

(** ** The rolling average *)

Section Rolling.

Lemma Qsum_app (a b : list Q) : (Metrics.Qsum (a ++ b) == Metrics.Qsum a + Metrics.Qsum b)%Q.
Proof.
  induction a as [|q a IH]; simpl; [ring|]. rewrite IH. ring.
Qed.

Lemma present_app (a b : list (option Q)) :
  Metrics.present (a ++ b) = Metrics.present a ++ Metrics.present b.
Proof.
  induction a as [|[q|] a IH]; simpl; [reflexivity| |assumption].
  rewrite IH. reflexivity.
Qed.

Lemma tracks_add st l x : tracks st l -> tracks (Metrics.add_obs x st) (l ++ [x]).
Proof.
  intros [Hn Hs]. unfold tracks. rewrite present_app.
  destruct x as [q|]; simpl.
  - rewrite length_app, Qsum_app. simpl. split; [lia|]. rewrite Hs. ring.
  - rewrite app_nil_r. split; assumption.
Qed.

Lemma tracks_remove st l x : tracks st (x :: l) -> tracks (Metrics.remove_obs x st) l.
Proof.
  intros [Hn Hs]. unfold tracks. destruct x as [q|]; simpl in *.
  - split; [lia|]. rewrite Hs. ring.
  - split; assumption.
Qed.

Lemma window_output_mean st l :
  tracks st l -> Metrics.window_output 1 st = Metrics.series_mean l.
Proof.
  intros [Hn Hs]. unfold Metrics.window_output, Metrics.series_mean.
  destruct (Metrics.present l) as [|q qs] eqn:Hp.
  - simpl in Hn. rewrite Hn. reflexivity.
  - rewrite Hn. replace (1 <=? Z.of_nat (length (q :: qs))) with true
      by (symmetry; apply Z.leb_le; simpl; lia).
    f_equal. apply Qred_complete. rewrite Hs. reflexivity.
Qed.

Variable w : nat.
Hypothesis Hw : (1 <= w)%nat.
Variable xs : list (option Q).

Lemma partial_window_mean_window i :
  (i < length xs)%nat -> partial_window_mean w xs i = Metrics.series_mean (window_at w xs i).
Proof.
  intros Hi. unfold partial_window_mean, mean_of_last, window_at.
  rewrite length_take. f_equal. f_equal. lia.
Qed.

Lemma roll_from_windows rest :
  forall i st,
    drop i xs = rest ->
    tracks st (drop (i - w) (take i xs)) ->
    Metrics.roll_from w 1 xs i st rest =
    map (partial_window_mean w xs) (seq i (length rest)).
Proof.
  induction rest as [|x rest IH]; intros i st Hdrop Hst; [reflexivity|].
  assert (xs !! i = Some x) as Hx.
  { rewrite <- (Nat.add_0_r i), <- lookup_drop, Hdrop. reflexivity. }
  assert (i < length xs)%nat as Hi by (eapply lookup_lt_Some; eassumption).
  assert (take (S i) xs = take i xs ++ [x]) as Htake
    by (apply take_S_r; assumption).
  assert (drop (S i) xs = rest) as Hdrop'.
  { pose proof (drop_S _ _ _ Hx) as Hd. rewrite Hdrop in Hd. congruence. }
  assert (tracks (Metrics.add_obs x st) (drop (i - w) (take (S i) xs))) as Hadd.
  { rewrite Htake, drop_app_le by (rewrite length_take; lia).
    apply tracks_add, Hst. }
  assert (tracks (if (w <=? i)%nat
                  then Metrics.remove_obs (nth (i - w) xs None) (Metrics.add_obs x st)
                  else Metrics.add_obs x st)
                 (window_at w xs i)) as Hwin.
  { unfold window_at. rewrite Nat.add_1_r.
    destruct (Nat.leb_spec w i) as [Hle|Hlt].
    - apply tracks_remove.
      replace (S i - w)%nat with (S (i - w)) by lia.
      assert (take (S i) xs !! (i - w)%nat = Some (nth (i - w) xs None)) as Hl.
      { rewrite lookup_take_lt by lia.
        destruct (nth_lookup_or_length xs (i - w) None) as [?|?]; [assumption|lia]. }
      rewrite <- (drop_S _ _ _ Hl). exact Hadd.
    - replace (S i - w)%nat with (i - w)%nat by lia. exact Hadd. }
  simpl. f_equal.
  - rewrite (window_output_mean _ _ Hwin). symmetry.
    apply partial_window_mean_window, Hi.
  - apply IH; [assumption|].
    unfold window_at in Hwin. rewrite Nat.add_1_r in Hwin. exact Hwin.
Qed.

Lemma rolling_mean_windows :
  Metrics.rolling_mean (Z.of_nat w) xs =
  Ok (map (partial_window_mean w xs) (seq 0 (length xs))).
Proof.
  unfold Metrics.rolling_mean.
  replace (Z.of_nat w <? 1) with false by (symmetry; apply Z.ltb_ge; lia).
  rewrite Nat2Z.id. f_equal. apply roll_from_windows; [reflexivity|].
  split; reflexivity.
Qed.

End Rolling.

(** C9: for a numeric column and a window of at least one row, the rolling
    average with the min-periods-1 policy is, at each position [i], the mean
    of the last [min (i + 1) window] values, so that the early rows carry
    the average of what has been seen. *)
Theorem rolling_average_partial_windows df column_name (window : Z)
    (xs : list (option Q)) :
  has_column df column_name = true ->
  Metrics.numbers (column df column_name) = Ok xs ->
  1 <= window ->
  Metrics.rolling_average df column_name window None =
  Ok (map (partial_window_mean (Z.to_nat window) xs) (seq 0 (length xs))).
Proof.
  intros Hc Hxs Hw. unfold Metrics.rolling_average. rewrite Hc, Hxs. simpl.
  rewrite <- (Z2Nat.id window) at 1 by lia.
  apply rolling_mean_windows. lia.
Qed.

(** The example of C9: window 3 over [10, 20, 30, 40] gives
    [10, 15, 20, 30]. *)
Lemma rolling_average_example :
  (1 <= 3) /\
  Metrics.rolling_average rolling_example "Sales" 3 None =
  Ok [VFloat 10; VFloat 15; VFloat 20; VFloat 30].
Proof.
  split; [lia|].
  rewrite (rolling_average_partial_windows rolling_example "Sales" 3
             [Some 10%Q; Some 20%Q; Some 30%Q; Some 40%Q]);
    [reflexivity | reflexivity | reflexivity | lia].
Defined.

(** * Partition assignment *)

Section Partition.

Variable parse_datetime : cell -> option datetime.

Lemma length_traverse {A B} (f : A -> res B) l l' :
  traverse f l = Ok l' -> length l' = length l.
Proof.
  revert l'. induction l as [|a l IH]; intros l'; simpl.
  - intros [= <-]. reflexivity.
  - destruct (f a) as [b|e]; simpl; [|discriminate].
    destruct (traverse f l) as [bs|e]; simpl; [|discriminate].
    intros [= <-]. simpl. f_equal. apply IH. reflexivity.
Qed.

Lemma derive_partition_values name fallback df :
  wf df ->
  partition_values name
    (if negb (has_column df name) then
       if has_column df "Date" then
         dates ← to_datetime parse_datetime (column df "Date");
         Ok (set_column df name (map to_period_M dates))
       else Ok (set_scalar df name fallback)
     else Ok df) =
  assigned_partition parse_datetime name fallback df.
Proof.
  intros Hwf. unfold assigned_partition.
  destruct (has_column df name) eqn:Hp; simpl; [reflexivity|].
  destruct (has_column df "Date") eqn:Hd; simpl.
  - destruct (to_datetime parse_datetime (column df "Date")) as [dates|e] eqn:Ht;
      simpl; [|reflexivity].
    rewrite column_set_column_same; [reflexivity|assumption|].
    rewrite length_map. unfold to_datetime in Ht.
    rewrite (length_traverse _ _ _ Ht). apply length_column, Hd.
  - rewrite column_set_scalar_same by assumption. reflexivity.
Qed.

Lemma add_metadata_columns_partition now today df cube_name :
  wf df ->
  partition_values PARTITION_COLUMN
    (Bronze.add_metadata_columns parse_datetime now today df cube_name) =
  assigned_partition parse_datetime PARTITION_COLUMN (VPeriod (year today) (month today)) df.
Proof.
  intros Hwf. unfold Bronze.add_metadata_columns.
  set (df1 := set_scalar (set_scalar df "cube_name" (VStr cube_name))
                         "bronze_extraction_time" (VTime now)).
  assert (wf df1) as Hwf1 by (apply wf_set_scalar, wf_set_scalar, Hwf).
  rewrite (derive_partition_values PARTITION_COLUMN _ df1 Hwf1).
  unfold assigned_partition, df1.
  rewrite !has_column_set_scalar, !len_set_scalar. simpl.
  rewrite !orb_false_r.
  rewrite !column_set_scalar_other; try discriminate;
    try (apply wf_set_scalar); try assumption.
  reflexivity.
Qed.

End Partition.

(** C5, as the code has it: the partition column is used if it is present;
    else the partition is the month of the Date column; else it is the month
    of the clock reading of the run in [add_metadata_columns], and the fixed
    period 2025-11 in the configured [save_bronze].  Two runs on the same
    input give the same partition values when the clock readings fall in the
    same month. *)
Theorem partition_assignment_rule parse_datetime df cube_name
    (now1 today1 now2 today2 : datetime) PARTITION_COL table_name :
  wf df ->
  year today1 = year today2 -> month today1 = month today2 ->
  partition_values PARTITION_COLUMN
    (Bronze.add_metadata_columns parse_datetime now1 today1 df cube_name) =
  assigned_partition parse_datetime PARTITION_COLUMN
    (VPeriod (year today1) (month today1)) df /\
  partition_values PARTITION_COLUMN
    (Bronze.add_metadata_columns parse_datetime now1 today1 df cube_name) =
  partition_values PARTITION_COLUMN
    (Bronze.add_metadata_columns parse_datetime now2 today2 df cube_name) /\
  partition_values PARTITION_COL
    (BronzeConfigured.save_bronze parse_datetime PARTITION_COL df table_name) =
  assigned_partition parse_datetime PARTITION_COL (VPeriod 2025 11) df.
Proof.
  intros Hwf Hy Hm. split; [|split].
  - apply add_metadata_columns_partition, Hwf.
  - rewrite !add_metadata_columns_partition by assumption.
    rewrite Hy, Hm. reflexivity.
  - apply derive_partition_values, Hwf.
Qed.

Lemma wf_undated_batch : wf undated_batch.
Proof. wf_concrete. Qed.

Lemma partition_assignment_rule_witness :
  wf undated_batch /\
  year run_in_november = year run_in_november /\
  month run_in_november = month run_in_november /\
  partition_values PARTITION_COLUMN
    (Bronze.add_metadata_columns (fun _ => None) run_in_november run_in_november
       undated_batch "sales_cube") = Ok [VPeriod 2025 11].
Proof.
  split; [exact wf_undated_batch|]. split; [reflexivity|]. split; [reflexivity|].
  rewrite (proj1 (partition_assignment_rule (fun _ => None) undated_batch "sales_cube"
                    run_in_november run_in_november run_in_november run_in_november
                    "partition" "sales"
                    wf_undated_batch eq_refl eq_refl)).
  reflexivity.
Defined.

(** C5, as the claim words it, fails: the same batch, without partition and
    date columns, is assigned 2025-11 by a run on 30 November and 2025-12 by
    a run on 1 December. *)
Lemma partition_depends_on_clock :
  ~ partition_independent_of_clock (fun _ => None) undated_batch "sales_cube".
Proof.
  intros H.
  specialize (H run_in_november run_in_november run_in_december run_in_december).
  vm_compute in H. discriminate.
Qed.

(** * The history merge *)

Section Tagging.

Lemma rows_set_scalar_tagged df name v :
  rows (set_scalar df name v) = map (tagged df name v) (rows df).
Proof.
  rewrite rows_set_scalar. unfold tagged.
  destruct (index_of name (columns df)); reflexivity.
Qed.

Lemma cell_at_tagged_same df name v r :
  length r = length (columns df) ->
  cell_at (set_scalar df name v) name (tagged df name v r) = v.
Proof.
  intros Hr. unfold cell_at, tagged, set_scalar, set_column.
  destruct (index_of name (columns df)) as [i|] eqn:E; simpl.
  - rewrite E. apply nth_lookup_Some, list_lookup_insert_eq.
    rewrite Hr. eapply index_of_lt, E.
  - rewrite index_of_app_new by assumption.
    rewrite <- Hr, app_nth2 by lia. rewrite Nat.sub_diag. reflexivity.
Qed.

Lemma cell_at_tagged_other df name v r c :
  length r = length (columns df) -> c <> name ->
  cell_at (set_scalar df name v) c (tagged df name v r) = cell_at df c r.
Proof.
  intros Hr Hne. unfold cell_at, tagged, set_scalar, set_column.
  destruct (index_of name (columns df)) as [i|] eqn:E; simpl.
  - destruct (index_of c (columns df)) as [j|] eqn:Ec; [|reflexivity].
    assert (i <> j) as Hij.
    { intros <-. apply index_of_lookup in E, Ec. congruence. }
    pose proof (index_of_lt _ _ _ Ec) as Hj.
    destruct (lookup_lt_is_Some_2 r j) as [x Hx]; [lia|].
    rewrite (nth_lookup_Some _ _ _ _ Hx).
    apply nth_lookup_Some. rewrite list_lookup_insert_ne; assumption.
  - destruct (index_of c (columns df)) as [j|] eqn:Ec.
    + rewrite (index_of_app_l _ _ _ _ Ec).
      apply app_nth1. rewrite Hr. eapply index_of_lt, Ec.
    + rewrite index_of_app_other by assumption. reflexivity.
Qed.

Lemma length_tagged df name v r :
  length r = length (columns df) ->
  length (tagged df name v r) = length (columns (set_scalar df name v)).
Proof.
  intros Hr. unfold tagged, set_scalar, set_column.
  destruct (index_of name (columns df)); simpl.
  - rewrite length_insert. exact Hr.
  - rewrite !length_app, Hr. reflexivity.
Qed.

Lemma identity_tagged df name v r :
  length r = length (columns df) -> name ∉ Silver.merge_keys ->
  identity (set_scalar df name v) (tagged df name v r) = identity df r.
Proof.
  intros Hr Hname. unfold identity, project.
  apply map_ext_in. intros c Hc.
  apply cell_at_tagged_other; [assumption|].
  intros ->. apply Hname, list_elem_of_In, Hc.
Qed.

Lemma versions_set_scalar df name v id :
  wf df -> name ∉ Silver.merge_keys ->
  versions (set_scalar df name v) id = map (tagged df name v) (versions df id).
Proof.
  intros [_ Hrows] Hname. unfold versions. rewrite rows_set_scalar_tagged.
  induction Hrows as [|r rs Hr Hrs IH]; [reflexivity|].
  cbn [map List.filter].
  rewrite (identity_tagged _ _ _ _ Hr Hname).
  destruct (row_eqb (identity df r) id); cbn [map]; rewrite IH; reflexivity.
Qed.

Variable now : datetime.
Variable df : DataFrame.
Hypothesis Hwf : wf df.

Lemma wf_stamped : wf (stamped now df).
Proof. unfold stamped. repeat apply wf_set_scalar. exact Hwf. Qed.

Lemma not_a_key name :
  existsb (String.eqb name) Silver.merge_keys = false -> name ∉ Silver.merge_keys.
Proof.
  intros H Hin. apply list_elem_of_In in Hin.
  assert (existsb (String.eqb name) Silver.merge_keys = true) as Ht.
  { apply existsb_exists. exists name. split; [assumption|apply String.eqb_refl]. }
  congruence.
Qed.

Lemma versions_stamped id :
  length (versions (stamped now df) id) = length (versions df id).
Proof.
  unfold stamped.
  rewrite !versions_set_scalar, !length_map;
    repeat apply wf_set_scalar; try exact Hwf; try (apply not_a_key; reflexivity).
  reflexivity.
Qed.

Lemma stamped_rows_open :
  Forall (fun r => interval (stamped now df) r = (VTime now, VNull) /\ is_open (stamped now df) r = true)
         (rows (stamped now df)).
Proof.
  destruct Hwf as [_ Hrows]. unfold stamped.
  rewrite !rows_set_scalar_tagged.
  set (dfa := set_scalar df "EffectiveDate" (VTime now)).
  set (dfb := set_scalar dfa "EndDate" VNull).
  rewrite !Forall_map. rewrite Forall_forall in *. intros r Hr.
  specialize (Hrows r Hr). simpl.
  pose proof (length_tagged df "EffectiveDate" (VTime now) r Hrows) as Ha.
  fold dfa in Ha.
  pose proof (length_tagged dfa "EndDate" VNull _ Ha) as Hb.
  fold dfb in Hb.
  set (ra := tagged df "EffectiveDate" (VTime now) r) in *.
  set (rb := tagged dfa "EndDate" VNull ra) in *.
  assert (cell_at (set_scalar dfb "CurrentFlag" (VBool true)) "CurrentFlag"
            (tagged dfb "CurrentFlag" (VBool true) rb) = VBool true) as Hflag
    by (apply cell_at_tagged_same; assumption).
  assert (cell_at (set_scalar dfb "CurrentFlag" (VBool true)) "EndDate"
            (tagged dfb "CurrentFlag" (VBool true) rb) = VNull) as Hend.
  { rewrite (cell_at_tagged_other dfb) by (assumption || discriminate).
    apply cell_at_tagged_same; assumption. }
  assert (cell_at (set_scalar dfb "CurrentFlag" (VBool true)) "EffectiveDate"
            (tagged dfb "CurrentFlag" (VBool true) rb) = VTime now) as Heff.
  { rewrite (cell_at_tagged_other dfb) by (assumption || discriminate).
    unfold dfb, rb.
    rewrite (cell_at_tagged_other dfa) by (assumption || discriminate).
    apply cell_at_tagged_same; assumption. }
  unfold interval, is_open. rewrite Hflag, Hend, Heff. split; reflexivity.
Qed.

Lemma stamped_invariant : distinct_identities df -> history_invariant (stamped now df).
Proof.
  intros Hdistinct id.
  pose proof (Hdistinct id) as Hone. rewrite <- versions_stamped in Hone.
  split.
  - unfold open_versions.
    etransitivity; [apply List.filter_length_le | exact Hone].
  - exists (map (interval (stamped now df)) (versions (stamped now df) id)). split; [reflexivity|].
    assert (Forall (fun r => interval (stamped now df) r = (VTime now, VNull)) (versions (stamped now df) id))
      as Hall.
    { rewrite Forall_forall. intros r Hr.
      unfold versions in Hr. apply list_elem_of_In, filter_In in Hr as [Hr _].
      pose proof stamped_rows_open as Hopen. rewrite Forall_forall in Hopen.
      apply Hopen, list_elem_of_In, Hr. }
    destruct (versions (stamped now df) id) as [|r [|r' rs]]; simpl in *.
    + constructor.
    + apply Forall_inv in Hall. rewrite Hall. constructor.
    + lia.
Qed.

Lemma filter_all {A} (f : A -> bool) (l : list A) :
  Forall (fun x => f x = true) l -> List.filter f l = l.
Proof.
  induction 1 as [|x l Hx _ IH]; [reflexivity|].
  cbn [List.filter]. rewrite Hx, IH. reflexivity.
Qed.

(** Every version of the stamped batch is open. *)
Lemma open_versions_stamped id :
  open_versions (stamped now df) id = versions (stamped now df) id.
Proof.
  unfold open_versions. apply filter_all.
  rewrite Forall_forall. intros r Hr.
  unfold versions in Hr. apply list_elem_of_In, filter_In in Hr as [Hr _].
  pose proof stamped_rows_open as Hopen. rewrite Forall_forall in Hopen.
  apply Hopen, list_elem_of_In, Hr.
Qed.

Lemma stamped_invariant_distinct :
  history_invariant (stamped now df) -> distinct_identities df.
Proof.
  intros Hinv id. destruct (Hinv id) as [Hopen _].
  rewrite open_versions_stamped, versions_stamped in Hopen. exact Hopen.
Qed.

(** With no history, or with a history that carries the history columns,
    the merge returns the stamped batch or raises. *)
Lemma apply_scd_type2_returns historical_df out :
  (forall h, historical_df = Some h -> history_table h) ->
  fst (Silver.apply_scd_type2 now df historical_df) = Ok out -> out = (stamped now df).
Proof.
  intros Hh. unfold Silver.apply_scd_type2. fold (stamped now df).
  destruct historical_df as [h|]; [|cbn [fst]; congruence].
  destruct (negb _); [cbn [fst]; discriminate|].
  destruct (existsb _ Silver.indicator_names); [cbn [fst]; discriminate|].
  destruct (Silver.left_only (stamped now df) h) as [|r rs]; [cbn [fst]; congruence|].
  assert (existsb (Silver.renamed_by_merge h) (columns (stamped now df)) = true) as ->.
  { apply existsb_exists. exists "EffectiveDate". split.
    - apply list_elem_of_In, has_column_true. unfold stamped.
      rewrite !has_column_set_scalar. simpl.
      destruct (has_column df "EffectiveDate"); reflexivity.
    - unfold Silver.renamed_by_merge. destruct (Hh h eq_refl) as [-> _]. reflexivity. }
  cbn [fst]. discriminate.
Qed.

End Tagging.

(** On a first run the merge returns the batch with every row stamped as
    the current version: effective from now, open, flagged current. *)
Theorem first_run_stamps_every_row now df :
  wf df ->
  Silver.apply_scd_type2 now df None = (Ok (stamped now df), None) /\
  len (stamped now df) = len df /\
  Forall (fun r => interval (stamped now df) r = (VTime now, VNull) /\
                   is_open (stamped now df) r = true)
         (rows (stamped now df)).
Proof.
  intros Hwf. split; [reflexivity|]. split.
  - unfold stamped. rewrite !len_set_scalar. reflexivity.
  - apply stamped_rows_open, Hwf.
Qed.

(** C1, as the code has it.  On a run without a prior history the merge
    returns a table, and that table keeps the invariant of the claim (for
    every identity at most one open row, and intervals that are contiguous
    and do not overlap) exactly when no two rows of the batch carry the same
    identity. *)
Theorem history_invariant_iff_distinct_batch now df :
  wf df ->
  exists out,
    Silver.apply_scd_type2 now df None = (Ok out, None) /\
    (history_invariant out <-> distinct_identities df).
Proof.
  intros Hwf. exists (stamped now df). split; [reflexivity|]. split.
  - apply stamped_invariant_distinct, Hwf.
  - apply stamped_invariant, Hwf.
Qed.

Lemma wf_plain_batch : wf plain_batch.
Proof. wf_concrete. Qed.

Lemma distinct_plain_batch : distinct_identities plain_batch.
Proof.
  intros id. unfold versions.
  change (rows plain_batch)
    with [[VStr "sales"; VFloat 10; VInt 1]; [VStr "sales"; VFloat 12; VInt 2]].
  cbn [List.filter].
  destruct (row_eqb (identity plain_batch [VStr "sales"; VFloat 10; VInt 1]) id) eqn:H1,
           (row_eqb (identity plain_batch [VStr "sales"; VFloat 12; VInt 2]) id) eqn:H2;
    cbn [length]; try lia.
  pose proof (row_eqb_common _ _ _ H1 H2) as Habs.
  vm_compute in Habs. discriminate.
Qed.

Lemma first_run_stamps_every_row_example :
  wf plain_batch /\
  Silver.apply_scd_type2 first_run plain_batch None =
    (Ok (mkDF history_columns
           [[VStr "sales"; VFloat 10; VInt 1; VTime first_run; VNull; VBool true];
            [VStr "sales"; VFloat 12; VInt 2; VTime first_run; VNull; VBool true]]),
     None).
Proof.
  split; [exact wf_plain_batch|].
  rewrite (proj1 (first_run_stamps_every_row first_run plain_batch wf_plain_batch)).
  reflexivity.
Defined.

(** Two rows with different sales: the first run returns a table that
    keeps the invariant. *)
Lemma history_invariant_iff_distinct_batch_witness :
  wf plain_batch /\
  exists out,
    Silver.apply_scd_type2 first_run plain_batch None = (Ok out, None) /\
    history_invariant out.
Proof.
  split; [exact wf_plain_batch|].
  destruct (history_invariant_iff_distinct_batch first_run plain_batch wf_plain_batch)
    as (out & Hout & Hiff).
  exists out. split; [exact Hout|]. apply Hiff, distinct_plain_batch.
Defined.

(** C1, as the claim words it, fails: on a first run, two rows of the batch
    that carry the same cube, sales and quantity both come out open. *)
Lemma twin_rows_both_open :
  ~ history_invariant_after first_run twin_batch None.
Proof.
  intros H.
  destruct (H _ eq_refl [VStr "sales"; VFloat 10; VInt 1]) as [Hopen _].
  vm_compute in Hopen. lia.
Qed.

(** C2, where the code departs from it.  When the batch repeats the current
    version, the merge returns the stamped batch alone: the closed row of
    the history is gone from the output.  When the batch brings a new
    version, the merge sets [EndDate] and [CurrentFlag] on every history row
    of the cube, the closed one included, and then raises [KeyError] on the
    columns that the join renamed. *)
Theorem closed_rows_dropped_or_rewritten :
  Silver.apply_scd_type2 third_run unchanged_batch (Some closed_history) =
    (Ok (mkDF history_columns
           [[VStr "sales"; VFloat 12; VInt 1; VTime third_run; VNull; VBool true]]),
     Some closed_history) /\
  Silver.apply_scd_type2 third_run changed_batch (Some closed_history) =
    (Raise KeyError,
     Some (mkDF history_columns
             [[VStr "sales"; VFloat 10; VInt 1; VTime first_run; VTime third_run; VBool false];
              [VStr "sales"; VFloat 12; VInt 1; VTime second_run; VTime third_run; VBool false]])).
Proof. split; vm_compute; reflexivity. Qed.

(** C3, where the code departs from it.  The second run on the same batch
    returns the batch stamped anew: the version written by the first run is
    replaced by a version that starts at the second run.  And a batch of two
    rows that both match the one current row of the history comes back as
    two current rows. *)
Theorem unchanged_batch_written_again :
  Silver.apply_scd_type2 first_run unchanged_batch None =
    (Ok history_after_first_run, None) /\
  Silver.apply_scd_type2 second_run unchanged_batch (Some history_after_first_run) =
    (Ok (mkDF history_columns
           [[VStr "sales"; VFloat 12; VInt 1; VTime second_run; VNull; VBool true]]),
     Some history_after_first_run) /\
  Silver.apply_scd_type2 second_run
    (mkDF ["cube_name"; "Sales"; "Quantity"]
          [[VStr "sales"; VFloat 12; VInt 1]; [VStr "sales"; VFloat 12; VInt 1]])
    (Some history_after_first_run) =
    (Ok (mkDF history_columns
           [[VStr "sales"; VFloat 12; VInt 1; VTime second_run; VNull; VBool true];
            [VStr "sales"; VFloat 12; VInt 1; VTime second_run; VNull; VBool true]]),
     Some history_after_first_run).
Proof. repeat split; vm_compute; reflexivity. Qed.

(** ** Surrogate keys *)

Section SurrogateKeys.

Variable str : cell -> string.

Lemma hashed_dimension_keyed df col :
  String.eqb (col +:+ "Key") col = false ->
  keyed str (set_column (Silver.distinct_values df col) (col +:+ "Key")
           (map (fun x => VStr (Silver.generate_surrogate_key str [x]))
                (column (Silver.distinct_values df col) col))).
Proof.
  intros Hne r. unfold Silver.distinct_values.
  generalize (Silver.drop_duplicates (column df col)). intros vals.
  unfold set_column, column. simpl.
  rewrite Hne, String.eqb_refl. simpl.
  rewrite !map_map. simpl.
  induction vals as [|v vals IH]; simpl.
  - intros H. apply elem_of_nil in H. contradiction.
  - intros H. apply elem_of_cons in H as [->|H]; [eauto|]. apply IH, H.
Qed.

Lemma hashed_dimension_preserves df dims col :
  String.eqb (col +:+ "Key") col = false ->
  hashed_keyed str dims -> hashed_keyed str (Silver.hashed_dimension str df dims col).
Proof.
  intros Hne Hdims c t Hc. unfold Silver.hashed_dimension.
  destruct (has_column df col); [|apply Hdims, Hc].
  destruct (decide ("Dim" +:+ col = "Dim" +:+ c)) as [Heq|Hneq].
  - rewrite Heq, lookup_insert_eq. intros [= <-].
    apply hashed_dimension_keyed, Hne.
  - rewrite lookup_insert_ne by assumption. apply Hdims, Hc.
Qed.

Lemma build_dimensions_keyed df dims :
  Silver.build_dimensions str df = Ok dims -> hashed_keyed str dims.
Proof.
  unfold Silver.build_dimensions. intros H.
  assert (exists dims0 : gmap string DataFrame,
            hashed_keyed str dims0 /\
            dims = Silver.hashed_dimension str df
                     (foldl (Silver.hashed_dimension str df) dims0
                            ["Region"; "Country"; "City"]) "Product")
    as (dims0 & H0 & ->).
  { destruct (has_column df "Date").
    - destruct (traverse Silver.date_key _) as [keys|e]; simpl in H; [|discriminate].
      injection H as <-. eexists. split; [|reflexivity].
      intros c t Hc. unfold hashed_columns in Hc.
      rewrite !elem_of_cons, elem_of_nil in Hc.
      destruct Hc as [->|[->|[->|[->|[]]]]];
        (rewrite lookup_insert_ne by discriminate);
        rewrite lookup_empty; discriminate.
    - injection H as <-. eexists. split; [|reflexivity].
      intros c t _. rewrite lookup_empty. discriminate. }
  simpl. repeat (apply hashed_dimension_preserves; [reflexivity|]). exact H0.
Qed.

End SurrogateKeys.

(** C4: two calls of [generate_surrogate_key] on arguments with the same
    canonical string form return the same key; and in the dimensions that
    [build_dimensions] keys by hash, a value gets the same key whatever the
    run (the batch) and whatever the dimension table it shows up in. *)
Theorem surrogate_key_deterministic (str : cell -> string) :
  (forall args1 args2,
     canonical str args1 = canonical str args2 ->
     Silver.generate_surrogate_key str args1 = Silver.generate_surrogate_key str args2) /\
  (forall df1 df2 dims1 dims2 c1 c2 t1 t2 v1 v2 k1 k2,
     c1 ∈ hashed_columns -> c2 ∈ hashed_columns ->
     Silver.build_dimensions str df1 = Ok dims1 ->
     Silver.build_dimensions str df2 = Ok dims2 ->
     dims1 !! ("Dim" +:+ c1) = Some t1 -> dims2 !! ("Dim" +:+ c2) = Some t2 ->
     [v1; k1] ∈ rows t1 -> [v2; k2] ∈ rows t2 ->
     str v1 = str v2 -> k1 = k2).
Proof.
  split.
  - intros args1 args2 H. unfold Silver.generate_surrogate_key.
    unfold canonical in H. rewrite H. reflexivity.
  - intros df1 df2 dims1 dims2 c1 c2 t1 t2 v1 v2 k1 k2
           Hc1 Hc2 Hd1 Hd2 Ht1 Ht2 Hr1 Hr2 Hstr.
    destruct (build_dimensions_keyed str df1 dims1 Hd1 c1 t1 Hc1 Ht1 _ Hr1)
      as (w1 & [= -> ->]).
    destruct (build_dimensions_keyed str df2 dims2 Hd2 c2 t2 Hc2 Ht2 _ Hr2)
      as (w2 & [= -> ->]).
    unfold Silver.generate_surrogate_key. simpl. rewrite Hstr. reflexivity.
Qed.

(** The key of "North" is the same in the region and the product
    dimensions, and the arguments ["a_b"] and ["a", "b"] get the same
    key. *)
Lemma surrogate_key_example :
  Silver.generate_surrogate_key str_of_text [VStr "a_b"] =
    Silver.generate_surrogate_key str_of_text [VStr "a"; VStr "b"] /\
  exists dims region product,
    Silver.build_dimensions str_of_text named_batch = Ok dims /\
    dims !! "DimRegion" = Some region /\ dims !! "DimProduct" = Some product /\
    [VStr "North"; VStr "601560b94fbb188919dd1d36c8ab70a4"] ∈ rows region /\
    [VStr "North"; VStr "601560b94fbb188919dd1d36c8ab70a4"] ∈ rows product.
Proof.
  split.
  - apply (proj1 (surrogate_key_deterministic str_of_text)). reflexivity.
  - eexists _, _, _. split; [reflexivity|].
    split; [vm_compute; reflexivity|]. split; [vm_compute; reflexivity|].
    split; [left | right; left].
Defined.

(** * Enrichment *)

Section Enrichment.

Variable parse_datetime : cell -> option datetime.

Lemma Qeq_bool_inject_Z z : Qeq_bool (inject_Z z) 0 = (z =? 0).
Proof. unfold Qeq_bool. simpl. rewrite Z.mul_1_r. reflexivity. Qed.

Lemma cell_div_guarded s q :
  measure s -> measure q ->
  Gold.cell_div s (Gold.replace_zero q) = Ok (guarded_ratio s q).
Proof.
  unfold guarded_ratio.
  destruct s as [|x|x| | | | |], q as [|z|d| | | | |]; simpl; try contradiction;
    intros _ _; try reflexivity;
    rewrite ?Qeq_bool_inject_Z.
  - destruct (z =? 0); reflexivity.
  - destruct (Qeq_bool d 0); reflexivity.
  - destruct (z =? 0) eqn:Hz; unfold Gold.cell_div; simpl; [reflexivity|].
    rewrite Qeq_bool_inject_Z, Hz. reflexivity.
  - destruct (Qeq_bool d 0) eqn:Hd; unfold Gold.cell_div; simpl; [reflexivity|].
    rewrite Hd. reflexivity.
  - destruct (z =? 0) eqn:Hz; unfold Gold.cell_div; simpl; [reflexivity|].
    rewrite Qeq_bool_inject_Z, Hz. reflexivity.
  - destruct (Qeq_bool d 0) eqn:Hd; unfold Gold.cell_div; simpl; [reflexivity|].
    rewrite Hd. reflexivity.
Qed.

Lemma series_div_guarded ss qs :
  Forall measure ss -> Forall measure qs ->
  Gold.series_div ss (map Gold.replace_zero qs) = Ok (zip_with guarded_ratio ss qs).
Proof.
  intros Hs. revert qs. induction Hs as [|s ss Hs Hss IH]; intros qs Hq.
  - destruct qs; reflexivity.
  - destruct Hq as [|q qs Hq Hqs]; [reflexivity|]. simpl.
    rewrite (cell_div_guarded _ _ Hs Hq). simpl.
    rewrite (IH _ Hqs). reflexivity.
Qed.

Lemma derive_partition_keeps df df1 c :
  wf df -> Gold.derive_partition parse_datetime df = Ok df1 -> c <> PARTITION_COLUMN ->
  wf df1 /\ has_column df1 c = has_column df c /\ column df1 c = column df c /\
  len df1 = len df.
Proof.
  intros Hwf Hd Hc. unfold Gold.derive_partition in Hd.
  destruct (negb (has_column df PARTITION_COLUMN) && has_column df "Date") eqn:Hg.
  - destruct (to_datetime parse_datetime (column df "Date")) as [dates|e] eqn:Ht;
      simpl in Hd; [|discriminate].
    injection Hd as <-.
    apply andb_prop in Hg as [_ HDate].
    assert (length (map to_period_M dates) = len df) as Hlen.
    { rewrite length_map. unfold to_datetime in Ht.
      rewrite (length_traverse _ _ _ Ht). apply length_column, HDate. }
    split; [apply wf_set_column; assumption|].
    split; [|split].
    + rewrite has_column_set_column.
      destruct (String.eqb_spec c PARTITION_COLUMN); [contradiction|].
      apply orb_false_r.
    + apply column_set_column_other; assumption.
    + apply len_set_column, Hlen.
  - injection Hd as <-. auto.
Qed.

End Enrichment.

(** C8: on a table with numeric Sales and Quantity columns whose partition
    block goes through, the enrichment returns a table, and its SalesPerUnit
    column holds, row by row, the sales divided by the quantity with 0
    replaced by 1.  A row with a quantity of 0 gets its sales divided by 1,
    and a row whose sales and quantity are both present gets a finite
    number. *)
Theorem sales_per_unit_guards_zero parse_datetime df df1 :
  wf df ->
  Gold.derive_partition parse_datetime df = Ok df1 ->
  has_column df "Sales" = true -> has_column df "Quantity" = true ->
  Forall measure (column df "Sales") -> Forall measure (column df "Quantity") ->
  exists out,
    Gold.enrich_with_dimensions parse_datetime df = Ok out /\
    column out "SalesPerUnit" =
      zip_with guarded_ratio (column df "Sales") (column df "Quantity") /\
    (forall i s q x y,
       column df "Sales" !! i = Some s -> column df "Quantity" !! i = Some q ->
       num_of_cell s = Some x -> num_of_cell q = Some y -> (y == 0)%Q ->
       column out "SalesPerUnit" !! i = Some (VFloat (Qred (x / 1)))) /\
    (forall i s q x y,
       column df "Sales" !! i = Some s -> column df "Quantity" !! i = Some q ->
       num_of_cell s = Some x -> num_of_cell q = Some y ->
       exists r, column out "SalesPerUnit" !! i = Some (VFloat r)).
Proof.
  intros Hwf Hd HS HQ HmS HmQ.
  destruct (derive_partition_keeps parse_datetime df df1 "Sales" Hwf Hd)
    as (Hwf1 & HS1 & HcS & Hlen); [discriminate|].
  destruct (derive_partition_keeps parse_datetime df df1 "Quantity" Hwf Hd)
    as (_ & HQ1 & HcQ & _); [discriminate|].
  unfold Gold.enrich_with_dimensions. rewrite Hd. simpl.
  unfold Gold.derive_metrics. rewrite HS1, HQ1, HS, HQ, HcS, HcQ. simpl.
  rewrite (series_div_guarded _ _ HmS HmQ). simpl.
  eexists. split; [reflexivity|].
  assert (column (set_column df1 "SalesPerUnit"
                    (zip_with guarded_ratio (column df "Sales") (column df "Quantity")))
                 "SalesPerUnit" =
          zip_with guarded_ratio (column df "Sales") (column df "Quantity")) as Hcol.
  { apply column_set_column_same; [assumption|].
    rewrite length_zip_with, !length_column by assumption. rewrite Hlen. lia. }
  rewrite Hcol. split; [reflexivity|].
  split.
  - intros i s q x y Hs Hq Hx Hy Hzero.
    rewrite lookup_zip_with, Hs, Hq. simpl.
    unfold guarded_ratio. rewrite Hx, Hy, (Qeq_eq_bool _ _ Hzero). reflexivity.
  - intros i s q x y Hs Hq Hx Hy.
    rewrite lookup_zip_with, Hs, Hq. simpl.
    unfold guarded_ratio. rewrite Hx, Hy. eauto.
Qed.

Lemma wf_zero_quantity_batch : wf zero_quantity_batch.
Proof. wf_concrete. Qed.

(** The example of C8: the row with sales 100 and quantity 0 gets 100, the
    row with sales 50 and quantity 4 gets 12.5. *)
Lemma sales_per_unit_example :
  wf zero_quantity_batch /\
  exists out,
    Gold.enrich_with_dimensions (fun _ => None) zero_quantity_batch = Ok out /\
    column out "SalesPerUnit" = [VFloat 100; VFloat (25 # 2); VNull].
Proof.
  split; [exact wf_zero_quantity_batch|].
  destruct (sales_per_unit_guards_zero (fun _ => None) zero_quantity_batch
              zero_quantity_batch wf_zero_quantity_batch eq_refl eq_refl eq_refl)
    as (out & Hout & Hcol & _).
  - repeat constructor.
  - repeat constructor.
  - exists out. split; [exact Hout|]. rewrite Hcol. reflexivity.
Defined.

(** * More on the quality checks *)

Section Duplicates.

Lemma duplicated_from_none seen rs :
  Forall (fun b => b = false) (DataQuality.duplicated_from seen rs) <->
  (forall r s, r ∈ rs -> s ∈ seen -> row_eqb r s = false) /\ ~ repeats rs.
Proof.
  revert seen. induction rs as [|r rs IH]; intros seen; simpl.
  - split.
    + intros _. split.
      * intros r s Hr. apply elem_of_nil in Hr. contradiction.
      * intros (i & j & ri & rj & _ & Hi & _). rewrite lookup_nil in Hi. discriminate.
    + intros _. constructor.
  - rewrite Forall_cons, IH. split.
    + intros (Hr & Hseen & Hrep). split.
      * intros r' s Hr' Hs. apply elem_of_cons in Hr' as [->|Hr'].
        -- destruct (row_eqb r s) eqn:E; [|reflexivity].
           assert (existsb (row_eqb r) seen = true) as Ht; [|congruence].
           apply existsb_exists. exists s. split; [apply list_elem_of_In, Hs|exact E].
        -- apply Hseen; [assumption|]. right. assumption.
      * intros (i & j & ri & rj & Hij & Hi & Hj & Heq).
        destruct j as [|j]; [lia|]. simpl in Hj.
        destruct i as [|i]; simpl in Hi.
        -- injection Hi as <-.
           assert (row_eqb rj r = false) as Hf; [|congruence].
           apply Hseen; [|left].
           apply list_elem_of_lookup. eauto.
        -- apply Hrep. exists i, j, ri, rj. repeat split; [lia|assumption..].
    + intros (Hseen & Hrep). split; [|split].
      * destruct (existsb (row_eqb r) seen) eqn:E; [|reflexivity].
        apply existsb_exists in E as (s & Hs & E).
        rewrite (Hseen r s) in E; [discriminate|left|apply list_elem_of_In, Hs].
      * intros r' s Hr' Hs. apply elem_of_cons in Hs as [->|Hs].
        -- destruct (row_eqb r' r) eqn:E; [|reflexivity].
           exfalso. apply Hrep.
           apply list_elem_of_lookup in Hr' as (j & Hj).
           exists 0%nat, (S j), r, r'. repeat split; [lia|assumption..].
        -- apply Hseen; [right|]; assumption.
      * intros (i & j & ri & rj & Hij & Hi & Hj & Heq).
        apply Hrep. exists (S i), (S j), ri, rj. repeat split; [lia|assumption..].
Qed.

Lemma no_true_iff (l : list bool) :
  length (filter (fun b => b = true) l) = 0%nat <-> Forall (fun b => b = false) l.
Proof.
  induction l as [|b l IH]; simpl.
  - split; [constructor|reflexivity].
  - rewrite Forall_cons, <- IH. destruct b.
    + rewrite filter_cons_True by reflexivity. simpl.
      split; [discriminate|intros [? _]; discriminate].
    + rewrite filter_cons_False by discriminate. tauto.
Qed.

Lemma validate_duplicates_none df :
  DataQuality.validate_duplicates df None = Ok None <-> ~ repeats (rows df).
Proof.
  unfold DataQuality.validate_duplicates, DataQuality.duplicated. simpl.
  pose proof (no_true_iff (DataQuality.duplicated_from [] (rows df))) as Hn.
  pose proof (duplicated_from_none [] (rows df)) as Hd.
  destruct (length (filter _ _)) as [|n] eqn:E.
  - simpl. split; [intros _|reflexivity].
    apply Hd, Hn. reflexivity.
  - replace (0 <? Z.of_nat (S n)) with true by (symmetry; apply Z.ltb_lt; lia).
    split; [discriminate|]. intros Hrep. exfalso.
    assert (Forall (fun b => b = false) (DataQuality.duplicated_from [] (rows df))) as Hf.
    { apply Hd. split; [|exact Hrep].
      intros r s _ Hs. apply elem_of_nil in Hs. contradiction. }
    apply Hn in Hf. discriminate.
Qed.

End Duplicates.

(** The duplicate check on whole rows never raises, and it finds nothing
    exactly when no row of the table equals an earlier row. *)
Theorem validate_duplicates_empty_iff_no_repeat df :
  columns df <> [] ->
  exists report,
    DataQuality.validate_duplicates df None = Ok report /\
    (report = None <-> ~ repeats (rows df)).
Proof.
  intros _. destruct (validate_duplicates_total df) as [report Hr].
  exists report. split; [exact Hr|].
  rewrite <- validate_duplicates_none, Hr.
  split; [intros ->; reflexivity|intros [= ->]; reflexivity].
Qed.

(** Two different rows: the check returns the empty report. *)
Lemma validate_duplicates_empty_example :
  columns clean_batch <> [] /\
  DataQuality.validate_duplicates clean_batch None = Ok None.
Proof.
  split; [discriminate|].
  destruct (validate_duplicates_empty_iff_no_repeat clean_batch ltac:(discriminate))
    as (report & Hr & Hiff).
  rewrite Hr. vm_compute in Hr. injection Hr as <-. reflexivity.
Defined.

Section CleanTables.








End CleanTables.




Section Ranges.

Variable df : DataFrame.

Lemma below_measure lim c :
  measure c -> DataQuality.below c (DataQuality.lim_min lim) = Ok (below_limit lim c).
Proof.
  unfold below_limit. destruct c; simpl; try contradiction; intros _;
    destruct (DataQuality.lim_min lim); reflexivity.
Qed.

Lemma above_measure lim c :
  measure c -> DataQuality.above c (DataQuality.lim_max lim) = Ok (above_limit lim c).
Proof.
  unfold above_limit. destruct c; simpl; try contradiction; intros _;
    destruct (DataQuality.lim_max lim); reflexivity.
Qed.

Lemma traverse_total {A B} (f : A -> res B) (g : A -> B) (P : A -> Prop) l :
  (forall a, P a -> f a = Ok (g a)) -> Forall P l -> traverse f l = Ok (map g l).
Proof.
  intros Hf Hl. induction Hl as [|a l Ha Hl IH]; simpl; [reflexivity|].
  rewrite (Hf a Ha), IH. reflexivity.
Qed.

Lemma count_true_map (p : cell -> bool) s :
  DataQuality.count_true (map p s) = count_where p s.
Proof.
  unfold DataQuality.count_true, count_where. f_equal.
  induction s as [|c s IH]; simpl; [reflexivity|].
  destruct (p c) eqn:E.
  - rewrite filter_cons_True by reflexivity. simpl. rewrite IH. reflexivity.
  - rewrite filter_cons_False by discriminate. exact IH.
Qed.

Lemma expected_ranges_absent ranges col :
  col ∉ map fst ranges -> expected_ranges df ranges col = None.
Proof.
  induction ranges as [|[c lim] rest IH]; simpl; [reflexivity|].
  intros Hnot. destruct (String.eqb_spec col c) as [->|Hne].
  - exfalso. apply Hnot. left.
  - apply IH. intros Hin. apply Hnot. right. exact Hin.
Qed.

Lemma validate_ranges_loop_lookup ranges :
  NoDup (map fst ranges) ->
  (forall col lim, (col, lim) ∈ ranges -> has_column df col = true ->
                   Forall measure (column df col)) ->
  forall report0, exists report,
    DataQuality.validate_ranges_loop df ranges report0 = Ok report /\
    forall col,
      report !! col = match expected_ranges df ranges col with
                      | Some v => Some v
                      | None => report0 !! col
                      end.
Proof.
  induction ranges as [|[c lim] rest IH]; intros Hnd Hnum report0.
  - exists report0. split; reflexivity.
  - simpl in Hnd. apply NoDup_cons in Hnd as [Hc Hnd].
    assert (forall col l, (col, l) ∈ rest -> has_column df col = true ->
                          Forall measure (column df col)) as Hnum'
      by (intros col l Hin; apply (Hnum col l); right; exact Hin).
    specialize (IH Hnd Hnum').
    assert (exists report1,
               DataQuality.validate_ranges_loop df ((c, lim) :: rest) report0 =
               DataQuality.validate_ranges_loop df rest report1 /\
               forall col, report1 !! col =
                           if String.eqb col c
                           then match range_entry df lim col with
                                | Some v => Some v
                                | None => report0 !! col
                                end
                           else report0 !! col) as (report1 & Hstep & Hlook).
    { simpl. unfold range_entry.
      destruct (has_column df c) eqn:Hhas.
      - pose proof (Hnum c lim (list_elem_of_here _ _) Hhas) as Hm.
        rewrite (traverse_total _ (below_limit lim) measure _
                   (below_measure lim) Hm).
        rewrite (traverse_total _ (above_limit lim) measure _
                   (above_measure lim) Hm).
        cbn [mbind res_bind]. rewrite !count_true_map.
        destruct ((0 <? _) || (0 <? _)) eqn:Hv.
        + eexists. split; [reflexivity|]. intros col.
          destruct (String.eqb_spec col c) as [->|Hne].
          * rewrite Hhas, Hv. apply lookup_insert_eq.
          * apply lookup_insert_ne. congruence.
        + exists report0. split; [reflexivity|]. intros col.
          destruct (String.eqb_spec col c) as [->|Hne]; [|reflexivity].
          rewrite Hhas, Hv. reflexivity.
      - exists report0. split; [reflexivity|]. intros col.
        destruct (String.eqb_spec col c) as [->|Hne]; [|reflexivity].
        rewrite Hhas. reflexivity. }
    destruct (IH report1) as (report & Hloop & Hrep).
    exists report. split; [rewrite Hstep; exact Hloop|].
    intros col. rewrite Hrep, Hlook. simpl.
    destruct (String.eqb_spec col c) as [->|Hne]; [|reflexivity].
    rewrite (expected_ranges_absent rest c Hc). reflexivity.
Qed.

Lemma expected_ranges_spec ranges col v :
  NoDup (map fst ranges) ->
  expected_ranges df ranges col = Some v <->
  exists lim, (col, lim) ∈ ranges /\ range_entry df lim col = Some v.
Proof.
  induction ranges as [|[c lim] rest IH]; simpl; intros Hnd.
  - split; [discriminate|]. intros (lim & Hin & _).
    apply elem_of_nil in Hin. contradiction.
  - apply NoDup_cons in Hnd as [Hc Hnd].
    destruct (String.eqb_spec col c) as [->|Hne].
    + split.
      * intros H. exists lim. split; [left|exact H].
      * intros (lim' & Hin & H). apply elem_of_cons in Hin as [[= ->]|Hin]; [exact H|].
        exfalso. apply Hc. apply list_elem_of_In, in_map_iff.
        exists (c, lim'). split; [reflexivity|apply list_elem_of_In, Hin].
    + rewrite (IH Hnd). split.
      * intros (lim' & Hin & H). exists lim'. split; [right; exact Hin|exact H].
      * intros (lim' & Hin & H). apply elem_of_cons in Hin as [[= -> ->]|Hin];
          [contradiction|]. eauto.
Qed.

End Ranges.

(** For limits that name each column once, and numeric columns, the range
    check returns a report that holds exactly the named columns of the table
    with at least one value strictly below the minimum or strictly above the
    maximum, each with its two counts.  A column the table lacks is skipped,
    and neither a missing value nor a value equal to a limit is counted. *)
Theorem validate_ranges_reports_violations df ranges :
  NoDup (map fst ranges) ->
  (forall col lim, (col, lim) ∈ ranges -> has_column df col = true ->
                   Forall measure (column df col)) ->
  exists report,
    DataQuality.validate_ranges df (Some ranges) = Ok report /\
    forall col lo hi,
      report !! col = Some (lo, hi) <->
      exists lim, (col, lim) ∈ ranges /\ has_column df col = true /\
        lo = count_where (below_limit lim) (column df col) /\
        hi = count_where (above_limit lim) (column df col) /\
        (0 < lo \/ 0 < hi).
Proof.
  intros Hnd Hnum.
  destruct (validate_ranges_loop_lookup df ranges Hnd Hnum ∅) as (report & Hloop & Hrep).
  exists report. split.
  - destruct ranges; [injection Hloop as <-|]; [reflexivity|exact Hloop].
  - intros col lo hi. rewrite Hrep, lookup_empty.
    assert (match expected_ranges df ranges col with
            | Some v => Some v
            | None => None
            end = expected_ranges df ranges col) as -> by (destruct (expected_ranges _ _ _); reflexivity).
    rewrite (expected_ranges_spec df ranges col (lo, hi) Hnd).
    unfold range_entry. split.
    + intros (lim & Hin & H). exists lim. split; [exact Hin|].
      destruct (has_column df col); [|discriminate]. split; [reflexivity|].
      destruct ((0 <? _) || (0 <? _)) eqn:Hv; [|discriminate].
      injection H as <- <-. split; [reflexivity|]. split; [reflexivity|].
      apply orb_prop in Hv as [Hv|Hv]; apply Z.ltb_lt in Hv; auto.
    + intros (lim & Hin & Hhas & -> & -> & Hv). exists lim. split; [exact Hin|].
      rewrite Hhas.
      replace ((0 <? _) || (0 <? _)) with true; [reflexivity|].
      symmetry. apply orb_true_iff.
      destruct Hv as [Hv|Hv]; [left|right]; apply Z.ltb_lt, Hv.
Qed.

(** With the Sales limits [15, 25] and the Stock minimum 0 on a table of
    five rows: two sales are too low and one too high; one stock is below
    0, the stock of 0 and the missing cells are not counted. *)
Lemma validate_ranges_example :
  NoDup (map fst sales_limits) /\
  exists report,
    DataQuality.validate_ranges stock_batch (Some sales_limits) = Ok report /\
    report !! "Sales" = Some (1, 1) /\ report !! "Stock" = Some (1, 0).
Proof.
  assert (NoDup (map fst sales_limits)) as Hnd
    by (apply (bool_decide_unpack _); vm_compute; exact I).
  split; [exact Hnd|].
  destruct (validate_ranges_reports_violations stock_batch sales_limits Hnd)
    as (report & Hrep & Hspec).
  - intros col lim Hin _. unfold sales_limits in Hin.
    rewrite !elem_of_cons, elem_of_nil in Hin.
    destruct Hin as [[= -> _]|[[= -> _]|[]]]; vm_compute; repeat constructor.
  - exists report. split; [exact Hrep|]. split.
    + apply Hspec. eexists. split; [left|]. vm_compute. repeat split; auto.
    + apply Hspec. eexists. split; [right; left|]. vm_compute. repeat split; auto.
Defined.

(** * More on the KPI functions *)

Section RunningTotals.

Lemma numbers_measure s :
  Forall measure s ->
  exists xs, Metrics.numbers s = Ok xs /\ length xs = length s.
Proof.
  induction 1 as [|c s Hc Hs (xs & Hxs & Hlen)].
  - exists []. split; reflexivity.
  - unfold Metrics.numbers in *. simpl. rewrite Hxs.
    destruct c; simpl in Hc; try contradiction;
      (eexists; split; [reflexivity|simpl; rewrite Hlen; reflexivity]).
Qed.

Lemma cumsum_from_lookup xs :
  forall acc i,
    Metrics.cumsum_from acc xs !! i =
    match xs !! i with
    | Some (Some _) =>
        Some (VFloat (Qred (acc + Metrics.Qsum (Metrics.present (take (S i) xs)))))
    | Some None => Some VNull
    | None => None
    end.
Proof.
  induction xs as [|[q|] xs IH]; intros acc i; [reflexivity| |].
  - destruct i as [|i]; simpl.
    + do 2 f_equal. apply Qred_complete. ring.
    + rewrite IH. destruct (xs !! i) as [[?|]|]; try reflexivity.
      do 2 f_equal. apply Qred_complete. simpl. ring.
  - destruct i as [|i]; simpl; [reflexivity|].
    rewrite IH. reflexivity.
Qed.

Lemma length_cumsum_from xs : forall acc, length (Metrics.cumsum_from acc xs) = length xs.
Proof.
  induction xs as [|[q|] xs IH]; intros acc; simpl; [reflexivity| |];
    rewrite IH; reflexivity.
Qed.

Lemma cumsum_lookup xs i :
  (i < length xs)%nat -> Metrics.cumsum xs !! i = Some (running_total xs i).
Proof.
  intros Hi. unfold Metrics.cumsum, running_total. rewrite cumsum_from_lookup.
  destruct (xs !! i) as [[q|]|] eqn:E; [|reflexivity|].
  - do 2 f_equal. apply Qred_complete. ring.
  - apply lookup_ge_None in E. lia.
Qed.

Lemma list_last_lookup {A} (l : list A) d :
  l <> [] -> l !! (length l - 1)%nat = Some (List.last l d).
Proof.
  induction l as [|a l IH]; [congruence|]. intros _.
  destruct l as [|b l]; [reflexivity|].
  replace (length (a :: b :: l) - 1)%nat with (S (length (b :: l) - 1))
    by (simpl; lia).
  change (List.last (a :: b :: l) d) with (List.last (b :: l) d).
  apply IH. discriminate.
Qed.

Lemma iloc_last_lookup (s : list cell) c :
  s !! (length s - 1)%nat = Some c -> Metrics.iloc_last s = Ok c.
Proof.
  intros H. destruct s as [|a s]; [discriminate|].
  unfold Metrics.iloc_last. f_equal.
  pose proof (list_last_lookup (a :: s) VNull) as Hl.
  rewrite H in Hl. injection Hl; [auto|discriminate].
Qed.

End RunningTotals.

(** [cumulative] on a numeric column returns a series as long as the table
    whose value at each row is the sum of the values present up to and
    including that row, and is missing where the row's value is missing. *)
Theorem cumulative_running_total df column_name :
  has_column df column_name = true ->
  Forall measure (column df column_name) ->
  exists xs cs,
    Metrics.numbers (column df column_name) = Ok xs /\
    Metrics.cumulative df column_name None = Ok cs /\
    length cs = len df /\
    forall i, (i < len df)%nat -> cs !! i = Some (running_total xs i).
Proof.
  intros Hc Hm. destruct (numbers_measure _ Hm) as (xs & Hxs & Hlen).
  rewrite (length_column _ _ Hc) in Hlen.
  exists xs, (Metrics.cumsum xs). split; [exact Hxs|]. split.
  - unfold Metrics.cumulative. rewrite Hc, Hxs. reflexivity.
  - split; [unfold Metrics.cumsum; rewrite length_cumsum_from; exact Hlen|].
    intros i Hi. apply cumsum_lookup. lia.
Qed.

(** Sales of 100, 150, missing, 130, 170 accumulate to 100, 250, missing,
    380, 550. *)
Lemma cumulative_running_total_example :
  has_column week_batch "Sales" = true /\
  Metrics.cumulative week_batch "Sales" None =
  Ok [VFloat 100; VFloat 250; VNull; VFloat 380; VFloat 550].
Proof.
  split; [reflexivity|].
  destruct (cumulative_running_total week_batch "Sales") as (xs & cs & Hxs & Hcs & _ & _).
  - reflexivity.
  - vm_compute. repeat constructor.
  - reflexivity.
Defined.

Section Kpis.

Variable df : DataFrame.
Hypothesis Hrows : rows df <> [].

Lemma guard_true col :
  has_column df col = true -> has_column df col && (0 <? Z.of_nat (len df)) = true.
Proof.
  intros ->. simpl. apply Z.ltb_lt. unfold len.
  destruct (rows df); [congruence|simpl; lia].
Qed.

Lemma len_pos : (0 < len df)%nat.
Proof. unfold len. destruct (rows df); [congruence|simpl; lia]. Qed.

Lemma kpi_block_returns metrics col xs :
  has_column df col = true ->
  Metrics.numbers (column df col) = Ok xs ->
  length xs = len df ->
  Metrics.kpi_block df metrics col =
  Ok (<["cumulative_" +:+ Metrics.lower col := running_total xs (length xs - 1)]>
      (<["min_" +:+ Metrics.lower col := Metrics.series_min xs]>
       (<["max_" +:+ Metrics.lower col := Metrics.series_max xs]>
        (<["avg_" +:+ Metrics.lower col := Metrics.series_mean xs]>
         (<["total_" +:+ Metrics.lower col := Metrics.series_sum xs]> metrics))))).
Proof.
  intros Hc Hxs Hlen. unfold Metrics.kpi_block.
  unfold Metrics.total, Metrics.mean, Metrics.maximum, Metrics.minimum,
    Metrics.cumulative.
  rewrite (guard_true _ Hc), Hc, Hxs. cbn [mbind res_bind negb].
  pose proof len_pos as Hpos.
  assert (Metrics.iloc_last (Metrics.cumsum xs) =
          Ok (running_total xs (length xs - 1))) as ->; [|reflexivity].
  apply iloc_last_lookup. unfold Metrics.cumsum at 1. rewrite length_cumsum_from.
  apply cumsum_lookup. lia.
Qed.

Lemma rolling_block_returns metrics col xs :
  has_column df col = true ->
  Metrics.numbers (column df col) = Ok xs ->
  length xs = len df ->
  Metrics.rolling_block df metrics col =
  Ok (<["rolling_avg_" +:+ Metrics.lower col :=
        partial_window_mean 3 xs (length xs - 1)]> metrics).
Proof.
  intros Hc Hxs Hlen. unfold Metrics.rolling_block, Metrics.rolling_average.
  rewrite Hc, Hxs. cbn [mbind res_bind negb].
  pose proof len_pos as Hpos.
  change 3 with (Z.of_nat 3). rewrite rolling_mean_windows by lia.
  cbn [mbind res_bind].
  assert (Metrics.iloc_last (map (partial_window_mean 3 xs) (seq 0 (length xs))) =
          Ok (partial_window_mean 3 xs (length xs - 1))) as ->; [|reflexivity].
  apply iloc_last_lookup.
  rewrite length_map, length_seq, list_lookup_fmap.
  rewrite lookup_seq_lt by lia. reflexivity.
Qed.

Lemma kpi_block_skips metrics col :
  has_column df col = false -> Metrics.kpi_block df metrics col = Ok metrics.
Proof. intros H. unfold Metrics.kpi_block. rewrite H. reflexivity. Qed.

Lemma rolling_block_skips metrics col :
  has_column df col = false -> Metrics.rolling_block df metrics col = Ok metrics.
Proof. intros H. unfold Metrics.rolling_block. rewrite H. reflexivity. Qed.

End Kpis.

Ltac kpi_names :=
  repeat match goal with
         | |- context [?p +:+ Metrics.lower ?c] =>
             let s := eval vm_compute in (p +:+ Metrics.lower c) in
             change (p +:+ Metrics.lower c) with s
         end.

Ltac kpi_lookup :=
  unfold kpi; kpi_names;
  repeat (rewrite lookup_insert_ne by discriminate);
  first [apply lookup_insert_eq | apply lookup_empty].

(** What one measure contributes: its values when the table has it. *)
Lemma measure_values df col :
  (has_column df col = true -> Forall measure (column df col)) ->
  (has_column df col = true /\
   exists xs, Metrics.numbers (column df col) = Ok xs /\ length xs = len df) \/
  has_column df col = false.
Proof.
  intros H. destruct (has_column df col) eqn:Hc; [left|right; reflexivity].
  split; [reflexivity|]. destruct (numbers_measure _ (H eq_refl)) as (xs & Hxs & Hlen).
  exists xs. split; [exact Hxs|]. rewrite Hlen. apply length_column, Hc.
Qed.

(** The entries of the dictionary of KPIs, measure by measure. *)
Lemma calculate_kpis_entries df :
  rows df <> [] ->
  (forall col, col ∈ KPI_COLUMNS -> has_column df col = true ->
               Forall measure (column df col)) ->
  exists m,
    Metrics.calculate_kpis df = Ok m /\
    forall col, col ∈ KPI_COLUMNS ->
      if has_column df col
      then exists xs, Metrics.numbers (column df col) = Ok xs /\ kpis_of m col xs
      else no_kpis m col.
Proof.
  intros Hrows Hm.
  assert ("Sales" ∈ KPI_COLUMNS) as H1 by (left).
  assert ("Quantity" ∈ KPI_COLUMNS) as H2 by (right; left).
  assert ("Stock" ∈ KPI_COLUMNS) as H3 by (right; right; left).
  unfold Metrics.calculate_kpis. cbn [Metrics.foldM].
  destruct (measure_values df "Sales" (Hm _ H1)) as [(Hs & xs & Hxs & Hls)|Hs];
  destruct (measure_values df "Quantity" (Hm _ H2)) as [(Hq & ys & Hys & Hlq)|Hq];
  destruct (measure_values df "Stock" (Hm _ H3)) as [(Ht & zs & Hzs & Hlt)|Ht];
  repeat first
    [ rewrite (kpi_block_returns df Hrows _ "Sales" xs Hs Hxs Hls)
    | rewrite (kpi_block_returns df Hrows _ "Quantity" ys Hq Hys Hlq)
    | rewrite (kpi_block_returns df Hrows _ "Stock" zs Ht Hzs Hlt)
    | rewrite (rolling_block_returns df Hrows _ "Sales" xs Hs Hxs Hls)
    | rewrite (rolling_block_returns df Hrows _ "Quantity" ys Hq Hys Hlq)
    | rewrite (kpi_block_skips df _ _ Hs)
    | rewrite (kpi_block_skips df _ _ Hq)
    | rewrite (kpi_block_skips df _ _ Ht)
    | rewrite (rolling_block_skips df _ _ Hs)
    | rewrite (rolling_block_skips df _ _ Hq)
    | progress cbn [mbind res_bind] ];
  (eexists; split; [reflexivity|]);
  intros col Hin; unfold KPI_COLUMNS in Hin;
  rewrite !elem_of_cons, elem_of_nil in Hin;
  destruct Hin as [->|[->|[->|[]]]];
  rewrite ?Hs, ?Hq, ?Ht;
  first
    [ (eexists; split; [eassumption|]); unfold kpis_of; cbn [String.eqb Ascii.eqb Bool.eqb];
      repeat split; kpi_lookup
    | unfold no_kpis; repeat split; kpi_lookup ].
Qed.

(** On a table with at least one row whose measures are numeric,
    [calculate_kpis] returns a dictionary.  For each of Sales, Quantity and
    Stock that the table has, it holds the sum, mean, maximum and minimum
    of the values present, the running total at the last row, and (Stock
    apart) the mean of the last three values; for a measure the table
    lacks it holds nothing. *)
Theorem calculate_kpis_returns_on_rows df :
  rows df <> [] ->
  (forall col, col ∈ KPI_COLUMNS -> has_column df col = true ->
               Forall measure (column df col)) ->
  exists m,
    Metrics.calculate_kpis df = Ok m /\
    forall col, col ∈ KPI_COLUMNS ->
      if has_column df col
      then exists xs, Metrics.numbers (column df col) = Ok xs /\ kpis_of m col xs
      else no_kpis m col.
Proof. apply calculate_kpis_entries. Qed.

(** Five days with sales and stock: the total and the running total of the
    sales are both 550, the mean of the last three sales is 150 (the
    missing one is left out), and there is no rolling average of the
    stock. *)
Lemma calculate_kpis_example :
  rows week_batch <> [] /\
  exists m,
    Metrics.calculate_kpis week_batch = Ok m /\
    m !! "total_sales" = Some (VFloat 550) /\
    m !! "cumulative_sales" = Some (VFloat 550) /\
    m !! "rolling_avg_sales" = Some (VFloat 150) /\
    m !! "rolling_avg_stock" = None /\
    m !! "total_quantity" = None.
Proof.
  split; [discriminate|].
  destruct (calculate_kpis_returns_on_rows week_batch) as (m & Hm & Hk).
  - discriminate.
  - intros col Hin _. unfold KPI_COLUMNS in Hin.
    rewrite !elem_of_cons, elem_of_nil in Hin.
    destruct Hin as [->|[->|[->|[]]]]; vm_compute; repeat constructor.
  - exists m. split; [exact Hm|].
    pose proof (Hk "Sales" ltac:(left)) as Hsales.
    pose proof (Hk "Quantity" ltac:(right; left)) as Hquantity.
    pose proof (Hk "Stock" ltac:(right; right; left)) as Hstock.
    change (has_column week_batch "Sales") with true in Hsales.
    change (has_column week_batch "Quantity") with false in Hquantity.
    change (has_column week_batch "Stock") with true in Hstock.
    destruct Hsales as (xs & Hxs & Ht & _ & _ & _ & Hc & Hr).
    destruct Hstock as (zs & Hzs & _ & _ & _ & _ & _ & Hrs).
    destruct Hquantity as (Hq & _).
    injection Hxs as <-.
    repeat split; [exact Ht | exact Hc | exact Hr | exact Hrs | exact Hq].
Defined.

(** * More on the Bronze stage *)

Section Casting.

Variable astype : list cell -> string -> res (list cell).

(** A conversion keeps the length of the series. *)
Hypothesis astype_length :
  forall s dtype s', astype s dtype = Ok s' -> length s' = length s.

Lemma dtype_of_absent types c : c ∉ map fst types -> dtype_of types c = None.
Proof.
  induction types as [|[k d] rest IH]; simpl; [reflexivity|].
  intros Hnot. destruct (String.eqb_spec c k) as [->|Hne].
  - exfalso. apply Hnot. left.
  - apply IH. intros Hin. apply Hnot. right. exact Hin.
Qed.

Lemma flat_map_agree {A B} (f g : A -> list B) l :
  (forall a, In a l -> f a = g a) -> flat_map f l = flat_map g l.
Proof.
  induction l as [|a l IH]; intros H; simpl; [reflexivity|].
  rewrite (H a) by (left; reflexivity). rewrite IH; [reflexivity|].
  intros b Hb. apply H. right. exact Hb.
Qed.

Lemma cast_failure_same df df' item :
  has_column df' (fst item) = has_column df (fst item) ->
  column df' (fst item) = column df (fst item) ->
  cast_failure astype df' item = cast_failure astype df item.
Proof. intros H1 H2. unfold cast_failure. rewrite H1, H2. reflexivity. Qed.

Lemma cast_columns_fold types :
  NoDup (map fst types) ->
  forall df log, wf df ->
    let out := foldl (Bronze.cast_column astype) (df, log) types in
    wf (fst out) /\ columns (fst out) = columns df /\ len (fst out) = len df /\
    (forall c, has_column df c = true ->
               column (fst out) c = cast_of astype types df c) /\
    snd out = log ++ cast_failures astype types df.
Proof.
  induction types as [|[col d] rest IH]; intros Hnd df log Hwf; cbv zeta in *.
  - simpl. repeat split; try apply Hwf. rewrite app_nil_r. reflexivity.
  - simpl in Hnd. apply NoDup_cons in Hnd as [Hcol Hnd].
    cbn [foldl].
    assert (Bronze.cast_column astype (df, log) (col, d) =
            if has_column df col then
              match astype (column df col) d with
              | Ok s => (set_column df col s, log)
              | Raise e =>
                  (df, log ++ [mkEvent "type_cast_error"
                                 ("Failed to cast column " +:+ col +:+ " to " +:+ d)
                                 (Error e)])
              end
            else (df, log)) as -> by reflexivity.
    unfold cast_failures. cbn [flat_map]. fold (cast_failures astype rest df).
    unfold cast_failure at 1. cbn [fst snd].
    destruct (has_column df col) eqn:Hc.
    + destruct (astype (column df col) d) as [s|e] eqn:Ha.
      * assert (length s = len df) as Hlen
          by (rewrite (astype_length _ _ _ Ha); apply length_column, Hc).
        pose proof (wf_set_column df col s Hwf Hlen) as Hwf'.
        destruct (IH Hnd (set_column df col s) log Hwf')
          as (Hw & Hcols & Hl & Hvals & Hlog).
        split; [exact Hw|]. split.
        { rewrite Hcols, columns_set_column, Hc. reflexivity. }
        split; [rewrite Hl; apply len_set_column, Hlen|]. split.
        -- intros c Hhas. rewrite Hvals
             by (rewrite has_column_set_column, Hhas; reflexivity).
           unfold cast_of. simpl. destruct (String.eqb_spec c col) as [->|Hne].
           ++ rewrite (dtype_of_absent rest col Hcol), Ha.
              apply column_set_column_same; assumption.
           ++ rewrite (column_set_column_other df col s c Hwf Hlen Hne). reflexivity.
        -- rewrite Hlog. simpl. f_equal. unfold cast_failures.
           apply flat_map_agree. intros [c' d'] Hin.
           assert (c' <> col) as Hne.
           { intros ->. apply Hcol. apply list_elem_of_In, in_map_iff.
             exists (col, d'). split; [reflexivity|exact Hin]. }
           apply cast_failure_same; cbn [fst].
           ++ rewrite has_column_set_column.
              destruct (String.eqb_spec c' col); [contradiction|apply orb_false_r].
           ++ apply column_set_column_other; assumption.
      * destruct (IH Hnd df (log ++ [mkEvent "type_cast_error"
                     ("Failed to cast column " +:+ col +:+ " to " +:+ d) (Error e)]) Hwf)
          as (Hw & Hcols & Hl & Hvals & Hlog).
        split; [exact Hw|]. split; [exact Hcols|]. split; [exact Hl|]. split.
        -- intros c Hhas. rewrite (Hvals c Hhas). unfold cast_of. simpl.
           destruct (String.eqb_spec c col) as [->|Hne]; [|reflexivity].
           rewrite (dtype_of_absent rest col Hcol), Ha. reflexivity.
        -- rewrite Hlog, <- app_assoc. reflexivity.
    + destruct (IH Hnd df log Hwf) as (Hw & Hcols & Hl & Hvals & Hlog).
      split; [exact Hw|]. split; [exact Hcols|]. split; [exact Hl|]. split.
      * intros c Hhas. rewrite (Hvals c Hhas). unfold cast_of. simpl.
        destruct (String.eqb_spec c col) as [->|Hne]; [congruence|reflexivity].
      * rewrite Hlog. reflexivity.
Qed.

Lemma NoDup_COLUMN_TYPES : NoDup (map fst Bronze.COLUMN_TYPES).
Proof. apply (bool_decide_unpack _). vm_compute. exact I. Qed.

Lemma enforce_column_types_wf df :
  wf df -> wf (fst (Bronze.enforce_column_types astype df)).
Proof.
  intros Hwf. apply (cast_columns_fold _ NoDup_COLUMN_TYPES df [] Hwf).
Qed.

End Casting.

(** [enforce_column_types] keeps the header and the number of rows of the
    table.  Each column that [COLUMN_TYPES] names is converted from the
    values it had in the table that was passed in; a conversion that fails
    leaves its column as it was, is logged once, and does not stop the
    conversions after it; every other column is untouched. *)
Theorem enforce_column_types_casts_each_column
    (astype : list cell -> string -> res (list cell)) df :
  (forall s dtype s', astype s dtype = Ok s' -> length s' = length s) ->
  wf df ->
  let out := Bronze.enforce_column_types astype df in
  wf (fst out) /\ columns (fst out) = columns df /\ len (fst out) = len df /\
  (forall c, has_column df c = true ->
             column (fst out) c = cast_of astype Bronze.COLUMN_TYPES df c) /\
  snd out = cast_failures astype Bronze.COLUMN_TYPES df.
Proof.
  intros Hlen Hwf.
  apply (cast_columns_fold astype Hlen _ (NoDup_COLUMN_TYPES) df [] Hwf).
Qed.

Lemma astype_example_length s dtype s' :
  astype_example s dtype = Ok s' -> length s' = length s.
Proof.
  unfold astype_example.
  destruct (String.eqb dtype "int").
  - destruct (existsb isna s); [discriminate|]. intros [= <-]. reflexivity.
  - destruct (String.eqb dtype "float"); intros [= <-];
      [apply length_map|reflexivity].
Qed.

Lemma wf_raw_batch : wf raw_batch.
Proof. wf_concrete. Qed.

(** The sales become floats; the quantities, one of them missing, cannot
    become integers and stay as they were, with one record of the
    failure. *)
Lemma enforce_column_types_example :
  wf raw_batch /\
  let out := Bronze.enforce_column_types astype_example raw_batch in
  column (fst out) "Sales" = [VFloat 10; VFloat 20] /\
  column (fst out) "Quantity" = [VInt 1; VNull] /\
  map event_type (snd out) = ["type_cast_error"].
Proof.
  split; [exact wf_raw_batch|].
  destruct (enforce_column_types_casts_each_column astype_example raw_batch
              astype_example_length wf_raw_batch) as (_ & _ & _ & Hvals & Hlog).
  cbv zeta. split; [|split].
  - rewrite (Hvals "Sales" eq_refl). reflexivity.
  - rewrite (Hvals "Quantity" eq_refl). reflexivity.
  - rewrite Hlog. reflexivity.
Defined.

Section Lineage.

Variable parse_datetime : cell -> option datetime.

(** The table once the two lineage columns are set. *)
Lemma lineage_columns_set df cube_name now :
  wf df ->
  let df1 := set_scalar (set_scalar df "cube_name" (VStr cube_name))
                        "bronze_extraction_time" (VTime now) in
  wf df1 /\ len df1 = len df /\
  column df1 "cube_name" = replicate (len df) (VStr cube_name) /\
  column df1 "bronze_extraction_time" = replicate (len df) (VTime now) /\
  (forall c, c <> "cube_name" -> c <> "bronze_extraction_time" ->
             column df1 c = column df c /\ has_column df1 c = has_column df c).
Proof.
  intros Hwf df1. unfold df1.
  pose proof (wf_set_scalar df "cube_name" (VStr cube_name) Hwf) as Hwf0.
  split; [apply wf_set_scalar, Hwf0|].
  split; [rewrite !len_set_scalar; reflexivity|]. split.
  - rewrite column_set_scalar_other by (assumption || discriminate).
    apply column_set_scalar_same, Hwf.
  - split.
    + rewrite column_set_scalar_same by assumption.
      rewrite len_set_scalar. reflexivity.
    + intros c H1 H2. split.
      * rewrite !column_set_scalar_other by assumption. reflexivity.
      * rewrite !has_column_set_scalar.
        destruct (String.eqb_spec c "cube_name"); [contradiction|].
        destruct (String.eqb_spec c "bronze_extraction_time"); [contradiction|].
        rewrite !orb_false_r. reflexivity.
Qed.

Lemma traverse_raises {A B} (f : A -> res B) l e :
  traverse f l = Raise e -> exists a, a ∈ l /\ f a = Raise e.
Proof.
  induction l as [|a l IH]; simpl; [discriminate|].
  destruct (f a) as [b|e'] eqn:Ha; simpl.
  - destruct (traverse f l) as [bs|e'] eqn:Ht; simpl; [discriminate|].
    intros [= ->]. destruct (IH eq_refl) as (a' & Hin & Ha').
    exists a'. split; [right; exact Hin|exact Ha'].
  - intros [= ->]. exists a. split; [left|exact Ha].
Qed.

Lemma traverse_returns {A B} (f : A -> res B) l :
  (forall a, a ∈ l -> exists b, f a = Ok b) -> exists bs, traverse f l = Ok bs.
Proof.
  induction l as [|a l IH]; intros H; simpl; [eauto|].
  destruct (H a) as [b ->]; [left|]. simpl.
  destruct IH as [bs ->]; [|simpl; eauto].
  intros a' Hin. apply H. right. exact Hin.
Qed.

Lemma to_datetime_cell_raises c e :
  to_datetime_cell parse_datetime c = Raise e <->
  e = conversion_error c /\ unparsable parse_datetime c.
Proof.
  unfold to_datetime_cell, unparsable.
  destruct c; try (split; [discriminate|intros [_ []]]);
    destruct (parse_datetime _); split;
    try discriminate; try (intros [_ ?]; discriminate);
    try (intros [= <-]; split; reflexivity); intros [-> _]; reflexivity.
Qed.

Lemma to_datetime_raises s :
  (exists e, to_datetime parse_datetime s = Raise e) <->
  exists c, c ∈ s /\ unparsable parse_datetime c.
Proof.
  split.
  - intros [e He]. apply traverse_raises in He as (c & Hin & Hc).
    exists c. split; [exact Hin|]. apply to_datetime_cell_raises in Hc. apply Hc.
  - intros (c & Hin & Hc).
    destruct (to_datetime parse_datetime s) as [dates|e] eqn:Ht; [|eauto].
    exfalso. revert dates Ht. unfold to_datetime.
    induction s as [|a s IH]; intros dates; [apply elem_of_nil in Hin; contradiction|].
    simpl. destruct (to_datetime_cell parse_datetime a) as [b|e] eqn:Ha; simpl;
      [|discriminate].
    destruct (traverse _ s) as [bs|e] eqn:Hs; simpl; [|discriminate]. intros _.
    apply elem_of_cons in Hin as [->|Hin]; [|eapply IH; eauto].
    assert (to_datetime_cell parse_datetime a = Raise (conversion_error a)) as Hr
      by (apply to_datetime_cell_raises; split; [reflexivity|assumption]).
    congruence.
Qed.

Lemma add_metadata_columns_facts now today df cube_name df' :
  wf df ->
  Bronze.add_metadata_columns parse_datetime now today df cube_name = Ok df' ->
  wf df' /\ len df' = len df /\
  column df' "cube_name" = replicate (len df) (VStr cube_name) /\
  column df' "bronze_extraction_time" = replicate (len df) (VTime now) /\
  has_column df' PARTITION_COLUMN = true /\
  (forall c, has_column df c = true -> c <> "cube_name" ->
             c <> "bronze_extraction_time" -> column df' c = column df c).
Proof.
  intros Hwf. unfold Bronze.add_metadata_columns.
  destruct (lineage_columns_set df cube_name now Hwf) as (Hwf1 & Hlen1 & Hcube & Htime & Hrest).
  set (df1 := set_scalar (set_scalar df "cube_name" (VStr cube_name))
                         "bronze_extraction_time" (VTime now)) in *.
  assert (forall vals, length vals = len df1 ->
            has_column df1 PARTITION_COLUMN = false ->
            let df2 := set_column df1 PARTITION_COLUMN vals in
            wf df2 /\ len df2 = len df /\
            column df2 "cube_name" = replicate (len df) (VStr cube_name) /\
            column df2 "bronze_extraction_time" = replicate (len df) (VTime now) /\
            has_column df2 PARTITION_COLUMN = true /\
            (forall c, has_column df c = true -> c <> "cube_name" ->
                       c <> "bronze_extraction_time" -> column df2 c = column df c))
    as Hset.
  { intros vals Hlen Hp df2. unfold df2.
    split; [apply wf_set_column; assumption|].
    split; [rewrite len_set_column by assumption; exact Hlen1|].
    split; [rewrite column_set_column_other by (assumption || discriminate);
            exact Hcube|].
    split; [rewrite column_set_column_other by (assumption || discriminate);
            exact Htime|].
    split; [rewrite has_column_set_column, String.eqb_refl; apply orb_true_r|].
    intros c Hc H1 H2. destruct (Hrest c H1 H2) as [Hcol Hhas].
    rewrite column_set_column_other; [exact Hcol|assumption|assumption|].
    intros ->. congruence. }
  destruct (has_column df1 PARTITION_COLUMN) eqn:Hp; simpl.
  - intros [= <-]. repeat split; try assumption; try apply Hwf1.
    intros c Hc H1 H2. apply Hrest; assumption.
  - destruct (has_column df1 "Date") eqn:Hd.
    + destruct (to_datetime parse_datetime (column df1 "Date")) as [dates|e] eqn:Ht;
        simpl; [|discriminate].
      intros [= <-]. apply Hset; [|reflexivity].
      rewrite length_map. unfold to_datetime in Ht.
      rewrite (length_traverse _ _ _ Ht). apply length_column, Hd.
    + intros [= <-]. apply Hset; [apply length_replicate|reflexivity].
Qed.

End Lineage.

(** Whenever [add_metadata_columns] returns, the table has as many rows as
    before, every row carries the cube's name and the time of the run, a
    partition column is present, and every column the table came with,
    the two lineage columns apart, holds the values it held. *)
Theorem add_metadata_columns_lineage parse_datetime now today df cube_name df' :
  wf df ->
  Bronze.add_metadata_columns parse_datetime now today df cube_name = Ok df' ->
  wf df' /\ len df' = len df /\
  column df' "cube_name" = replicate (len df) (VStr cube_name) /\
  column df' "bronze_extraction_time" = replicate (len df) (VTime now) /\
  has_column df' PARTITION_COLUMN = true /\
  (forall c, has_column df c = true -> c <> "cube_name" ->
             c <> "bronze_extraction_time" -> column df' c = column df c).
Proof. apply add_metadata_columns_facts. Qed.

Lemma wf_dated_batch : wf dated_batch.
Proof. wf_concrete. Qed.

Lemma add_metadata_columns_lineage_example :
  wf dated_batch /\
  exists df',
    Bronze.add_metadata_columns parse_example (noon 2025 4 1) (noon 2025 4 1)
      dated_batch "sales" = Ok df' /\
    column df' "cube_name" = [VStr "sales"; VStr "sales"] /\
    column df' "Sales" = [VInt 10; VInt 20] /\
    column df' PARTITION_COLUMN = [VPeriod 2025 3; VNull].
Proof.
  split; [exact wf_dated_batch|]. eexists. split; [reflexivity|].
  pose proof (add_metadata_columns_lineage parse_example (noon 2025 4 1)
                (noon 2025 4 1) dated_batch "sales" _ wf_dated_batch eq_refl)
    as (_ & _ & Hcube & _ & _ & Hrest).
  split; [exact Hcube|]. split; [|reflexivity].
  rewrite (Hrest "Sales"); [reflexivity|reflexivity|discriminate|discriminate].
Defined.

(** [add_metadata_columns] raises exactly when it has to derive the
    partition from a Date column (the table has no partition column yet)
    and that column holds a value [pd.to_datetime] rejects; in every other
    case it returns a table. *)
Theorem add_metadata_columns_fails_only_on_dates parse_datetime now today df cube_name :
  wf df ->
  (exists e, Bronze.add_metadata_columns parse_datetime now today df cube_name = Raise e)
  <-> has_column df PARTITION_COLUMN = false /\ has_column df "Date" = true /\
      exists c, c ∈ column df "Date" /\ unparsable parse_datetime c.
Proof.
  intros Hwf. unfold Bronze.add_metadata_columns.
  destruct (lineage_columns_set df cube_name now Hwf) as (Hwf1 & _ & _ & _ & Hrest).
  set (df1 := set_scalar (set_scalar df "cube_name" (VStr cube_name))
                         "bronze_extraction_time" (VTime now)) in *.
  destruct (Hrest PARTITION_COLUMN) as [_ ->]; [discriminate|discriminate|].
  destruct (Hrest "Date") as [-> ->]; [discriminate|discriminate|].
  destruct (has_column df PARTITION_COLUMN); simpl.
  - split; [intros [e ?]; discriminate|intros [? _]; discriminate].
  - destruct (has_column df "Date"); simpl.
    + rewrite <- to_datetime_raises. split.
      * intros [e He]. split; [reflexivity|]. split; [reflexivity|].
        destruct (to_datetime parse_datetime (column df "Date")); [discriminate|eauto].
      * intros (_ & _ & e & ->). eauto.
    + split; [intros [e ?]; discriminate|intros (_ & ? & _); discriminate].
Qed.

Lemma wf_misdated_batch : wf misdated_batch.
Proof. wf_concrete. Qed.

(** The second date of the batch is the word yesterday: the stage raises. *)
Lemma add_metadata_columns_fails_example :
  wf misdated_batch /\
  exists e,
    Bronze.add_metadata_columns parse_example (noon 2025 4 1) (noon 2025 4 1)
      misdated_batch "sales" = Raise e.
Proof.
  split; [exact wf_misdated_batch|].
  apply (add_metadata_columns_fails_only_on_dates parse_example (noon 2025 4 1)
           (noon 2025 4 1) misdated_batch "sales" wf_misdated_batch).
  split; [reflexivity|]. split; [reflexivity|].
  exists (VStr "yesterday"). split; [|reflexivity].
  right. left.
Defined.

Section Rerun.

Lemma set_column_id df name :
  wf df -> has_column df name = true -> set_column df name (column df name) = df.
Proof.
  intros [_ Hrows] Hc. unfold has_column in Hc. unfold set_column, column.
  destruct (index_of name (columns df)) as [i|] eqn:E; [|discriminate].
  pose proof (index_of_lt _ _ _ E) as Hi.
  destruct df as [cols rs]. simpl in *. f_equal.
  induction Hrows as [|r rs Hr Hrs IH]; [reflexivity|].
  simpl. rewrite IH. f_equal.
  apply list_insert_id.
  destruct (nth_lookup_or_length r i VNull) as [H|H]; [|lia].
  exact H.
Qed.

Lemma set_scalar_id df name v :
  wf df -> has_column df name = true -> column df name = replicate (len df) v ->
  set_scalar df name v = df.
Proof.
  intros Hwf Hc Hcol. unfold set_scalar. rewrite <- Hcol. apply set_column_id; assumption.
Qed.

Variable parse_datetime : cell -> option datetime.

Lemma add_metadata_columns_has now today df cube_name df' :
  Bronze.add_metadata_columns parse_datetime now today df cube_name = Ok df' ->
  has_column df' "cube_name" = true /\ has_column df' "bronze_extraction_time" = true.
Proof.
  unfold Bronze.add_metadata_columns.
  set (df1 := set_scalar (set_scalar df "cube_name" (VStr cube_name))
                         "bronze_extraction_time" (VTime now)).
  assert (has_column df1 "cube_name" = true /\
          has_column df1 "bronze_extraction_time" = true) as [H1 H2].
  { unfold df1. rewrite !has_column_set_scalar. simpl.
    rewrite !orb_true_r. split; reflexivity. }
  destruct (has_column df1 PARTITION_COLUMN); simpl.
  - intros [= <-]. split; assumption.
  - destruct (has_column df1 "Date").
    + destruct (to_datetime _ _); simpl; [|discriminate]. intros [= <-].
      rewrite !has_column_set_column, H1, H2. split; reflexivity.
    + intros [= <-]. rewrite !has_column_set_scalar, H1, H2. split; reflexivity.
Qed.

End Rerun.

(** Running [add_metadata_columns] on its own output, for the same cube,
    changes nothing but the time of the run: the cube's name and the
    partition stay as the first run set them, whatever the clock says, and
    with the same reading of the clock the table comes back as it went
    in. *)
Theorem add_metadata_columns_rerun parse_datetime now1 today1 now2 today2
    df cube_name df1 :
  wf df ->
  Bronze.add_metadata_columns parse_datetime now1 today1 df cube_name = Ok df1 ->
  Bronze.add_metadata_columns parse_datetime now2 today2 df1 cube_name =
    Ok (set_scalar df1 "bronze_extraction_time" (VTime now2)) /\
  Bronze.add_metadata_columns parse_datetime now1 today2 df1 cube_name = Ok df1.
Proof.
  intros Hwf Hrun.
  destruct (add_metadata_columns_facts _ _ _ _ _ _ Hwf Hrun)
    as (Hwf1 & Hlen & Hcube & Htime & Hp & _).
  destruct (add_metadata_columns_has _ _ _ _ _ _ Hrun) as [Hc Ht].
  rewrite <- Hlen in Hcube, Htime.
  assert (forall now, Bronze.add_metadata_columns parse_datetime now today2 df1 cube_name =
                      Ok (set_scalar df1 "bronze_extraction_time" (VTime now))) as Hre.
  { intros now. unfold Bronze.add_metadata_columns.
    rewrite (set_scalar_id df1 "cube_name" _ Hwf1 Hc Hcube).
    rewrite has_column_set_scalar, Hp. reflexivity. }
  split; [|rewrite Hre; f_equal; apply set_scalar_id; assumption].
  unfold Bronze.add_metadata_columns.
  rewrite (set_scalar_id df1 "cube_name" _ Hwf1 Hc Hcube).
  rewrite has_column_set_scalar, Hp. reflexivity.
Qed.

Lemma add_metadata_columns_rerun_example :
  wf dated_batch /\
  exists df1,
    Bronze.add_metadata_columns parse_example (noon 2025 3 31) (noon 2025 3 31)
      dated_batch "sales" = Ok df1 /\
    Bronze.add_metadata_columns parse_example (noon 2025 3 31) (noon 2025 4 1)
      df1 "sales" = Ok df1.
Proof.
  split; [exact wf_dated_batch|]. eexists. split; [reflexivity|].
  apply (add_metadata_columns_rerun parse_example (noon 2025 3 31) (noon 2025 3 31)
           (noon 2025 4 1) (noon 2025 4 1) dated_batch "sales" _ wf_dated_batch eq_refl).
Defined.

(** ** The pipeline of the stage *)

Section Strings.

Lemma string_length_app (a b : string) :
  String.length (a +:+ b) = (String.length a + String.length b)%nat.
Proof.
  induction a as [|x a IH]; [reflexivity|].
  change (S (String.length (a +:+ b)) = S (String.length a + String.length b)).
  f_equal. exact IH.
Qed.

Lemma string_app_inj_r (a b s : string) : a +:+ s = b +:+ s -> a = b.
Proof.
  revert b. induction a as [|x a IH]; intros [|y b] H.
  - reflexivity.
  - change (s = String y (b +:+ s)) in H.
    apply (f_equal String.length) in H.
    change (String.length s = S (String.length (b +:+ s))) in H.
    rewrite string_length_app in H. lia.
  - change (String x (a +:+ s) = s) in H.
    apply (f_equal String.length) in H.
    change (S (String.length (a +:+ s)) = String.length s) in H.
    rewrite string_length_app in H. lia.
  - change (String x (a +:+ s) = String y (b +:+ s)) in H.
    injection H as -> H. f_equal. apply IH, H.
Qed.

Lemma bronze_file_inj a b : Bronze.bronze_file a = Bronze.bronze_file b -> a = b.
Proof.
  unfold Bronze.bronze_file. intros H.
  apply String.app_inj in H. apply string_app_inj_r in H. exact H.
Qed.

End Strings.

Section Records.

Lemma records_of_app type (a b : list record) :
  records_of type (a ++ b) = records_of type a ++ records_of type b.
Proof. apply List.filter_app. Qed.

Lemma records_of_other type (l : list record) other :
  other <> type -> Forall (fun r => event_type r = other) l -> records_of type l = [].
Proof.
  intros Hne. induction 1 as [|r l Hr Hl IH]; [reflexivity|].
  unfold records_of in *. simpl. rewrite Hr.
  destruct (String.eqb_spec other type); [contradiction|exact IH].
Qed.

End Records.

Section BronzePipeline.

Variable astype : list cell -> string -> res (list cell).
Variable parse_datetime : cell -> option datetime.
Variables now today : string -> datetime.

Lemma cast_log_types types :
  forall df log, exists extra,
    snd (foldl (Bronze.cast_column astype) (df, log) types) = log ++ extra /\
    Forall (fun r : record => event_type r = "type_cast_error") extra.
Proof.
  induction types as [|[col d] rest IH]; intros df log.
  - exists []. split; [symmetry; apply app_nil_r|constructor].
  - cbn [foldl]. unfold Bronze.cast_column at 2. cbn [fst snd].
    destruct (has_column df col); [|apply IH].
    destruct (astype (column df col) d) as [s|e]; [apply IH|].
    destruct (IH df (log ++ [mkEvent "type_cast_error"
                ("Failed to cast column " +:+ col +:+ " to " +:+ d) (Error e)]))
      as (extra & Hlog & Htypes).
    eexists. split; [rewrite Hlog, <- app_assoc; reflexivity|].
    constructor; [reflexivity|exact Htypes].
Qed.

Lemma bronze_gate_returns df cube_name :
  exists ev, Bronze.run_data_quality df cube_name = Ok (df, ev) /\
             (event_type ev = "data_quality_issues" \/ event_type ev = "data_quality_pass").
Proof.
  unfold Bronze.run_data_quality.
  destruct (validate_duplicates_total df) as [dups ->].
  cbn [mbind res_bind DataQuality.validate_ranges].
  destruct (truthy _); eexists; (split; [reflexivity|]); [left|right]; reflexivity.
Qed.

(** What the loop does for one cube. *)
Lemma transform_cube_step st cube :
  exists seg,
    Bronze.transform_cube astype parse_datetime now today st cube =
    (match bronze_outcome astype parse_datetime now today cube with
     | Ok df' => <[Bronze.bronze_file (fst cube) := df']> (fst st)
     | Raise _ => fst st
     end, snd st ++ seg) /\
    length (records_of "transform_error" seg) =
      (if is_raise (bronze_outcome astype parse_datetime now today cube) then 1 else 0)%nat /\
    length (records_of "bronze_save" seg) =
      (if is_raise (bronze_outcome astype parse_datetime now today cube) then 0 else 1)%nat.
Proof.
  unfold Bronze.transform_cube, bronze_outcome.
  destruct (cast_log_types Bronze.COLUMN_TYPES (snd cube) []) as (extra & Hlog & Htypes).
  fold (Bronze.enforce_column_types astype (snd cube)) in Hlog.
  destruct (Bronze.enforce_column_types astype (snd cube)) as [dfc cast_log].
  cbn [fst snd] in *. subst cast_log.
  assert (records_of "transform_error" extra = []) as He
    by (eapply records_of_other; [|exact Htypes]; discriminate).
  assert (records_of "bronze_save" extra = []) as Hs
    by (eapply records_of_other; [|exact Htypes]; discriminate).
  destruct (Bronze.add_metadata_columns parse_datetime (now (fst cube))
              (today (fst cube)) dfc (fst cube)) as [df'|e].
  - destruct (bronze_gate_returns df' (fst cube)) as (ev & -> & Hev).
    unfold Bronze.save_bronze. eexists. split.
    + rewrite <- !app_assoc. reflexivity.
    + rewrite !records_of_app, He, Hs. unfold records_of, quality_record. simpl.
      destruct Hev as [-> | ->]; split; reflexivity.
  - eexists. split.
    + rewrite <- !app_assoc. reflexivity.
    + rewrite !records_of_app, He, Hs. split; reflexivity.
Qed.

Lemma transform_cubes_fold all_cubes :
  NoDup (map fst all_cubes) ->
  forall files log,
    let out := foldl (Bronze.transform_cube astype parse_datetime now today)
                     (files, log) all_cubes in
    (forall cube, cube ∈ all_cubes ->
       fst out !! Bronze.bronze_file (fst cube) =
       match bronze_outcome astype parse_datetime now today cube with
       | Ok df' => Some df'
       | Raise _ => files !! Bronze.bronze_file (fst cube)
       end) /\
    (forall path, (forall cube, cube ∈ all_cubes -> path <> Bronze.bronze_file (fst cube)) ->
       fst out !! path = files !! path) /\
    exists seg,
      snd out = log ++ seg /\
      length (records_of "transform_error" seg) =
        length (List.filter (fun cube => is_raise (bronze_outcome astype parse_datetime
                                                      now today cube)) all_cubes) /\
      length (records_of "bronze_save" seg) =
        length (List.filter (fun cube => negb (is_raise (bronze_outcome astype
                                                parse_datetime now today cube))) all_cubes).
Proof.
  induction all_cubes as [|cube rest IH]; intros Hnd files log; cbv zeta in *.
  - cbn [foldl fst snd]. split; [intros cube Hin; apply elem_of_nil in Hin; contradiction|].
    split; [reflexivity|]. exists []. rewrite app_nil_r. repeat split.
  - cbn [map] in Hnd. apply NoDup_cons in Hnd as [Hcube Hnd].
    cbn [foldl].
    destruct (transform_cube_step (files, log) cube) as (seg1 & -> & He1 & Hs1).
    cbn [fst snd].
    set (files1 := match bronze_outcome astype parse_datetime now today cube with
                   | Ok df' => <[Bronze.bronze_file (fst cube) := df']> files
                   | Raise _ => files
                   end).
    destruct (IH Hnd files1 (log ++ seg1)) as (Hin & Hout & seg & Hlog & He & Hs).
    assert (forall c, c ∈ rest ->
              Bronze.bronze_file (fst cube) <> Bronze.bronze_file (fst c)) as Hdiff.
    { intros c Hc Heq. apply bronze_file_inj in Heq. apply Hcube.
      rewrite Heq. apply list_elem_of_In, in_map, list_elem_of_In, Hc. }
    split; [|split].
    + intros c Hc. apply elem_of_cons in Hc as [->|Hc].
      * rewrite (Hout _ Hdiff). unfold files1.
        destruct (bronze_outcome astype parse_datetime now today cube);
          [apply lookup_insert_eq|reflexivity].
      * rewrite (Hin c Hc).
        destruct (bronze_outcome astype parse_datetime now today c); [reflexivity|].
        unfold files1.
        destruct (bronze_outcome astype parse_datetime now today cube); [|reflexivity].
        apply lookup_insert_ne. apply Hdiff, Hc.
    + intros path Hpath. rewrite Hout.
      * unfold files1.
        destruct (bronze_outcome astype parse_datetime now today cube); [|reflexivity].
        apply lookup_insert_ne. intros Heq. apply (Hpath cube); [left|].
        symmetry. exact Heq.
      * intros c Hc. apply Hpath. right. exact Hc.
    + exists (seg1 ++ seg). split; [rewrite Hlog, <- app_assoc; reflexivity|].
      rewrite !records_of_app, !length_app, He, Hs, He1, Hs1. cbn [List.filter].
      destruct (is_raise (bronze_outcome astype parse_datetime now today cube));
        split; reflexivity.
Qed.

End BronzePipeline.

(** The Bronze pipeline treats each cube on its own.  For cubes of distinct
    names it writes, for every cube, the table with its columns cast and
    its metadata added, unless adding the metadata raised: then the cube's
    file stays as it was, and the other cubes are written all the same.
    No other file is touched.  The log holds one [transform_error] for each
    cube that failed and one [bronze_save] for each that did not, and it
    ends with the record of a pipeline that completed, whatever failed. *)
Theorem transform_bronze_layer_isolates_cubes astype parse_datetime now today
    all_cubes files :
  NoDup (map fst all_cubes) ->
  let out := Bronze.transform_bronze_layer astype parse_datetime now today
               all_cubes files in
  (forall cube, cube ∈ all_cubes ->
     fst out !! Bronze.bronze_file (fst cube) =
     match bronze_outcome astype parse_datetime now today cube with
     | Ok df' => Some df'
     | Raise _ => files !! Bronze.bronze_file (fst cube)
     end) /\
  (forall path, (forall cube, cube ∈ all_cubes -> path <> Bronze.bronze_file (fst cube)) ->
     fst out !! path = files !! path) /\
  length (records_of "transform_error" (snd out)) =
    length (List.filter (fun cube => is_raise (bronze_outcome astype parse_datetime
                                                  now today cube)) all_cubes) /\
  length (records_of "bronze_save" (snd out)) =
    length (List.filter (fun cube => negb (is_raise (bronze_outcome astype
                                            parse_datetime now today cube))) all_cubes) /\
  event_type (List.last (snd out) (mkEvent "" "" NoMeta)) = "pipeline_end".
Proof.
  intros Hnd. unfold Bronze.transform_bronze_layer.
  destruct (transform_cubes_fold astype parse_datetime now today all_cubes Hnd files
              [mkEvent "pipeline_start" "Starting Bronze transformation pipeline" NoMeta])
    as (Hin & Hout & seg & Hlog & He & Hs).
  destruct (foldl _ _ all_cubes) as [files' log']. cbn [fst snd] in *. subst log'.
  split; [exact Hin|]. split; [exact Hout|].
  rewrite !records_of_app, !length_app, He, Hs.
  change (records_of "transform_error"
            [mkEvent "pipeline_start" "Starting Bronze transformation pipeline" NoMeta])
    with (@nil record).
  change (records_of "bronze_save"
            [mkEvent "pipeline_start" "Starting Bronze transformation pipeline" NoMeta])
    with (@nil record).
  change (records_of "transform_error"
            [mkEvent "pipeline_end"
               "Bronze transformation pipeline completed successfully" NoMeta])
    with (@nil record).
  change (records_of "bronze_save"
            [mkEvent "pipeline_end"
               "Bronze transformation pipeline completed successfully" NoMeta])
    with (@nil record).
  cbn [length].
  split; [lia|]. split; [lia|].
  rewrite last_last. reflexivity.
Qed.

(** Two cubes, the second with a date nobody can read: the first is
    written, the second is not, and the log has one error. *)
Lemma transform_bronze_layer_example :
  let all_cubes := [("sales", dated_batch); ("returns", misdated_batch)] in
  let out := Bronze.transform_bronze_layer astype_example parse_example
               (fun _ => noon 2025 4 1) (fun _ => noon 2025 4 1) all_cubes ∅ in
  NoDup (map fst all_cubes) /\
  is_Some (fst out !! "./data/bronze/sales_bronze.parquet") /\
  fst out !! "./data/bronze/returns_bronze.parquet" = None /\
  length (records_of "transform_error" (snd out)) = 1%nat.
Proof.
  cbv zeta.
  assert (NoDup (map fst [("sales", dated_batch); ("returns", misdated_batch)])) as Hnd
    by (apply (bool_decide_unpack _); vm_compute; exact I).
  split; [exact Hnd|].
  destruct (transform_bronze_layer_isolates_cubes astype_example parse_example
              (fun _ => noon 2025 4 1) (fun _ => noon 2025 4 1)
              [("sales", dated_batch); ("returns", misdated_batch)] ∅ Hnd)
    as (Hin & _ & He & _).
  split; [|split].
  - pose proof (Hin ("sales", dated_batch) ltac:(left)) as H.
    cbn [fst] in H. change (Bronze.bronze_file "sales")
      with "./data/bronze/sales_bronze.parquet" in H.
    rewrite H. vm_compute. eauto.
  - pose proof (Hin ("returns", misdated_batch) ltac:(right; left)) as H.
    cbn [fst] in H. change (Bronze.bronze_file "returns")
      with "./data/bronze/returns_bronze.parquet" in H.
    rewrite H. reflexivity.
  - rewrite He. reflexivity.
Defined.

(** * More on the Silver stage *)

Section CellEquality.

Lemma Qeq_bool_sym x y : Qeq_bool x y = Qeq_bool y x.
Proof.
  destruct (Qeq_bool x y) eqn:E1, (Qeq_bool y x) eqn:E2; try reflexivity.
  - apply Qeq_bool_iff in E1. symmetry in E1. apply Qeq_bool_iff in E1. congruence.
  - apply Qeq_bool_iff in E2. symmetry in E2. apply Qeq_bool_iff in E2. congruence.
Qed.

Lemma Qeq_bool_refl' x : Qeq_bool x x = true.
Proof. apply Qeq_bool_iff. reflexivity. Qed.

Lemma datetime_eqb_sym a b : datetime_eqb a b = datetime_eqb b a.
Proof.
  unfold datetime_eqb.
  rewrite (Z.eqb_sym (year a)), (Z.eqb_sym (month a)), (Z.eqb_sym (day a)),
    (Z.eqb_sym (hour a)), (Z.eqb_sym (minute a)), (Z.eqb_sym (second a)),
    (Z.eqb_sym (microsecond a)).
  reflexivity.
Qed.

Lemma cell_eqb_sym a b : cell_eqb a b = cell_eqb b a.
Proof.
  destruct a, b; simpl; try reflexivity.
  - apply Z.eqb_sym.
  - apply Qeq_bool_sym.
  - apply Qeq_bool_sym.
  - apply Qeq_bool_sym.
  - destruct neg, neg0; reflexivity.
  - apply String.eqb_sym.
  - destruct b0, b; reflexivity.
  - apply datetime_eqb_sym.
  - f_equal; apply Z.eqb_sym.
Qed.

Lemma cell_eqb_refl a : cell_eqb a a = true.
Proof.
  destruct a; simpl; try reflexivity.
  - apply Z.eqb_refl.
  - apply Qeq_bool_refl'.
  - destruct neg; reflexivity.
  - apply String.eqb_refl.
  - destruct b; reflexivity.
  - unfold datetime_eqb. rewrite !Z.eqb_refl. reflexivity.
  - rewrite !Z.eqb_refl. reflexivity.
Qed.


End CellEquality.

Section DropDuplicates.

Lemma drop_duplicates_from_elem seen s c :
  c ∈ Silver.drop_duplicates_from seen s ->
  c ∈ s /\ existsb (cell_eqb c) seen = false.
Proof.
  revert seen. induction s as [|x s IH]; intros seen; simpl.
  - intros H. apply elem_of_nil in H. contradiction.
  - destruct (existsb (cell_eqb x) seen) eqn:E.
    + intros H. destruct (IH _ H) as [Hin Hs]. split; [right; exact Hin|exact Hs].
    + intros H. apply elem_of_cons in H as [->|H].
      * split; [left|exact E].
      * destruct (IH _ H) as [Hin Hs]. split; [right; exact Hin|].
        simpl in Hs. apply orb_false_elim in Hs. apply Hs.
Qed.

Lemma drop_duplicates_from_distinct s :
  forall seen, distinct_cells (Silver.drop_duplicates_from seen s).
Proof.
  induction s as [|x s IH]; intros seen; simpl.
  - intros i j a b H. discriminate.
  - destruct (existsb (cell_eqb x) seen) eqn:E; [apply IH|].
    assert (forall k c, Silver.drop_duplicates_from (x :: seen) s !! k = Some c ->
                        cell_eqb c x = false) as Hx.
    { intros k c Hk. apply list_elem_of_lookup_2 in Hk.
      apply drop_duplicates_from_elem in Hk as [_ Hs].
      simpl in Hs. apply orb_false_elim in Hs. apply Hs. }
    intros [|i] [|j] a b Ha Hb Hab; simpl in Ha, Hb.
    + reflexivity.
    + injection Ha as <-. rewrite cell_eqb_sym, (Hx _ _ Hb) in Hab. discriminate.
    + injection Hb as <-. rewrite (Hx _ _ Ha) in Hab. discriminate.
    + f_equal. eapply IH; eassumption.
Qed.

Lemma drop_duplicates_from_covers s :
  forall seen c, c ∈ s ->
    existsb (cell_eqb c) seen = true \/
    exists c', c' ∈ Silver.drop_duplicates_from seen s /\ cell_eqb c c' = true.
Proof.
  induction s as [|x s IH]; intros seen c Hin.
  - apply elem_of_nil in Hin. contradiction.
  - simpl. apply elem_of_cons in Hin as [->|Hin].
    + destruct (existsb (cell_eqb x) seen) eqn:E; [left; reflexivity|].
      right. exists x. split; [left|apply cell_eqb_refl].
    + destruct (existsb (cell_eqb x) seen) eqn:E; [apply IH, Hin|].
      destruct (IH (x :: seen) c Hin) as [Hs|(c' & Hc' & Heq)].
      * simpl in Hs. apply orb_prop in Hs as [Hs|Hs]; [|left; exact Hs].
        right. exists x. split; [left|exact Hs].
      * right. exists c'. split; [right; exact Hc'|exact Heq].
Qed.

Lemma drop_duplicates_same_values s : same_values s (Silver.drop_duplicates s).
Proof.
  split.
  - intros c Hc. apply drop_duplicates_from_elem in Hc. apply Hc.
  - intros c Hc. destruct (drop_duplicates_from_covers s [] c Hc) as [H|H];
      [discriminate|exact H].
Qed.

End DropDuplicates.

Section Dimensions.

Variable str : cell -> string.
Variable df : DataFrame.

Lemma column_of_singletons col (vals : list cell) :
  column (mkDF [col] (map (fun v => [v]) vals)) col = vals.
Proof.
  unfold column. simpl. rewrite String.eqb_refl. rewrite map_map. simpl.
  apply map_id.
Qed.

Lemma distinct_values_column col :
  column (Silver.distinct_values df col) col = Silver.drop_duplicates (column df col).
Proof. apply column_of_singletons. Qed.

Lemma wf_distinct_values col : wf (Silver.distinct_values df col).
Proof.
  split; simpl.
  - apply NoDup_singleton.
  - apply Forall_forall. intros r Hr. apply list_elem_of_In, in_map_iff in Hr as (v & <- & _).
    reflexivity.
Qed.

Lemma len_distinct_values col :
  len (Silver.distinct_values df col) = length (Silver.drop_duplicates (column df col)).
Proof. unfold len. simpl. apply length_map. Qed.

(** A dimension table: the distinct values of the column, next to their
    keys. *)
Lemma dimension_table col keys :
  col +:+ "Key" <> col ->
  length keys = length (Silver.drop_duplicates (column df col)) ->
  let t := set_column (Silver.distinct_values df col) (col +:+ "Key") keys in
  columns t = [col; col +:+ "Key"] /\
  distinct_cells (column t col) /\
  same_values (column df col) (column t col).
Proof.
  intros Hne Hlen t. unfold t.
  assert (column (set_column (Silver.distinct_values df col) (col +:+ "Key") keys) col =
          Silver.drop_duplicates (column df col)) as ->.
  { rewrite column_set_column_other.
    - apply distinct_values_column.
    - apply wf_distinct_values.
    - rewrite len_distinct_values. exact Hlen.
    - congruence. }
  split; [|split].
  - rewrite columns_set_column. unfold has_column. simpl.
    destruct (String.eqb_spec (col +:+ "Key") col); [contradiction|reflexivity].
  - apply drop_duplicates_from_distinct.
  - apply drop_duplicates_same_values.
Qed.

Lemma dim_name_inj a b : "Dim" +:+ a = "Dim" +:+ b -> a = b.
Proof. apply String.app_inj. Qed.

Lemma hashed_dimension_lookup dims c col :
  Silver.hashed_dimension str df dims c !! ("Dim" +:+ col) =
  if String.eqb col c && has_column df c
  then Some (set_column (Silver.distinct_values df c) (c +:+ "Key")
               (map (fun x => VStr (Silver.generate_surrogate_key str [x]))
                    (column (Silver.distinct_values df c) c)))
  else dims !! ("Dim" +:+ col).
Proof.
  unfold Silver.hashed_dimension.
  destruct (String.eqb_spec col c) as [->|Hne]; cbn [andb].
  - destruct (has_column df c); [apply lookup_insert_eq|reflexivity].
  - destruct (has_column df c); [|reflexivity].
    apply lookup_insert_ne. intros H. apply dim_name_inj in H. congruence.
Qed.

End Dimensions.

Ltac closed_strings :=
  repeat match goal with
         | |- context [String.eqb ?a ?b] =>
             let v := eval vm_compute in (String.eqb a b) in
             change (String.eqb a b) with v
         end.

(** Whenever [build_dimensions] returns, each of the columns Date, Region,
    Country, City and Product that the table has gets a dimension table of
    two columns, the values and their keys, that holds every value of the
    column once (missing values count as one value); a column the table
    lacks gets no dimension. *)
Theorem build_dimensions_holds_each_value_once str df dims :
  Silver.build_dimensions str df = Ok dims ->
  forall col, col ∈ dimension_columns ->
    if has_column df col
    then exists t, dims !! ("Dim" +:+ col) = Some t /\
                   columns t = [col; col +:+ "Key"] /\
                   distinct_cells (column t col) /\
                   same_values (column df col) (column t col)
    else dims !! ("Dim" +:+ col) = None.
Proof.
  unfold Silver.build_dimensions. intros H col Hin.
  assert (exists dims0 : gmap string DataFrame,
            dims = Silver.hashed_dimension str df
                     (foldl (Silver.hashed_dimension str df) dims0
                            ["Region"; "Country"; "City"]) "Product" /\
            (forall c, c ∈ ["Region"; "Country"; "City"; "Product"] ->
                       dims0 !! ("Dim" +:+ c) = None) /\
            if has_column df "Date"
            then exists keys,
                length keys = length (Silver.drop_duplicates (column df "Date")) /\
                dims0 !! "DimDate" =
                Some (set_column (Silver.distinct_values df "Date") "DateKey" keys)
            else dims0 !! "DimDate" = None)
    as (dims0 & -> & Hother & Hdate).
  { destruct (has_column df "Date").
    - destruct (traverse Silver.date_key _) as [keys|e] eqn:Hk;
        cbn [mbind res_bind] in H; [|discriminate].
      injection H as <-. eexists. split; [reflexivity|]. split.
      + intros c Hc. rewrite !elem_of_cons, elem_of_nil in Hc.
        destruct Hc as [->|[->|[->|[->|[]]]]];
          (rewrite lookup_insert_ne by discriminate); apply lookup_empty.
      + exists keys. split; [|apply lookup_insert_eq].
        rewrite (length_traverse _ _ _ Hk), distinct_values_column. reflexivity.
    - injection H as <-. exists ∅. split; [reflexivity|].
      split; [intros; apply lookup_empty|apply lookup_empty]. }
  cbn [foldl]. rewrite !hashed_dimension_lookup.
  unfold dimension_columns in Hin. rewrite !elem_of_cons, elem_of_nil in Hin.
  destruct Hin as [->|[->|[->|[->|[->|[]]]]]]; closed_strings; cbn [andb].
  - change ("Dim" +:+ "Date") with "DimDate".
    destruct (has_column df "Date").
    + destruct Hdate as (keys & Hlen & ->). eexists. split; [reflexivity|].
      apply (dimension_table df "Date" keys); [discriminate|exact Hlen].
    + exact Hdate.
  - destruct (has_column df "Region").
    + eexists. split; [reflexivity|]. apply dimension_table; [discriminate|].
      rewrite length_map, distinct_values_column. reflexivity.
    + apply Hother. rewrite !elem_of_cons. auto.
  - destruct (has_column df "Country").
    + eexists. split; [reflexivity|]. apply dimension_table; [discriminate|].
      rewrite length_map, distinct_values_column. reflexivity.
    + apply Hother. rewrite !elem_of_cons. auto.
  - destruct (has_column df "City").
    + eexists. split; [reflexivity|]. apply dimension_table; [discriminate|].
      rewrite length_map, distinct_values_column. reflexivity.
    + apply Hother. rewrite !elem_of_cons. auto.
  - destruct (has_column df "Product").
    + eexists. split; [reflexivity|]. apply dimension_table; [discriminate|].
      rewrite length_map, distinct_values_column. reflexivity.
    + apply Hother. rewrite !elem_of_cons. auto.
Qed.

(** Five rows with the regions North, South, North, missing, North: the
    region dimension holds each of the three values once, and there is no
    product dimension. *)
Lemma build_dimensions_example :
  exists dims,
    Silver.build_dimensions str_of_text regions_batch = Ok dims /\
    (exists t, dims !! "DimRegion" = Some t /\
               columns t = ["Region"; "RegionKey"] /\
               distinct_cells (column t "Region") /\
               same_values (column regions_batch "Region") (column t "Region")) /\
    dims !! "DimProduct" = None.
Proof.
  destruct (Silver.build_dimensions str_of_text regions_batch) as [dims|e] eqn:E;
    [|vm_compute in E; discriminate].
  exists dims. split; [reflexivity|]. split.
  - exact (build_dimensions_holds_each_value_once str_of_text regions_batch dims E
             "Region" ltac:(right; left)).
  - exact (build_dimensions_holds_each_value_once str_of_text regions_batch dims E
             "Product" ltac:(do 4 right; left)).
Defined.



(** ** The pipeline of the stage *)

Section SilverPipeline.

Variable str : cell -> string.
Variable now : string -> datetime.

Lemma silver_file_inj a b : Silver.silver_file a = Silver.silver_file b -> a = b.
Proof.
  unfold Silver.silver_file. intros H.
  apply String.app_inj in H. apply string_app_inj_r in H. exact H.
Qed.

Lemma silver_gate_returns df cube_name :
  exists ev, Silver.run_data_quality df cube_name = Ok (df, ev) /\
             (event_type ev = "silver_data_quality_issues" \/
              event_type ev = "silver_data_quality_pass").
Proof.
  unfold Silver.run_data_quality.
  destruct (validate_duplicates_total df) as [dups ->].
  cbn [mbind res_bind].
  destruct (truthy _); eexists; (split; [reflexivity|]); [left|right]; reflexivity.
Qed.

(** What the loop does for a cube the dictionary of histories does not
    know. *)
Lemma silver_transform_cube_step st cube :
  Silver.historical_data st !! fst cube = None ->
  exists seg,
    Silver.transform_cube str now st cube =
    Silver.mkState
      (match silver_outcome str now cube with
       | Ok t => <[fst cube := t]> (Silver.historical_data st)
       | Raise _ => Silver.historical_data st
       end)
      (match silver_outcome str now cube with
       | Ok t => <[Silver.silver_file (fst cube) := t]> (Silver.files st)
       | Raise _ => Silver.files st
       end)
      (Silver.log st ++ seg) /\
    length (records_of "silver_transform_error" seg) =
      (if is_raise (silver_outcome str now cube) then 1 else 0)%nat /\
    length (records_of "silver_save" seg) =
      (if is_raise (silver_outcome str now cube) then 0 else 1)%nat.
Proof.
  intros Hnone. unfold Silver.transform_cube, silver_outcome.
  destruct (Silver.build_dimensions str (snd cube)) as [dims|e].
  - rewrite Hnone.
    change (Silver.apply_scd_type2 (now (fst cube)) (snd cube) None)
      with (Ok (stamped (now (fst cube)) (snd cube)), @None DataFrame).
    destruct (silver_gate_returns (stamped (now (fst cube)) (snd cube)) (fst cube))
      as (ev & -> & Hev).
    unfold Silver.save_silver. eexists. split.
    + rewrite <- !app_assoc. reflexivity.
    + rewrite !records_of_app. unfold records_of, quality_record.
      cbn [List.filter event_type app length].
      destruct Hev as [-> | ->]; split; reflexivity.
  - eexists. split; [reflexivity|]. split; reflexivity.
Qed.

Lemma silver_transform_cubes_fold all_cubes :
  NoDup (map fst all_cubes) ->
  forall st,
    (forall cube, cube ∈ all_cubes -> Silver.historical_data st !! fst cube = None) ->
    let out := foldl (Silver.transform_cube str now) st all_cubes in
    (forall cube, cube ∈ all_cubes ->
       Silver.files out !! Silver.silver_file (fst cube) =
       match silver_outcome str now cube with
       | Ok t => Some t
       | Raise _ => Silver.files st !! Silver.silver_file (fst cube)
       end /\
       Silver.historical_data out !! fst cube =
       match silver_outcome str now cube with
       | Ok t => Some t
       | Raise _ => None
       end) /\
    (forall path,
       (forall cube, cube ∈ all_cubes -> path <> Silver.silver_file (fst cube)) ->
       Silver.files out !! path = Silver.files st !! path) /\
    (forall name, name ∉ map fst all_cubes ->
       Silver.historical_data out !! name = Silver.historical_data st !! name) /\
    exists seg,
      Silver.log out = Silver.log st ++ seg /\
      length (records_of "silver_transform_error" seg) =
        length (List.filter (fun cube => is_raise (silver_outcome str now cube)) all_cubes) /\
      length (records_of "silver_save" seg) =
        length (List.filter (fun cube => negb (is_raise (silver_outcome str now cube)))
                            all_cubes).
Proof.
  induction all_cubes as [|cube rest IH]; intros Hnd st Hnone; cbv zeta in *.
  - cbn [foldl]. split; [intros cube Hin; apply elem_of_nil in Hin; contradiction|].
    split; [reflexivity|]. split; [reflexivity|].
    exists []. rewrite app_nil_r. repeat split.
  - cbn [map] in Hnd. apply NoDup_cons in Hnd as [Hcube Hnd].
    cbn [foldl].
    destruct (silver_transform_cube_step st cube (Hnone cube ltac:(left)))
      as (seg1 & -> & He1 & Hs1).
    set (st1 := Silver.mkState _ _ _).
    assert (forall c, c ∈ rest -> fst cube <> fst c) as Hdiff.
    { intros c Hc Heq. apply Hcube. rewrite Heq.
      apply list_elem_of_In, in_map, list_elem_of_In, Hc. }
    assert (forall c, c ∈ rest -> Silver.historical_data st1 !! fst c = None) as Hnone1.
    { intros c Hc. unfold st1. cbn [Silver.historical_data].
      destruct (silver_outcome str now cube).
      - rewrite lookup_insert_ne by (apply Hdiff, Hc). apply Hnone. right. exact Hc.
      - apply Hnone. right. exact Hc. }
    destruct (IH Hnd st1 Hnone1) as (Hin & Hout & Hhist & seg & Hlog & He & Hs).
    split; [|split; [|split]].
    + intros c Hc. apply elem_of_cons in Hc as [->|Hc].
      * rewrite Hout, Hhist.
        -- unfold st1. cbn [Silver.files Silver.historical_data].
           destruct (silver_outcome str now cube);
             [split; apply lookup_insert_eq|split; [reflexivity|]].
           apply Hnone. left.
        -- exact Hcube.
        -- intros c Hc Heq. apply silver_file_inj in Heq. exact (Hdiff c Hc Heq).
      * destruct (Hin c Hc) as [Hf Hh]. rewrite Hf, Hh. split; [|reflexivity].
        destruct (silver_outcome str now c); [reflexivity|].
        unfold st1. cbn [Silver.files].
        destruct (silver_outcome str now cube); [|reflexivity].
        apply lookup_insert_ne. intros Heq. apply silver_file_inj in Heq.
        exact (Hdiff c Hc Heq).
    + intros path Hpath. rewrite Hout.
      * unfold st1. cbn [Silver.files].
        destruct (silver_outcome str now cube); [|reflexivity].
        apply lookup_insert_ne. intros Heq. apply (Hpath cube); [left|].
        symmetry. exact Heq.
      * intros c Hc. apply Hpath. right. exact Hc.
    + intros name Hname. rewrite Hhist.
      * unfold st1. cbn [Silver.historical_data].
        destruct (silver_outcome str now cube); [|reflexivity].
        apply lookup_insert_ne. intros Heq. apply Hname. cbn [map]. rewrite Heq. left.
      * intros Hn. apply Hname. cbn [map]. right. exact Hn.
    + exists (seg1 ++ seg). split.
      * rewrite Hlog. unfold st1. cbn [Silver.log]. rewrite <- app_assoc. reflexivity.
      * rewrite !records_of_app, !length_app, He, Hs, He1, Hs1. cbn [List.filter].
        destruct (is_raise (silver_outcome str now cube)); split; reflexivity.
Qed.

End SilverPipeline.

(** The Silver pipeline never consults a history: its dictionary of
    histories starts empty and gets a cube's entry only after the cube has
    been processed.  So, for cubes of distinct names, what it writes for a
    cube is the batch with every row stamped as the current version at the
    time of the run, unless [build_dimensions] raised: then the cube's file
    stays as it was, and the other cubes are written all the same.  The log
    holds one error for each cube that failed and one save for each that
    did not, and ends with the record of a pipeline that completed. *)
Theorem transform_silver_layer_stamps_every_batch str now all_cubes folder :
  NoDup (map fst all_cubes) ->
  let out := Silver.transform_silver_layer str now all_cubes folder in
  (forall cube, cube ∈ all_cubes ->
     Silver.files out !! Silver.silver_file (fst cube) =
     match silver_outcome str now cube with
     | Ok t => Some t
     | Raise _ => folder !! Silver.silver_file (fst cube)
     end) /\
  (forall path,
     (forall cube, cube ∈ all_cubes -> path <> Silver.silver_file (fst cube)) ->
     Silver.files out !! path = folder !! path) /\
  length (records_of "silver_transform_error" (Silver.log out)) =
    length (List.filter (fun cube => is_raise (silver_outcome str now cube)) all_cubes) /\
  length (records_of "silver_save" (Silver.log out)) =
    length (List.filter (fun cube => negb (is_raise (silver_outcome str now cube)))
                        all_cubes) /\
  event_type (List.last (Silver.log out) (mkEvent "" "" NoMeta)) = "pipeline_end".
Proof.
  intros Hnd. unfold Silver.transform_silver_layer.
  destruct (silver_transform_cubes_fold str now all_cubes Hnd
              (Silver.mkState ∅ folder
                 [mkEvent "pipeline_start" "Starting Silver transformation pipeline" NoMeta]))
    as (Hin & Hout & _ & seg & Hlog & He & Hs).
  { intros cube _. apply lookup_empty. }
  cbv zeta. cbn [Silver.files Silver.log Silver.historical_data] in *.
  split; [intros cube Hc; apply (Hin cube Hc)|]. split; [exact Hout|].
  rewrite Hlog, !records_of_app, !length_app, He, Hs.
  change (records_of "silver_transform_error"
            [mkEvent "pipeline_start" "Starting Silver transformation pipeline" NoMeta])
    with (@nil record).
  change (records_of "silver_save"
            [mkEvent "pipeline_start" "Starting Silver transformation pipeline" NoMeta])
    with (@nil record).
  change (records_of "silver_transform_error"
            [mkEvent "pipeline_end"
               "Silver transformation pipeline completed successfully" NoMeta])
    with (@nil record).
  change (records_of "silver_save"
            [mkEvent "pipeline_end"
               "Silver transformation pipeline completed successfully" NoMeta])
    with (@nil record).
  cbn [length].
  split; [lia|]. split; [lia|].
  rewrite last_last. reflexivity.
Qed.

(** Two cubes, the second with a missing date: the first is written with
    its two rows stamped, the second is not written. *)
Lemma transform_silver_layer_example :
  let all_cubes := [("sales", plain_batch); ("visits", undated_row_batch)] in
  let out := Silver.transform_silver_layer str_of_text (fun _ => first_run) all_cubes ∅ in
  NoDup (map fst all_cubes) /\
  Silver.files out !! "./data/silver/sales_silver.parquet" =
    Some (stamped first_run plain_batch) /\
  Silver.files out !! "./data/silver/visits_silver.parquet" = None /\
  length (records_of "silver_transform_error" (Silver.log out)) = 1%nat.
Proof.
  cbv zeta.
  assert (NoDup (map fst [("sales", plain_batch); ("visits", undated_row_batch)])) as Hnd
    by (apply (bool_decide_unpack _); vm_compute; exact I).
  split; [exact Hnd|].
  destruct (transform_silver_layer_stamps_every_batch str_of_text (fun _ => first_run)
              [("sales", plain_batch); ("visits", undated_row_batch)] ∅ Hnd)
    as (Hin & _ & He & _).
  split; [|split].
  - pose proof (Hin ("sales", plain_batch) ltac:(left)) as H.
    cbn [fst] in H. change (Silver.silver_file "sales")
      with "./data/silver/sales_silver.parquet" in H.
    rewrite H. reflexivity.
  - pose proof (Hin ("visits", undated_row_batch) ltac:(right; left)) as H.
    cbn [fst] in H. change (Silver.silver_file "visits")
      with "./data/silver/visits_silver.parquet" in H.
    rewrite H. reflexivity.
  - rewrite He. reflexivity.
Defined.

(** * More on the Gold stage: the aggregation *)

Section KeyOrder.

Lemma Zs_compare_antisym a : forall b, Gold.Zs_compare b a = CompOpp (Gold.Zs_compare a b).
Proof.
  induction a as [|x a IH]; intros [|y b]; simpl; try reflexivity.
  rewrite (Z.compare_antisym x y). destruct (x ?= y); simpl; auto.
Qed.

Lemma cell_compare_antisym a b : Gold.cell_compare b a = CompOpp (Gold.cell_compare a b).
Proof.
  destruct a, b; unfold Gold.cell_compare; cbn [num_of_cell];
    try reflexivity;
    try (symmetry; apply Qcompare_antisym);
    try apply Zs_compare_antisym.
  apply String.compare_antisym.
Qed.

Lemma key_compare_antisym k1 :
  forall k2, Gold.key_compare k2 k1 = CompOpp (Gold.key_compare k1 k2).
Proof.
  induction k1 as [|a k1 IH]; intros [|b k2]; simpl; try reflexivity.
  rewrite (cell_compare_antisym a b). destruct (Gold.cell_compare a b); simpl; auto.
Qed.

Lemma key_sorted_tail k ks : key_sorted (k :: ks) -> key_sorted ks.
Proof. destruct ks; simpl; [auto|]. intros [_ H]. exact H. Qed.

Lemma insert_key_head k ks :
  exists rest,
    Gold.insert_key k ks = k :: rest \/
    exists h t, ks = h :: t /\ Gold.key_compare k h = Gt /\
                Gold.insert_key k ks = h :: rest.
Proof.
  destruct ks as [|h t]; simpl; [eauto|].
  destruct (Gold.key_compare k h) eqn:E; eauto 8.
Qed.

Lemma insert_key_sorted k ks : key_sorted ks -> key_sorted (Gold.insert_key k ks).
Proof.
  induction ks as [|h t IH]; intros Hs; [exact I|].
  cbn [Gold.insert_key]. destruct (Gold.key_compare k h) eqn:E.
  - split; [congruence|exact Hs].
  - split; [congruence|exact Hs].
  - specialize (IH (key_sorted_tail _ _ Hs)).
    assert (Gold.key_compare h k <> Gt) as Hhk.
    { rewrite key_compare_antisym, E. discriminate. }
    destruct t as [|h' t'].
    + simpl. split; [exact Hhk|exact I].
    + cbn [Gold.insert_key] in *. destruct Hs as [Hhh' Hs].
      destruct (Gold.key_compare k h'); (split; [|exact IH]); assumption.
Qed.

Lemma sort_keys_sorted ks : key_sorted (Gold.sort_keys ks).
Proof.
  unfold Gold.sort_keys. induction ks as [|k ks IH]; [exact I|].
  simpl. apply insert_key_sorted, IH.
Qed.

Lemma elem_of_insert_key k x ks : k ∈ Gold.insert_key x ks <-> k = x \/ k ∈ ks.
Proof.
  induction ks as [|h t IH]; simpl.
  - rewrite list_elem_of_singleton, elem_of_nil. tauto.
  - destruct (Gold.key_compare x h); rewrite !elem_of_cons; try rewrite IH; tauto.
Qed.

Lemma elem_of_sort_keys k ks : k ∈ Gold.sort_keys ks <-> k ∈ ks.
Proof.
  unfold Gold.sort_keys. induction ks as [|x ks IH]; simpl; [reflexivity|].
  rewrite elem_of_insert_key, IH, elem_of_cons. reflexivity.
Qed.

Lemma length_insert_key x ks : length (Gold.insert_key x ks) = S (length ks).
Proof.
  induction ks as [|h t IH]; simpl; [reflexivity|].
  destruct (Gold.key_compare x h); simpl; auto.
Qed.

Lemma length_sort_keys ks : length (Gold.sort_keys ks) = length ks.
Proof.
  unfold Gold.sort_keys. induction ks as [|x ks IH]; simpl; [reflexivity|].
  rewrite length_insert_key, IH. reflexivity.
Qed.

End KeyOrder.

Section KeyEquality.

Lemma row_eqb_sym r1 : forall r2, row_eqb r1 r2 = row_eqb r2 r1.
Proof.
  induction r1 as [|a r1 IH]; intros [|b r2]; simpl; try reflexivity.
  rewrite cell_eqb_sym, IH. reflexivity.
Qed.

Lemma row_eqb_refl r : row_eqb r r = true.
Proof. induction r as [|a r IH]; simpl; [reflexivity|]. rewrite cell_eqb_refl, IH. reflexivity. Qed.

Lemma cell_eqb_isna a b : cell_eqb a b = true -> isna a = isna b.
Proof. destruct a, b; simpl; try discriminate; reflexivity. Qed.

Lemma row_eqb_complete r1 :
  forall r2, row_eqb r1 r2 = true -> Gold.complete r1 = Gold.complete r2.
Proof.
  unfold Gold.complete.
  induction r1 as [|a r1 IH]; intros [|b r2]; simpl; try discriminate; [reflexivity|].
  intros H. apply andb_prop in H as [Hab Hr].
  rewrite (cell_eqb_isna _ _ Hab). specialize (IH _ Hr).
  destruct (isna b); [reflexivity|]. simpl. exact IH.
Qed.

Lemma all_distinct_insert_key x ks :
  (forall k, k ∈ ks -> row_eqb x k = false) ->
  all_distinct ks -> all_distinct (Gold.insert_key x ks).
Proof.
  induction ks as [|h t IH]; intros Hx Hd; cbn [Gold.insert_key].
  - simpl. split; [intros k Hk; apply elem_of_nil in Hk; contradiction|exact I].
  - destruct Hd as [Hh Hd].
    destruct (Gold.key_compare x h); try (split; [exact Hx|split; assumption]).
    split.
    + intros k Hk. apply elem_of_insert_key in Hk as [->|Hk]; [|apply Hh, Hk].
      rewrite row_eqb_sym. apply Hx. left.
    + apply IH; [|exact Hd]. intros k Hk. apply Hx. right. exact Hk.
Qed.

Lemma all_distinct_sort_keys ks : all_distinct ks -> all_distinct (Gold.sort_keys ks).
Proof.
  unfold Gold.sort_keys. induction ks as [|x ks IH]; [auto|].
  intros [Hx Hd]. simpl. apply all_distinct_insert_key; [|apply IH, Hd].
  intros k Hk. apply Hx. apply (elem_of_sort_keys k ks). exact Hk.
Qed.

Lemma distinct_keys_elem seen ks k :
  k ∈ Gold.distinct_keys seen ks -> k ∈ ks /\ existsb (row_eqb k) seen = false.
Proof.
  revert seen. induction ks as [|x ks IH]; intros seen; simpl.
  - intros H. apply elem_of_nil in H. contradiction.
  - destruct (existsb (row_eqb x) seen) eqn:E.
    + intros H. destruct (IH _ H) as [Hin Hs]. split; [right; exact Hin|exact Hs].
    + intros H. apply elem_of_cons in H as [->|H].
      * split; [left|exact E].
      * destruct (IH _ H) as [Hin Hs]. split; [right; exact Hin|].
        simpl in Hs. apply orb_false_elim in Hs. apply Hs.
Qed.

Lemma distinct_keys_all_distinct ks : forall seen, all_distinct (Gold.distinct_keys seen ks).
Proof.
  induction ks as [|x ks IH]; intros seen; simpl; [exact I|].
  destruct (existsb (row_eqb x) seen); [apply IH|].
  split; [|apply IH]. intros k Hk.
  apply distinct_keys_elem in Hk as [_ Hs]. simpl in Hs.
  apply orb_false_elim in Hs as [Hs _]. rewrite row_eqb_sym. exact Hs.
Qed.

Lemma distinct_keys_covers ks :
  forall seen k, k ∈ ks ->
    existsb (row_eqb k) seen = true \/
    exists k', k' ∈ Gold.distinct_keys seen ks /\ row_eqb k k' = true.
Proof.
  induction ks as [|x ks IH]; intros seen k Hin.
  - apply elem_of_nil in Hin. contradiction.
  - simpl. apply elem_of_cons in Hin as [->|Hin].
    + destruct (existsb (row_eqb x) seen) eqn:E; [left; reflexivity|].
      right. exists x. split; [left|apply row_eqb_refl].
    + destruct (existsb (row_eqb x) seen) eqn:E; [apply IH, Hin|].
      destruct (IH (x :: seen) k Hin) as [Hs|(k' & Hk' & Heq)].
      * simpl in Hs. apply orb_prop in Hs as [Hs|Hs]; [|left; exact Hs].
        right. exists x. split; [left|exact Hs].
      * right. exists k'. split; [right; exact Hk'|exact Heq].
Qed.

Lemma length_distinct_keys ks :
  forall seen, (length (Gold.distinct_keys seen ks) <= length ks)%nat.
Proof.
  induction ks as [|x ks IH]; intros seen; simpl; [lia|].
  destruct (existsb (row_eqb x) seen); [specialize (IH seen)|specialize (IH (x :: seen))];
    simpl; lia.
Qed.

End KeyEquality.

Section Groups.

Variable df : DataFrame.
Variable group_by : list string.

Lemma group_keys_sorted : key_sorted (Gold.group_keys df group_by).
Proof. apply sort_keys_sorted. Qed.

Lemma group_keys_distinct : all_distinct (Gold.group_keys df group_by).
Proof. apply all_distinct_sort_keys, distinct_keys_all_distinct. Qed.

Lemma group_keys_elem k :
  k ∈ Gold.group_keys df group_by ->
  Gold.complete k = true /\ k ∈ keys_of df group_by.
Proof.
  unfold Gold.group_keys. rewrite elem_of_sort_keys. intros H.
  apply distinct_keys_elem in H as [H _].
  apply list_elem_of_In, filter_In in H as [Hin Hc].
  split; [exact Hc|apply list_elem_of_In, Hin].
Qed.

Lemma group_keys_cover k :
  k ∈ keys_of df group_by -> Gold.complete k = true ->
  exists k', k' ∈ Gold.group_keys df group_by /\ row_eqb k k' = true.
Proof.
  intros Hin Hc.
  destruct (distinct_keys_covers
              (List.filter Gold.complete (keys_of df group_by)) [] k)
    as [H|(k' & Hk' & Heq)]; [|discriminate|].
  - apply list_elem_of_In, filter_In. split; [apply list_elem_of_In, Hin|exact Hc].
  - exists k'. split; [|exact Heq]. unfold Gold.group_keys.
    apply elem_of_sort_keys. exact Hk'.
Qed.

Lemma length_group_keys : (length (Gold.group_keys df group_by) <= len df)%nat.
Proof.
  unfold Gold.group_keys. rewrite length_sort_keys.
  etransitivity; [apply length_distinct_keys|].
  etransitivity; [apply List.filter_length_le|].
  rewrite length_map. reflexivity.
Qed.

(** Whether a key of the table has a group. *)
Lemma covered_complete k :
  k ∈ keys_of df group_by ->
  existsb (fun g => row_eqb g k) (Gold.group_keys df group_by) = Gold.complete k.
Proof.
  intros Hin. destruct (Gold.complete k) eqn:Hc.
  - destruct (group_keys_cover k Hin Hc) as (k' & Hk' & Heq).
    apply existsb_exists. exists k'. split; [apply list_elem_of_In, Hk'|].
    rewrite row_eqb_sym. exact Heq.
  - destruct (existsb _ _) eqn:E; [|reflexivity].
    apply existsb_exists in E as (g & Hg & Heq).
    apply list_elem_of_In, group_keys_elem in Hg as [Hgc _].
    rewrite (row_eqb_complete _ _ Heq) in Hgc. congruence.
Qed.

End Groups.

Section Aggregates.

Variable irregular_groupby : DataFrame -> list string -> res DataFrame.
Variable df : DataFrame.
Variable group_by : list string.

Hypothesis Haggs : Gold.agg_dict df <> [].
Hypothesis Hregular : regular_keys df group_by.

(** The table the aggregation makes when the keys are regular. *)
Lemma aggregate_gold_regular :
  Gold.aggregate_gold irregular_groupby df group_by =
  series ← series_of df (Gold.agg_dict df);
  Ok (mkDF (group_by ++ Gold.flat_names (Gold.agg_dict df))
           (map (fun k => k ++ aggregates_of df group_by series k)
                (Gold.group_keys df group_by))).
Proof.
  destruct Hregular as (Hne & Hcols & Hnd).
  unfold Gold.aggregate_gold, series_of.
  destruct (Gold.agg_dict df) as [|item aggs] eqn:Ea; [congruence|].
  destruct group_by as [|g gs] eqn:Eg; [congruence|].
  assert (forallb (has_column df) (g :: gs) = true) as ->.
  { apply forallb_forall. intros c Hc.
    rewrite Forall_forall in Hcols. apply Hcols, list_elem_of_In, Hc. }
  cbn [negb].
  destruct (traverse _ (item :: aggs)) as [series|e]; cbn [mbind res_bind]; [|reflexivity].
  rewrite bool_decide_eq_true_2 by exact Hnd. reflexivity.
Qed.

Lemma series_of_measures :
  numeric_measures df -> exists series, series_of df (Gold.agg_dict df) = Ok series.
Proof.
  unfold numeric_measures, series_of. generalize (Gold.agg_dict df). intros aggs H.
  apply traverse_returns. intros item Hin.
  destruct (numbers_measure _ (H item Hin)) as (xs & -> & _).
  cbn [mbind res_bind]. eauto.
Qed.

Lemma length_group_key k :
  k ∈ Gold.group_keys df group_by -> length k = length group_by.
Proof.
  intros H. apply group_keys_elem in H as [_ H].
  apply list_elem_of_In, in_map_iff in H as (r & <- & _).
  unfold project. apply length_map.
Qed.

Lemma keys_of_rows (f : list cell -> list cell) G :
  (forall k, k ∈ G -> length k = length group_by) ->
  map (take (length group_by)) (map (fun k => k ++ f k) G) = G.
Proof.
  intros H. rewrite map_map. rewrite <- (map_id G) at 2.
  apply map_ext_in. intros k Hk. apply list_elem_of_In in Hk.
  rewrite <- (H k Hk). apply take_app_length.
Qed.

End Aggregates.

(** With keys that are columns of the table (at least one) and numeric
    measures, [aggregate_gold] returns a table whose columns are the keys
    followed by the flattened names of the aggregates, with one row for
    each group: no more rows than the table had, the keys in sorted order
    and pairwise different, each one the complete key of some row, and
    every row with a complete key in the group of one of them. *)
Theorem aggregate_gold_groups irregular_groupby df group_by :
  Gold.agg_dict df <> [] ->
  regular_keys df group_by ->
  numeric_measures df ->
  exists t,
    Gold.aggregate_gold irregular_groupby df group_by = Ok t /\
    columns t = group_by ++ Gold.flat_names (Gold.agg_dict df) /\
    (len t <= len df)%nat /\
    let keys := map (take (length group_by)) (rows t) in
    key_sorted keys /\ all_distinct keys /\
    (forall k, k ∈ keys -> Gold.complete k = true /\ k ∈ keys_of df group_by) /\
    (forall k, k ∈ keys_of df group_by -> Gold.complete k = true ->
               exists k', k' ∈ keys /\ row_eqb k k' = true).
Proof.
  intros Haggs Hreg Hnum.
  rewrite (aggregate_gold_regular irregular_groupby df group_by Haggs Hreg).
  destruct (series_of_measures df Hnum) as [series ->]. cbn [mbind res_bind].
  eexists. split; [reflexivity|]. split; [reflexivity|]. split.
  - unfold len. cbn [rows]. rewrite length_map. apply length_group_keys.
  - cbn [rows]. rewrite keys_of_rows by apply length_group_key.
    split; [apply group_keys_sorted|]. split; [apply group_keys_distinct|].
    split; [apply group_keys_elem|apply group_keys_cover].
Qed.

Lemma sales_batch_regular : regular_keys sales_batch ["Region"; "Product"].
Proof.
  split; [discriminate|]. split; [repeat constructor|].
  apply (bool_decide_unpack _). vm_compute. exact I.
Qed.

Lemma sales_batch_numeric : numeric_measures sales_batch.
Proof.
  intros item Hin. change (Gold.agg_dict sales_batch) with Gold.AGGREGATIONS in Hin.
  unfold Gold.AGGREGATIONS in Hin. rewrite !elem_of_cons, elem_of_nil in Hin.
  destruct Hin as [->|[->|[]]]; vm_compute; repeat constructor.
Qed.

(** Five sales rows, one without a region, make three groups, sorted by
    region and product. *)
Lemma aggregate_gold_groups_example :
  exists t,
    Gold.aggregate_gold no_irregular_groupby sales_batch ["Region"; "Product"] = Ok t /\
    columns t = ["Region"; "Product"; "Sales_sum"; "Sales_mean"; "Sales_max";
                 "Sales_min"; "Quantity_sum"; "Quantity_mean"] /\
    map (take 2) (rows t) =
      [[VStr "North"; VStr "cocoa"]; [VStr "North"; VStr "tea"];
       [VStr "South"; VStr "tea"]] /\
    key_sorted (map (take 2) (rows t)).
Proof.
  destruct (aggregate_gold_groups no_irregular_groupby sales_batch ["Region"; "Product"])
    as (t & Ht & Hcols & _ & Hsorted & _).
  - discriminate.
  - exact sales_batch_regular.
  - exact sales_batch_numeric.
  - exists t. split; [exact Ht|]. split; [exact Hcols|]. split; [|exact Hsorted].
    vm_compute in Ht. injection Ht as <-. reflexivity.
Defined.

Section Conservation.

Lemma Qsum_present_cons x l :
  (Metrics.Qsum (Metrics.present (x :: l)) == addend x + Metrics.Qsum (Metrics.present l))%Q.
Proof. destruct x as [q|]; simpl; ring. Qed.

Lemma groups_sum_nil G : (groups_sum G [] == 0)%Q.
Proof. induction G as [|g G IH]; simpl; [reflexivity|]. rewrite IH. ring. Qed.

Lemma groups_sum_cons G k x L :
  all_distinct G ->
  (groups_sum G ((k, x) :: L) ==
   (if existsb (fun g => row_eqb g k) G then addend x else 0) + groups_sum G L)%Q.
Proof.
  induction G as [|g G IH]; intros Hd.
  - simpl. ring.
  - destruct Hd as [Hg Hd]. cbn [groups_sum List.filter existsb].
    unfold Metrics.same_key at 1. cbn [fst].
    destruct (row_eqb g k) eqn:Egk.
    + assert (existsb (fun g' => row_eqb g' k) G = false) as Hno.
      { destruct (existsb _ G) eqn:E; [|reflexivity].
        apply existsb_exists in E as (g' & Hg' & Eg').
        pose proof (row_eqb_common _ _ _ Egk Eg') as Hc.
        rewrite (Hg g') in Hc by (apply list_elem_of_In, Hg'). discriminate. }
      rewrite (IH Hd), Hno. cbn [orb map snd]. rewrite Qsum_present_cons. ring.
    + rewrite (IH Hd). cbn [orb]. ring.
Qed.

Lemma groups_sum_covered G L :
  all_distinct G ->
  (groups_sum G L ==
   Metrics.Qsum (Metrics.present
     (map snd (List.filter (fun kx => existsb (fun g => row_eqb g (fst kx)) G) L))))%Q.
Proof.
  intros Hd. induction L as [|[k x] L IH].
  - rewrite groups_sum_nil. reflexivity.
  - rewrite (groups_sum_cons G k x L Hd), IH. cbn [List.filter fst].
    destruct (existsb (fun g => row_eqb g k) G).
    + cbn [map snd]. rewrite Qsum_present_cons. reflexivity.
    + ring.
Qed.

Lemma index_of_app_r name l l' :
  index_of name l = None ->
  index_of name (l ++ l') = option_map (fun j => (length l + j)%nat) (index_of name l').
Proof.
  induction l as [|x l IH]; simpl.
  - intros _. destruct (index_of name l'); reflexivity.
  - destruct (String.eqb name x); [discriminate|].
    destruct (index_of name l) eqn:E; [discriminate|]. intros _.
    rewrite (IH eq_refl). destruct (index_of name l'); reflexivity.
Qed.

Variable df : DataFrame.
Variable group_by : list string.

Lemma numbers_of_sums (f : list cell -> Q) G :
  Metrics.numbers (map (fun k => VFloat (f k)) G) = Ok (map (fun k => Some (f k)) G).
Proof.
  unfold Metrics.numbers. induction G as [|g G IH]; [reflexivity|].
  simpl. rewrite IH. reflexivity.
Qed.

Lemma present_of_sums (f : list cell -> Q) G :
  Metrics.present (map (fun k => Some (f k)) G) = map f G.
Proof. induction G as [|g G IH]; simpl; [reflexivity|]. rewrite IH. reflexivity. Qed.

Lemma Qsum_groups xs G :
  (Metrics.Qsum
     (map (fun k => Qred (Metrics.Qsum
                            (Metrics.present (Gold.group_values df group_by k xs)))) G) ==
   groups_sum G (zip_with pair (keys_of df group_by) xs))%Q.
Proof.
  induction G as [|g G IH]; [reflexivity|].
  cbn [map Metrics.Qsum groups_sum]. rewrite IH, Qred_correct. reflexivity.
Qed.

(** The sums of a column over the groups add up to the sum over the rows
    with a complete key. *)
Lemma sum_column_conserved flat (A : list cell -> list cell) name j xs :
  NoDup (group_by ++ flat) ->
  index_of name flat = Some j ->
  (forall k, nth j (A k) VNull =
             Metrics.series_sum (Gold.group_values df group_by k xs)) ->
  exists sums,
    Metrics.numbers
      (column (mkDF (group_by ++ flat)
                    (map (fun k => k ++ A k) (Gold.group_keys df group_by))) name) =
    Ok sums /\
    (Metrics.Qsum (Metrics.present sums) ==
     Metrics.Qsum (Metrics.present (complete_values df group_by xs)))%Q.
Proof.
  intros Hnd Hj HA.
  assert (index_of name group_by = None) as Hno.
  { destruct (index_of name group_by) as [i|] eqn:E; [|reflexivity]. exfalso.
    apply index_of_lookup, list_elem_of_lookup_2 in E.
    apply index_of_lookup, list_elem_of_lookup_2 in Hj.
    apply NoDup_app in Hnd as (_ & Hdisj & _). exact (Hdisj _ E Hj). }
  assert (column (mkDF (group_by ++ flat)
                    (map (fun k => k ++ A k) (Gold.group_keys df group_by))) name =
          map (fun k => VFloat (Qred (Metrics.Qsum
                 (Metrics.present (Gold.group_values df group_by k xs)))))
              (Gold.group_keys df group_by)) as ->.
  { unfold column. cbn [columns rows]. rewrite (index_of_app_r _ _ _ Hno), Hj.
    cbn [option_map]. rewrite map_map. apply map_ext_in. intros k Hk.
    apply list_elem_of_In, length_group_key in Hk.
    rewrite <- Hk, app_nth2_plus, HA. reflexivity. }
  rewrite numbers_of_sums. eexists. split; [reflexivity|].
  rewrite present_of_sums, Qsum_groups.
  rewrite (groups_sum_covered _ _ (group_keys_distinct df group_by)).
  unfold complete_values.
  erewrite filter_ext_in; [reflexivity|].
  intros [k x] Hin. cbn [fst]. apply covered_complete.
  clear -Hin. revert xs Hin. unfold keys_of.
  induction (map (project df group_by) (rows df)) as [|k' ks IH]; intros [|x' xs] Hin;
    simpl in Hin; try contradiction.
  destruct Hin as [[= -> ->]|Hin]; [left|right; eapply IH, Hin].
Qed.

End Conservation.

Ltac aggregated_as Ht Hreg Ea :=
  rewrite (aggregate_gold_regular _ _ _ ltac:(rewrite Ea; discriminate) Hreg) in Ht;
  unfold series_of in Ht; rewrite Ea in Ht; cbn [traverse fst snd] in Ht.

(** The sums of the groups add up: for Sales and for Quantity, the values
    of the column of sums that [aggregate_gold] returns add up to the sum
    of the column over the rows of the table that have a complete key
    (exact arithmetic).  What the rows with a missing key part hold is in no
    group. *)
Theorem aggregate_gold_conserves_totals irregular_groupby df group_by t col xs :
  regular_keys df group_by ->
  col ∈ ["Sales"; "Quantity"] ->
  has_column df col = true ->
  Gold.aggregate_gold irregular_groupby df group_by = Ok t ->
  Metrics.numbers (column df col) = Ok xs ->
  exists sums,
    Metrics.numbers (column t (col +:+ "_sum")) = Ok sums /\
    (Metrics.Qsum (Metrics.present sums) ==
     Metrics.Qsum (Metrics.present (complete_values df group_by xs)))%Q.
Proof.
  intros Hreg Hcol Hhas Ht Hxs.
  rewrite !elem_of_cons, elem_of_nil in Hcol.
  pose proof Hreg as (_ & _ & Hnd).
  destruct Hcol as [->|[->|[]]].
  - destruct (has_column df "Quantity") eqn:Hq.
    + assert (Gold.agg_dict df =
              [("Sales", [Gold.Sum; Gold.Mean; Gold.Max; Gold.Min]);
               ("Quantity", [Gold.Sum; Gold.Mean])]) as Ea
        by (unfold Gold.agg_dict, Gold.AGGREGATIONS; cbn [List.filter fst];
            rewrite Hhas, Hq; reflexivity).
      aggregated_as Ht Hreg Ea. rewrite Hxs in Ht. cbn [mbind res_bind] in Ht.
      destruct (Metrics.numbers (column df "Quantity")) as [ys|];
        cbn [mbind res_bind] in Ht; [|discriminate].
      injection Ht as <-. rewrite Ea in Hnd.
      apply (sum_column_conserved df group_by _ _ _ 0%nat xs Hnd); [reflexivity|].
      intros k. reflexivity.
    + assert (Gold.agg_dict df = [("Sales", [Gold.Sum; Gold.Mean; Gold.Max; Gold.Min])])
        as Ea
        by (unfold Gold.agg_dict, Gold.AGGREGATIONS; cbn [List.filter fst];
            rewrite Hhas, Hq; reflexivity).
      aggregated_as Ht Hreg Ea. rewrite Hxs in Ht. cbn [mbind res_bind] in Ht.
      injection Ht as <-. rewrite Ea in Hnd.
      apply (sum_column_conserved df group_by _ _ _ 0%nat xs Hnd); [reflexivity|].
      intros k. reflexivity.
  - destruct (has_column df "Sales") eqn:Hs.
    + assert (Gold.agg_dict df =
              [("Sales", [Gold.Sum; Gold.Mean; Gold.Max; Gold.Min]);
               ("Quantity", [Gold.Sum; Gold.Mean])]) as Ea
        by (unfold Gold.agg_dict, Gold.AGGREGATIONS; cbn [List.filter fst];
            rewrite Hhas, Hs; reflexivity).
      aggregated_as Ht Hreg Ea. rewrite Hxs in Ht.
      destruct (Metrics.numbers (column df "Sales")) as [ys|];
        cbn [mbind res_bind] in Ht; [|discriminate].
      injection Ht as <-. rewrite Ea in Hnd.
      apply (sum_column_conserved df group_by _ _ _ 4%nat xs Hnd); [reflexivity|].
      intros k. reflexivity.
    + assert (Gold.agg_dict df = [("Quantity", [Gold.Sum; Gold.Mean])]) as Ea
        by (unfold Gold.agg_dict, Gold.AGGREGATIONS; cbn [List.filter fst];
            rewrite Hhas, Hs; reflexivity).
      aggregated_as Ht Hreg Ea. rewrite Hxs in Ht. cbn [mbind res_bind] in Ht.
      injection Ht as <-. rewrite Ea in Hnd.
      apply (sum_column_conserved df group_by _ _ _ 0%nat xs Hnd); [reflexivity|].
      intros k. reflexivity.
Qed.

(** The sales of the three groups add up to 60: the 5 sold without a
    region are in no group. *)
Lemma aggregate_gold_conserves_totals_example :
  exists t sums,
    Gold.aggregate_gold no_irregular_groupby sales_batch ["Region"; "Product"] = Ok t /\
    Metrics.numbers (column t "Sales_sum") = Ok sums /\
    (Metrics.Qsum (Metrics.present sums) == 60)%Q.
Proof.
  destruct (Gold.aggregate_gold no_irregular_groupby sales_batch ["Region"; "Product"])
    as [t|e] eqn:Ht; [|vm_compute in Ht; discriminate].
  destruct (aggregate_gold_conserves_totals no_irregular_groupby sales_batch
              ["Region"; "Product"] t "Sales"
              [Some (inject_Z 10); Some (inject_Z 20); Some (inject_Z 30);
               Some (inject_Z 5); None]
              sales_batch_regular ltac:(left) eq_refl Ht eq_refl)
    as (sums & Hsums & Hsum).
  exists t, sums. split; [reflexivity|]. split; [exact Hsums|].
  rewrite Hsum. reflexivity.
Defined.

(** * More on the Gold stage: the pipeline *)

Section GoldTable.

Variable irregular_groupby : DataFrame -> list string -> res DataFrame.
Variable parse_datetime : cell -> option datetime.

Lemma length_series_div s1 :
  forall s2 qs, Gold.series_div s1 s2 = Ok qs ->
                length qs = Nat.min (length s1) (length s2).
Proof.
  induction s1 as [|a s1 IH]; intros [|b s2] qs; simpl;
    try (intros [= <-]; reflexivity).
  destruct (Gold.cell_div a b); cbn [mbind res_bind]; [|discriminate].
  destruct (Gold.series_div s1 s2) eqn:E; cbn [mbind res_bind]; [|discriminate].
  intros [= <-]. simpl. rewrite (IH _ _ E). reflexivity.
Qed.

Lemma enrich_with_dimensions_wf df df1 :
  wf df -> Gold.enrich_with_dimensions parse_datetime df = Ok df1 -> wf df1.
Proof.
  intros Hwf. unfold Gold.enrich_with_dimensions.
  destruct (Gold.derive_partition parse_datetime df) as [df0|e] eqn:Hd;
    cbn [mbind res_bind]; [|discriminate].
  destruct (derive_partition_keeps parse_datetime df df0 "Sales" Hwf Hd)
    as (Hwf0 & _ & _ & Hlen); [discriminate|].
  unfold Gold.derive_metrics.
  destruct (has_column df0 "Sales" && has_column df0 "Quantity") eqn:Hm;
    [|intros [= <-]; exact Hwf0].
  apply andb_prop in Hm as [Hs Hq].
  destruct (Gold.series_div _ _) as [ratio|e] eqn:Hr; cbn [mbind res_bind]; [|discriminate].
  intros [= <-]. apply wf_set_column; [exact Hwf0|].
  rewrite (length_series_div _ _ _ Hr), length_map, !length_column by assumption.
  apply Nat.min_id.
Qed.

Lemma NoDup_filter_app {A} (p : A -> bool) (l l' : list A) :
  NoDup (l ++ l') -> NoDup (List.filter p l ++ l').
Proof.
  induction l as [|x l IH]; simpl; [auto|].
  intros H. apply NoDup_cons in H as [Hx H].
  destruct (p x); [|apply IH, H].
  simpl. apply NoDup_cons. split; [|apply IH, H].
  intros Hin. apply Hx. apply elem_of_app in Hin as [Hin|Hin]; apply elem_of_app;
    [left|right; exact Hin].
  apply list_elem_of_In, filter_In in Hin as [Hin _]. apply list_elem_of_In, Hin.
Qed.

(** The names of the aggregates of a table are among six, whatever the
    table. *)
Lemma flat_names_cases df :
  Gold.flat_names (Gold.agg_dict df) =
  (if has_column df "Sales"
   then ["Sales_sum"; "Sales_mean"; "Sales_max"; "Sales_min"] else []) ++
  (if has_column df "Quantity" then ["Quantity_sum"; "Quantity_mean"] else []).
Proof.
  unfold Gold.agg_dict, Gold.AGGREGATIONS. cbn [List.filter fst].
  destruct (has_column df "Sales"), (has_column df "Quantity"); reflexivity.
Qed.

Lemma gold_keys_regular df :
  gold_keys df <> [] -> regular_keys df (gold_keys df).
Proof.
  intros Hne. split; [exact Hne|]. split.
  - apply Forall_forall. intros c Hc.
    apply list_elem_of_In, filter_In in Hc as [_ Hc]. exact Hc.
  - unfold gold_keys. apply NoDup_filter_app. rewrite flat_names_cases.
    destruct (has_column df "Sales"), (has_column df "Quantity");
      apply (bool_decide_unpack _); vm_compute; exact I.
Qed.

Lemma aggregated_columns_no_measure df c :
  c ∈ KPI_COLUMNS -> c ∉ gold_keys df ++ Gold.flat_names (Gold.agg_dict df).
Proof.
  intros Hc Hin. apply elem_of_app in Hin as [Hin|Hin].
  - apply list_elem_of_In, filter_In in Hin as [Hin _].
    unfold KPI_COLUMNS in Hc. rewrite !elem_of_cons, elem_of_nil in Hc.
    destruct Hc as [->|[->|[->|[]]]]; vm_compute in Hin;
      repeat (destruct Hin as [Hin|Hin]; [discriminate|]); exact Hin.
  - rewrite flat_names_cases in Hin.
    unfold KPI_COLUMNS in Hc. rewrite !elem_of_cons, elem_of_nil in Hc.
    destruct (has_column df "Sales"), (has_column df "Quantity");
      destruct Hc as [->|[->|[->|[]]]];
      cbn [app] in Hin; rewrite ?elem_of_cons, ?elem_of_nil in Hin;
      repeat (destruct Hin as [Hin|Hin]; [discriminate|]); exact Hin.
Qed.

Lemma with_kpis_empty df : Gold.with_kpis df ∅ = df.
Proof.
  unfold Gold.with_kpis. generalize Gold.kpi_order. intros l.
  induction l as [|k l IH]; [reflexivity|]. cbn [foldl]. rewrite lookup_empty. exact IH.
Qed.

(** The steps after the aggregation add nothing to a table that has none
    of the measures. *)
Lemma kpis_add_nothing t :
  NoDup (columns t) -> (forall c, c ∈ KPI_COLUMNS -> c ∉ columns t) ->
  (kpis ← Metrics.calculate_kpis t;
   let out := Gold.with_kpis t kpis in
   if bool_decide (NoDup (columns out)) then Ok out else Raise ValueError) = Ok t.
Proof.
  intros Hnd Hno.
  assert (forall c, c ∈ KPI_COLUMNS -> has_column t c = false) as Hhas.
  { intros c Hc. destruct (has_column t c) eqn:E; [|reflexivity].
    apply has_column_true in E. exfalso. exact (Hno c Hc E). }
  rewrite calculate_kpis_without_measures;
    [|apply Hhas; unfold KPI_COLUMNS; rewrite !elem_of_cons; auto..].
  cbn [mbind res_bind]. rewrite with_kpis_empty.
  rewrite bool_decide_eq_true_2 by exact Hnd. reflexivity.
Qed.

End GoldTable.

(** What the Gold stage saves for a cube, by the columns of its enriched
    table.  With Sales or Quantity and at least one of the key columns, it
    is the aggregated table and nothing else: the KPI step finds none of
    its measures there and adds no column, and a derived SalesPerUnit
    column does not get out.  With Sales or Quantity, no key column and at
    least one row, the stage fails with a [ValueError].  With none of Sales,
    Quantity and Stock, it is the enriched table. *)
Theorem gold_table_shapes irregular_groupby parse_datetime df df1 :
  wf df ->
  Gold.enrich_with_dimensions parse_datetime df = Ok df1 ->
  (Gold.agg_dict df1 <> [] -> gold_keys df1 <> [] ->
   gold_table irregular_groupby parse_datetime df =
     Gold.aggregate_gold irregular_groupby df1 (gold_keys df1) /\
   forall t, gold_table irregular_groupby parse_datetime df = Ok t ->
             columns t = gold_keys df1 ++ Gold.flat_names (Gold.agg_dict df1)) /\
  (Gold.agg_dict df1 <> [] -> gold_keys df1 = [] -> rows df1 <> [] ->
   gold_table irregular_groupby parse_datetime df = Raise ValueError) /\
  (has_column df1 "Sales" = false -> has_column df1 "Quantity" = false ->
   has_column df1 "Stock" = false ->
   gold_table irregular_groupby parse_datetime df = Ok df1).
Proof.
  intros Hwf Henrich. unfold gold_table. rewrite Henrich. cbn [mbind res_bind].
  pose proof (enrich_with_dimensions_wf parse_datetime df df1 Hwf Henrich) as Hwf1.
  split; [|split].
  - intros Haggs Hkeys.
    pose proof (gold_keys_regular df1 Hkeys) as Hreg.
    rewrite (aggregate_gold_regular irregular_groupby df1 _ Haggs Hreg).
    destruct (series_of df1 (Gold.agg_dict df1)) as [series|e];
      cbn [mbind res_bind]; [|split; [reflexivity|discriminate]].
    fold (mbind (M := res)
            (fun kpis => let out := Gold.with_kpis
                 (mkDF (gold_keys df1 ++ Gold.flat_names (Gold.agg_dict df1))
                    (map (fun k => k ++ aggregates_of df1 (gold_keys df1) series k)
                       (Gold.group_keys df1 (gold_keys df1)))) kpis in
               if bool_decide (NoDup (columns out)) then Ok out else Raise ValueError)).
    rewrite kpis_add_nothing.
    + split; [reflexivity|]. intros t [= <-]. reflexivity.
    + apply Hreg.
    + intros c Hc. apply aggregated_columns_no_measure, Hc.
  - intros Haggs Hkeys Hrows. rewrite Hkeys. unfold Gold.aggregate_gold.
    destruct (Gold.agg_dict df1); [congruence|].
    assert ((0 <? len df1)%nat = true) as ->
      by (apply Nat.ltb_lt; unfold len; destruct (rows df1); [congruence|simpl; lia]).
    reflexivity.
  - intros Hs Hq Ht.
    assert (Gold.agg_dict df1 = []) as Ea
      by (unfold Gold.agg_dict, Gold.AGGREGATIONS; cbn [List.filter fst];
          rewrite Hs, Hq; reflexivity).
    unfold Gold.aggregate_gold. rewrite Ea. cbn [mbind res_bind].
    apply kpis_add_nothing; [apply Hwf1|].
    intros c Hc Hin. apply has_column_true in Hin.
    unfold KPI_COLUMNS in Hc. rewrite !elem_of_cons, elem_of_nil in Hc.
    destruct Hc as [->|[->|[->|[]]]]; congruence.
Qed.

Lemma wf_sales_batch : wf sales_batch.
Proof. wf_concrete. Qed.

(** The cube of sales by region and product is saved aggregated, without a
    SalesPerUnit or a KPI column; the same sales without a dimension are
    not saved. *)
Lemma gold_table_shapes_example :
  wf sales_batch /\
  (exists t, gold_table no_irregular_groupby parse_example sales_batch = Ok t /\
             columns t = ["Region"; "Product"; "Sales_sum"; "Sales_mean"; "Sales_max";
                          "Sales_min"; "Quantity_sum"; "Quantity_mean"]) /\
  gold_table no_irregular_groupby parse_example bare_batch = Raise ValueError.
Proof.
  split; [exact wf_sales_batch|]. split.
  - destruct (Gold.enrich_with_dimensions parse_example sales_batch) as [df1|e] eqn:He;
      [|vm_compute in He; discriminate].
    destruct (gold_table_shapes no_irregular_groupby parse_example sales_batch df1
                wf_sales_batch He) as (Hagg & _ & _).
    vm_compute in He. injection He as <-.
    destruct Hagg as [Heq Hcols]; [vm_compute; discriminate|vm_compute; discriminate|].
    destruct (gold_table no_irregular_groupby parse_example sales_batch) as [t|e] eqn:Ht;
      [|vm_compute in Heq; discriminate].
    exists t. split; [reflexivity|]. apply (Hcols t eq_refl).
  - assert (wf bare_batch) as Hwf by wf_concrete.
    destruct (Gold.enrich_with_dimensions parse_example bare_batch) as [df1|e] eqn:He;
      [|vm_compute in He; discriminate].
    destruct (gold_table_shapes no_irregular_groupby parse_example bare_batch df1
                Hwf He) as (_ & Hfail & _).
    vm_compute in He. injection He as <-.
    apply Hfail; [vm_compute; discriminate|reflexivity|discriminate].
Defined.

Section GoldPipeline.

Variable irregular_groupby : DataFrame -> list string -> res DataFrame.
Variable parse_datetime : cell -> option datetime.

Lemma gold_file_inj a b : Gold.gold_file a = Gold.gold_file b -> a = b.
Proof.
  unfold Gold.gold_file. intros H.
  apply String.app_inj in H. apply string_app_inj_r in H. exact H.
Qed.

Lemma gold_gate_returns df cube_name :
  exists ev, Gold.run_data_quality df cube_name = Ok (df, ev) /\
             (event_type ev = "gold_data_quality_issues" \/
              event_type ev = "gold_data_quality_pass").
Proof.
  unfold Gold.run_data_quality.
  destruct (validate_duplicates_total df) as [dups ->].
  cbn [mbind res_bind].
  destruct (truthy _); eexists; (split; [reflexivity|]); [left|right]; reflexivity.
Qed.

(** What the loop does for one cube. *)
Lemma gold_transform_cube_step st cube :
  exists seg,
    Gold.transform_cube irregular_groupby parse_datetime st cube =
    (match gold_table irregular_groupby parse_datetime (snd cube) with
     | Ok t => <[Gold.gold_file (fst cube) := t]> (fst st)
     | Raise _ => fst st
     end, snd st ++ seg) /\
    length (records_of "gold_transform_error" seg) =
      (if is_raise (gold_table irregular_groupby parse_datetime (snd cube))
       then 1 else 0)%nat /\
    length (records_of "gold_save" seg) =
      (if is_raise (gold_table irregular_groupby parse_datetime (snd cube))
       then 0 else 1)%nat.
Proof.
  unfold Gold.transform_cube, gold_table.
  destruct (Gold.enrich_with_dimensions parse_datetime (snd cube)) as [df1|e];
    cbn [mbind res_bind]; [|eexists; split; [reflexivity|split; reflexivity]].
  fold (gold_keys df1).
  destruct (Gold.aggregate_gold irregular_groupby df1 (gold_keys df1)) as [df_agg|e];
    cbn [mbind res_bind];
    [|eexists; split; [rewrite <- !app_assoc; reflexivity|split; reflexivity]].
  destruct (Metrics.calculate_kpis df_agg) as [kpis|e]; cbn [mbind res_bind].
  - cbv zeta.
    destruct (bool_decide (NoDup (columns (Gold.with_kpis df_agg kpis)))).
    + destruct (gold_gate_returns (Gold.with_kpis df_agg kpis) (fst cube))
        as (ev & -> & Hev).
      unfold Gold.save_gold.
      destruct (Gold.agg_dict df1); (eexists; split; [rewrite <- !app_assoc; reflexivity|]);
        rewrite !records_of_app; unfold records_of, quality_record;
        cbn [List.filter event_type app length];
        destruct Hev as [-> | ->]; split; reflexivity.
    + destruct (Gold.agg_dict df1);
        (eexists; split; [rewrite <- !app_assoc; reflexivity|split; reflexivity]).
  - destruct (Gold.agg_dict df1);
      (eexists; split; [rewrite <- !app_assoc; reflexivity|split; reflexivity]).
Qed.

Lemma gold_transform_cubes_fold all_cubes :
  NoDup (map fst all_cubes) ->
  forall files log,
    let out := foldl (Gold.transform_cube irregular_groupby parse_datetime)
                     (files, log) all_cubes in
    (forall cube, cube ∈ all_cubes ->
       fst out !! Gold.gold_file (fst cube) =
       match gold_table irregular_groupby parse_datetime (snd cube) with
       | Ok t => Some t
       | Raise _ => files !! Gold.gold_file (fst cube)
       end) /\
    (forall path, (forall cube, cube ∈ all_cubes -> path <> Gold.gold_file (fst cube)) ->
       fst out !! path = files !! path) /\
    exists seg,
      snd out = log ++ seg /\
      length (records_of "gold_transform_error" seg) =
        length (List.filter (fun cube => is_raise (gold_table irregular_groupby
                                                      parse_datetime (snd cube)))
                            all_cubes) /\
      length (records_of "gold_save" seg) =
        length (List.filter (fun cube => negb (is_raise (gold_table irregular_groupby
                                                            parse_datetime (snd cube))))
                            all_cubes).
Proof.
  induction all_cubes as [|cube rest IH]; intros Hnd files log; cbv zeta in *.
  - cbn [foldl fst snd]. split; [intros cube Hin; apply elem_of_nil in Hin; contradiction|].
    split; [reflexivity|]. exists []. rewrite app_nil_r. repeat split.
  - cbn [map] in Hnd. apply NoDup_cons in Hnd as [Hcube Hnd].
    cbn [foldl].
    destruct (gold_transform_cube_step (files, log) cube) as (seg1 & -> & He1 & Hs1).
    cbn [fst snd].
    set (files1 := match gold_table irregular_groupby parse_datetime (snd cube) with
                   | Ok t => <[Gold.gold_file (fst cube) := t]> files
                   | Raise _ => files
                   end).
    destruct (IH Hnd files1 (log ++ seg1)) as (Hin & Hout & seg & Hlog & He & Hs).
    assert (forall c, c ∈ rest ->
              Gold.gold_file (fst cube) <> Gold.gold_file (fst c)) as Hdiff.
    { intros c Hc Heq. apply gold_file_inj in Heq. apply Hcube.
      rewrite Heq. apply list_elem_of_In, in_map, list_elem_of_In, Hc. }
    split; [|split].
    + intros c Hc. apply elem_of_cons in Hc as [->|Hc].
      * rewrite (Hout _ Hdiff). unfold files1.
        destruct (gold_table irregular_groupby parse_datetime (snd cube));
          [apply lookup_insert_eq|reflexivity].
      * rewrite (Hin c Hc).
        destruct (gold_table irregular_groupby parse_datetime (snd c)); [reflexivity|].
        unfold files1.
        destruct (gold_table irregular_groupby parse_datetime (snd cube)); [|reflexivity].
        apply lookup_insert_ne. apply Hdiff, Hc.
    + intros path Hpath. rewrite Hout.
      * unfold files1.
        destruct (gold_table irregular_groupby parse_datetime (snd cube)); [|reflexivity].
        apply lookup_insert_ne. intros Heq. apply (Hpath cube); [left|].
        symmetry. exact Heq.
      * intros c Hc. apply Hpath. right. exact Hc.
    + exists (seg1 ++ seg). split; [rewrite Hlog, <- app_assoc; reflexivity|].
      rewrite !records_of_app, !length_app, He, Hs, He1, Hs1. cbn [List.filter].
      destruct (is_raise (gold_table irregular_groupby parse_datetime (snd cube)));
        split; reflexivity.
Qed.

End GoldPipeline.

(** The Gold pipeline treats each cube on its own.  For cubes of distinct
    names it writes, for every cube, the table the stage makes of it
    (enriched, aggregated, with its KPI columns), unless a step raised:
    then the cube's file stays as it was, and the other cubes are written
    all the same.  No other file is touched.  The log holds one error for
    each cube that failed and one save for each that did not, and it ends
    with the record of a pipeline that completed, whatever failed. *)
Theorem transform_gold_layer_isolates_cubes irregular_groupby parse_datetime
    all_cubes files :
  NoDup (map fst all_cubes) ->
  let out := Gold.transform_gold_layer irregular_groupby parse_datetime all_cubes files in
  (forall cube, cube ∈ all_cubes ->
     fst out !! Gold.gold_file (fst cube) =
     match gold_table irregular_groupby parse_datetime (snd cube) with
     | Ok t => Some t
     | Raise _ => files !! Gold.gold_file (fst cube)
     end) /\
  (forall path, (forall cube, cube ∈ all_cubes -> path <> Gold.gold_file (fst cube)) ->
     fst out !! path = files !! path) /\
  length (records_of "gold_transform_error" (snd out)) =
    length (List.filter (fun cube => is_raise (gold_table irregular_groupby
                                                  parse_datetime (snd cube))) all_cubes) /\
  length (records_of "gold_save" (snd out)) =
    length (List.filter (fun cube => negb (is_raise (gold_table irregular_groupby
                                                        parse_datetime (snd cube))))
                        all_cubes) /\
  event_type (List.last (snd out) (mkEvent "" "" NoMeta)) = "pipeline_end".
Proof.
  intros Hnd. unfold Gold.transform_gold_layer.
  destruct (gold_transform_cubes_fold irregular_groupby parse_datetime all_cubes Hnd files
              [mkEvent "pipeline_start" "Starting Gold transformation pipeline" NoMeta])
    as (Hin & Hout & seg & Hlog & He & Hs).
  destruct (foldl _ _ all_cubes) as [files' log']. cbn [fst snd] in *. subst log'.
  split; [exact Hin|]. split; [exact Hout|].
  rewrite !records_of_app, !length_app, He, Hs.
  change (records_of "gold_transform_error"
            [mkEvent "pipeline_start" "Starting Gold transformation pipeline" NoMeta])
    with (@nil record).
  change (records_of "gold_save"
            [mkEvent "pipeline_start" "Starting Gold transformation pipeline" NoMeta])
    with (@nil record).
  change (records_of "gold_transform_error"
            [mkEvent "pipeline_end"
               "Gold transformation pipeline completed successfully" NoMeta])
    with (@nil record).
  change (records_of "gold_save"
            [mkEvent "pipeline_end"
               "Gold transformation pipeline completed successfully" NoMeta])
    with (@nil record).
  cbn [length].
  split; [lia|]. split; [lia|].
  rewrite last_last. reflexivity.
Qed.

(** Sales without a dimension fail; the visits, which have no measure, are
    written as they are. *)
Lemma transform_gold_layer_example :
  let all_cubes := [("bare", bare_batch); ("visits", visits_batch)] in
  let out := Gold.transform_gold_layer no_irregular_groupby parse_example all_cubes ∅ in
  NoDup (map fst all_cubes) /\
  fst out !! "./data/gold/bare_gold.parquet" = None /\
  fst out !! "./data/gold/visits_gold.parquet" = Some visits_batch /\
  length (records_of "gold_transform_error" (snd out)) = 1%nat.
Proof.
  cbv zeta.
  assert (NoDup (map fst [("bare", bare_batch); ("visits", visits_batch)])) as Hnd
    by (apply (bool_decide_unpack _); vm_compute; exact I).
  split; [exact Hnd|].
  destruct (transform_gold_layer_isolates_cubes no_irregular_groupby parse_example
              [("bare", bare_batch); ("visits", visits_batch)] ∅ Hnd)
    as (Hin & _ & He & _).
  split; [|split].
  - pose proof (Hin ("bare", bare_batch) ltac:(left)) as H.
    cbn [fst snd] in H. change (Gold.gold_file "bare")
      with "./data/gold/bare_gold.parquet" in H.
    rewrite H. vm_compute. reflexivity.
  - pose proof (Hin ("visits", visits_batch) ltac:(right; left)) as H.
    cbn [fst snd] in H. change (Gold.gold_file "visits")
      with "./data/gold/visits_gold.parquet" in H.
    rewrite H. vm_compute. reflexivity.
  - rewrite He. vm_compute. reflexivity.
Defined.

(** * The extraction *)

Section Retry.

Variable PARTITION_COL : string.
Variable parse_datetime : cell -> option datetime.
Variable fetch : Extract.cube_config -> nat -> Extract.attempt DataFrame.
Variables today now : nat -> datetime.
Variable cube : Extract.cube_config.

Let r (i : nat) : Extract.attempt DataFrame :=
  fst (Extract.try_extract PARTITION_COL parse_datetime fetch today now cube i).

Let out : Extract.attempt (option DataFrame) * list Extract.record :=
  Extract.extract_cube PARTITION_COL parse_datetime fetch today now cube.

(** The loop, unrolled. *)
Lemma extract_cube_unrolled :
  fst out =
  match r 0 with
  | Extract.Success d => Extract.Success (Some d)
  | Extract.Failure _ =>
      match r 1 with
      | Extract.Success d => Extract.Success (Some d)
      | Extract.Failure _ =>
          match r 2 with
          | Extract.Success d => Extract.Success (Some d)
          | Extract.Failure err => Extract.Failure err
          end
      end
  end.
Proof.
  unfold out, r, Extract.extract_cube, Extract.MAX_RETRIES. cbn [Extract.retry].
  destruct (Extract.try_extract _ _ _ _ _ cube 0) as [[d0|e0] w0]; [reflexivity|].
  cbn [fst Nat.leb].
  destruct (Extract.try_extract _ _ _ _ _ cube 1) as [[d1|e1] w1]; [reflexivity|].
  cbn [fst Nat.leb].
  destruct (Extract.try_extract _ _ _ _ _ cube 2) as [[d2|e2] w2]; reflexivity.
Qed.

Lemma extract_cube_log_counts :
  length (extract_records_of "extraction_error" (snd out)) =
    leading_failures r 0 Extract.MAX_RETRIES /\
  length (extract_records_of "extraction_retry" (snd out)) =
    Nat.min (leading_failures r 0 Extract.MAX_RETRIES) 2.
Proof.
  unfold out, r, Extract.extract_cube, Extract.MAX_RETRIES.
  cbn [Extract.retry leading_failures].
  unfold Extract.try_extract.
  destruct (fetch cube 0) as [df0|e0]; cbn [fst snd failed];
    [destruct (if negb _ then _ else _); cbn [fst snd failed]|];
    try (split; reflexivity);
  (destruct (fetch cube 1) as [df1|e1]; cbn [fst snd failed Nat.leb];
    [destruct (if negb (has_column df1 _) then _ else _); cbn [fst snd failed]|];
    try (split; reflexivity);
   (destruct (fetch cube 2) as [df2|e2]; cbn [fst snd failed Nat.leb];
     [destruct (if negb (has_column df2 _) then _ else _); cbn [fst snd failed]|];
     split; reflexivity)).
Qed.

End Retry.

(** The outcomes of [extract_cube], by the outcomes of its attempts. *)
Lemma extract_cube_outcomes PARTITION_COL parse_datetime fetch today now cube :
  let r := fun i =>
    fst (Extract.try_extract PARTITION_COL parse_datetime fetch today now cube i) in
  let out := Extract.extract_cube PARTITION_COL parse_datetime fetch today now cube in
  (forall d, fst out = Extract.Success (Some d) <->
             exists i, (i < Extract.MAX_RETRIES)%nat /\ r i = Extract.Success d /\
                       forall j, (j < i)%nat -> failed (r j) = true) /\
  (forall err, fst out = Extract.Failure err <->
               failed (r 0%nat) = true /\ failed (r 1%nat) = true /\
               r 2%nat = Extract.Failure err) /\
  fst out <> Extract.Success None /\
  length (extract_records_of "extraction_error" (snd out)) =
    leading_failures r 0 Extract.MAX_RETRIES /\
  length (extract_records_of "extraction_retry" (snd out)) =
    Nat.min (leading_failures r 0 Extract.MAX_RETRIES) 2.
Proof.
  intros r out.
  pose proof (extract_cube_unrolled PARTITION_COL parse_datetime fetch today now cube)
    as Hout.
  pose proof (extract_cube_log_counts PARTITION_COL parse_datetime fetch today now cube)
    as [Herr Hretry].
  fold r in Hout. fold out in Hout, Herr, Hretry. fold r in Herr, Hretry.
  split; [|split; [|split; [|split; assumption]]].
  - intros d. rewrite Hout. split.
    + destruct (r 0%nat) as [d0|e0] eqn:E0.
      { intros [= ->]. exists 0%nat. split; [unfold Extract.MAX_RETRIES; lia|].
        split; [exact E0|]. intros j Hj. lia. }
      destruct (r 1%nat) as [d1|e1] eqn:E1.
      { intros [= ->]. exists 1%nat. split; [unfold Extract.MAX_RETRIES; lia|].
        split; [exact E1|]. intros j Hj. assert (j = 0%nat) as -> by lia.
        rewrite E0. reflexivity. }
      destruct (r 2%nat) as [d2|e2] eqn:E2; [|discriminate].
      intros [= ->]. exists 2%nat. split; [unfold Extract.MAX_RETRIES; lia|].
      split; [exact E2|]. intros j Hj.
      assert (j = 0 \/ j = 1)%nat as [-> | ->] by lia;
        [rewrite E0|rewrite E1]; reflexivity.
    + intros (i & Hi & Hri & Hbefore). unfold Extract.MAX_RETRIES in Hi.
      assert (i = 0 \/ i = 1 \/ i = 2)%nat as [-> | [-> | ->]] by lia.
      * rewrite Hri. reflexivity.
      * pose proof (Hbefore 0%nat ltac:(lia)) as H0.
        destruct (r 0%nat); [discriminate|]. rewrite Hri. reflexivity.
      * pose proof (Hbefore 0%nat ltac:(lia)) as H0.
        pose proof (Hbefore 1%nat ltac:(lia)) as H1.
        destruct (r 0%nat); [discriminate|]. destruct (r 1%nat); [discriminate|].
        rewrite Hri. reflexivity.
  - intros err. rewrite Hout. split.
    + destruct (r 0%nat); [discriminate|]. destruct (r 1%nat); [discriminate|].
      destruct (r 2%nat); [discriminate|]. intros [= ->]. repeat split.
    + intros (H0 & H1 & H2).
      destruct (r 0%nat); [discriminate|]. destruct (r 1%nat); [discriminate|].
      rewrite H2. reflexivity.
  - rewrite Hout. destruct (r 0%nat); [discriminate|]. destruct (r 1%nat); [discriminate|].
    destruct (r 2%nat); discriminate.
Qed.

(** [extract_cube] makes at most three attempts.  It returns the table of
    the first attempt that succeeds, raises the exception of the third
    attempt when all three fail, and never falls off its loop (it never
    returns [None]).  It logs one error for each attempt that failed, and
    one retry for each failure but the third. *)
Theorem extract_cube_retries PARTITION_COL parse_datetime fetch today now cube :
  (forall d,
     fst (Extract.extract_cube PARTITION_COL parse_datetime fetch today now cube) =
       Extract.Success (Some d) <->
     exists i, (i < Extract.MAX_RETRIES)%nat /\
       attempt_outcome PARTITION_COL parse_datetime fetch today now cube i =
         Extract.Success d /\
       forall j, (j < i)%nat ->
         failed (attempt_outcome PARTITION_COL parse_datetime fetch today now cube j) =
           true) /\
  (forall err,
     fst (Extract.extract_cube PARTITION_COL parse_datetime fetch today now cube) =
       Extract.Failure err <->
     failed (attempt_outcome PARTITION_COL parse_datetime fetch today now cube 0) = true /\
     failed (attempt_outcome PARTITION_COL parse_datetime fetch today now cube 1) = true /\
     attempt_outcome PARTITION_COL parse_datetime fetch today now cube 2 =
       Extract.Failure err) /\
  fst (Extract.extract_cube PARTITION_COL parse_datetime fetch today now cube) <>
    Extract.Success None /\
  length (extract_records_of "extraction_error"
            (snd (Extract.extract_cube PARTITION_COL parse_datetime fetch today now cube))) =
    leading_failures (attempt_outcome PARTITION_COL parse_datetime fetch today now cube)
      0 Extract.MAX_RETRIES /\
  length (extract_records_of "extraction_retry"
            (snd (Extract.extract_cube PARTITION_COL parse_datetime fetch today now cube))) =
    Nat.min (leading_failures
               (attempt_outcome PARTITION_COL parse_datetime fetch today now cube)
               0 Extract.MAX_RETRIES) 2.
Proof.
  exact (extract_cube_outcomes PARTITION_COL parse_datetime fetch today now cube).
Qed.

Section Collection.

Variable PARTITION_COL : string.
Variable parse_datetime : cell -> option datetime.
Variable fetch : Extract.cube_config -> nat -> Extract.attempt DataFrame.
Variables today now : nat -> datetime.

Let extracted (cube : Extract.cube_config) : Extract.attempt (option DataFrame) :=
  fst (Extract.extract_cube PARTITION_COL parse_datetime fetch today now cube).

(** What the dictionary holds once the cubes of a list, of distinct names,
    have been collected. *)
Lemma collect_lookup cubes :
  NoDup (map Extract.name cubes) ->
  forall results n v,
    foldl (Extract.collect PARTITION_COL parse_datetime fetch today now) results cubes
      !! n = Some v <->
    (exists cube, cube ∈ cubes /\ Extract.name cube = n /\
                  extracted cube = Extract.Success v) \/
    (results !! n = Some v /\
     forall cube, cube ∈ cubes -> Extract.name cube = n -> failed (extracted cube) = true).
Proof.
  induction cubes as [|c cubes IH]; intros Hnd results n v.
  - cbn [foldl]. split.
    + intros H. right. split; [exact H|]. intros cube Hc.
      apply elem_of_nil in Hc. contradiction.
    + intros [(cube & Hc & _)|[H _]]; [apply elem_of_nil in Hc; contradiction|exact H].
  - cbn [map] in Hnd. apply NoDup_cons in Hnd as [Hc Hnd]. cbn [foldl].
    rewrite (IH Hnd). unfold Extract.collect. fold (extracted c).
    assert (forall cube, cube ∈ cubes -> Extract.name cube <> Extract.name c) as Hdiff.
    { intros cube Hin Heq. apply Hc. rewrite <- Heq.
      apply list_elem_of_In, in_map, list_elem_of_In, Hin. }
    split.
    + intros [(cube & Hin & Hn & He)|[Hres Hfail]].
      * left. exists cube. split; [right; exact Hin|]. split; assumption.
      * destruct (extracted c) as [d|err] eqn:Ec.
        -- destruct (decide (Extract.name c = n)) as [Heq|Hne].
           ++ rewrite Heq, lookup_insert_eq in Hres. injection Hres as ->.
              left. exists c. split; [left|]. split; assumption.
           ++ rewrite lookup_insert_ne in Hres by exact Hne.
              right. split; [exact Hres|]. intros cube Hin Hn.
              apply elem_of_cons in Hin as [->|Hin]; [contradiction|].
              apply Hfail; assumption.
        -- right. split; [exact Hres|]. intros cube Hin Hn.
           apply elem_of_cons in Hin as [->|Hin]; [rewrite Ec; reflexivity|].
           apply Hfail; assumption.
    + intros [(cube & Hin & Hn & He)|[Hres Hfail]].
      * apply elem_of_cons in Hin as [->|Hin].
        -- right. rewrite He, Hn, lookup_insert_eq. split; [reflexivity|].
           intros cube Hin Hn'. exfalso. apply (Hdiff cube Hin). congruence.
        -- left. exists cube. split; [exact Hin|]. split; assumption.
      * right. split.
        -- pose proof (Hfail c ltac:(left)) as Hc'.
           destruct (extracted c) as [d|err] eqn:Ec; [|exact Hres].
           destruct (decide (Extract.name c = n)) as [Heq|Hne];
             [specialize (Hc' Heq); discriminate|].
           rewrite lookup_insert_ne by exact Hne. exact Hres.
        -- intros cube Hin Hn. apply Hfail; [right; exact Hin|exact Hn].
Qed.

End Collection.

(** For cubes of distinct names, [extract_all_cubes] returns the dictionary
    that holds, under the name of each cube whose extraction succeeded, the
    table extracted, and nothing else: a cube that fails is left out and
    does not stop the others.  The parallel extraction returns this same
    dictionary in whatever order the extractions complete. *)
Theorem extract_all_cubes_collects_successes PARTITION_COL parse_datetime fetch
    today now MDX_CUBES parallel completed :
  NoDup (map Extract.name MDX_CUBES) ->
  completed ≡ₚ MDX_CUBES ->
  (forall n v,
     Extract.extract_all_cubes PARTITION_COL parse_datetime fetch today now
       MDX_CUBES parallel completed !! n = Some v <->
     exists cube, cube ∈ MDX_CUBES /\ Extract.name cube = n /\
       fst (Extract.extract_cube PARTITION_COL parse_datetime fetch today now cube) =
       Extract.Success v) /\
  Extract.extract_all_cubes PARTITION_COL parse_datetime fetch today now
    MDX_CUBES true completed =
  Extract.extract_all_cubes PARTITION_COL parse_datetime fetch today now
    MDX_CUBES false completed.
Proof.
  intros Hnd Hperm.
  assert (NoDup (map Extract.name completed)) as Hnd'.
  { assert (map Extract.name completed ≡ₚ map Extract.name MDX_CUBES) as Hp
      by (apply Permutation_map, Hperm).
    rewrite Hp. exact Hnd. }
  assert (forall cubes, NoDup (map Extract.name cubes) -> cubes ≡ₚ MDX_CUBES ->
            forall n v,
              foldl (Extract.collect PARTITION_COL parse_datetime fetch today now) ∅ cubes
                !! n = Some v <->
              exists cube, cube ∈ MDX_CUBES /\ Extract.name cube = n /\
                fst (Extract.extract_cube PARTITION_COL parse_datetime fetch today now cube) =
                Extract.Success v) as Hchar.
  { intros cubes Hn Hp n v. rewrite (collect_lookup _ _ _ _ _ cubes Hn). split.
    - intros [(cube & Hin & Hname & He)|[Hres _]].
      + exists cube. split; [rewrite <- Hp; exact Hin|]. split; assumption.
      + rewrite lookup_empty in Hres. discriminate.
    - intros (cube & Hin & Hname & He). left. exists cube.
      split; [rewrite Hp; exact Hin|]. split; assumption. }
  split.
  - intros n v. unfold Extract.extract_all_cubes.
    destruct parallel; [apply Hchar; assumption|apply Hchar; [assumption|reflexivity]].
  - unfold Extract.extract_all_cubes. apply map_eq. intros n. apply option_eq. intros v.
    rewrite (Hchar completed Hnd' Hperm), (Hchar MDX_CUBES Hnd ltac:(reflexivity)).
    reflexivity.
Qed.

(** A source that times out twice answers the third attempt. *)
Lemma extract_cube_retries_example :
  (exists d,
     fst (Extract.extract_cube "partition_month" parse_example flaky_fetch
            (fun _ => noon 2025 4 1) (fun _ => noon 2025 4 1) (cube_named "sales")) =
     Extract.Success (Some d)) /\
  length (extract_records_of "extraction_error"
            (snd (Extract.extract_cube "partition_month" parse_example flaky_fetch
                    (fun _ => noon 2025 4 1) (fun _ => noon 2025 4 1)
                    (cube_named "sales")))) = 2%nat /\
  length (extract_records_of "extraction_retry"
            (snd (Extract.extract_cube "partition_month" parse_example flaky_fetch
                    (fun _ => noon 2025 4 1) (fun _ => noon 2025 4 1)
                    (cube_named "sales")))) = 2%nat.
Proof.
  destruct (extract_cube_retries "partition_month" parse_example flaky_fetch
              (fun _ => noon 2025 4 1) (fun _ => noon 2025 4 1) (cube_named "sales"))
    as (Hok & _ & _ & Herr & Hretry).
  split; [|split; [rewrite Herr; reflexivity|rewrite Hretry; reflexivity]].
  eexists. apply Hok. exists 2%nat. split; [unfold Extract.MAX_RETRIES; lia|].
  split; [reflexivity|]. intros j Hj.
  assert (j = 0 \/ j = 1)%nat as [-> | ->] by lia; reflexivity.
Defined.

(** Two cubes, one of which the source refuses: the other is extracted,
    in either order of completion. *)
Lemma extract_all_cubes_example :
  NoDup (map Extract.name [cube_named "sales"; cube_named "returns"]) /\
  Extract.extract_all_cubes "partition_month" parse_example partial_fetch
    (fun _ => noon 2025 4 1) (fun _ => noon 2025 4 1)
    [cube_named "sales"; cube_named "returns"] true
    [cube_named "returns"; cube_named "sales"] =
  Extract.extract_all_cubes "partition_month" parse_example partial_fetch
    (fun _ => noon 2025 4 1) (fun _ => noon 2025 4 1)
    [cube_named "sales"; cube_named "returns"] false
    [cube_named "sales"; cube_named "returns"] /\
  Extract.extract_all_cubes "partition_month" parse_example partial_fetch
    (fun _ => noon 2025 4 1) (fun _ => noon 2025 4 1)
    [cube_named "sales"; cube_named "returns"] false
    [cube_named "sales"; cube_named "returns"] !! "returns" = None.
Proof.
  assert (NoDup (map Extract.name [cube_named "sales"; cube_named "returns"])) as Hnd
    by (apply (bool_decide_unpack _); vm_compute; exact I).
  split; [exact Hnd|]. split.
  - transitivity
      (Extract.extract_all_cubes "partition_month" parse_example partial_fetch
         (fun _ => noon 2025 4 1) (fun _ => noon 2025 4 1)
         [cube_named "sales"; cube_named "returns"] false
         [cube_named "returns"; cube_named "sales"]); [|reflexivity].
    apply (extract_all_cubes_collects_successes "partition_month" parse_example
             partial_fetch (fun _ => noon 2025 4 1) (fun _ => noon 2025 4 1)
             [cube_named "sales"; cube_named "returns"] true
             [cube_named "returns"; cube_named "sales"] Hnd).
    apply Permutation_swap.
  - reflexivity.
Defined.

(** * The API *)

Section Search.

Variable gold : Api.folder.
Variable total_seconds : datetime -> datetime -> Q.
Variable contains : list cell -> string -> res (list bool).

Lemma endswith_app t suffix : Api.endswith (t +:+ suffix) suffix = true.
Proof.
  induction t as [|a t IH].
  - change ("" +:+ suffix) with suffix. destruct suffix; simpl;
      rewrite ?Ascii.eqb_refl, ?String.eqb_refl; reflexivity.
  - change (String a t +:+ suffix) with (String a (t +:+ suffix)).
    cbn [Api.endswith]. rewrite IH. destruct (String.eqb _ suffix); reflexivity.
Qed.

Lemma file_listed f content : Api.file gold f = Some content -> f ∈ map fst gold.
Proof.
  induction gold as [|[g x] gold' IH]; simpl; [discriminate|].
  destruct (String.eqb_spec g f) as [->|Hne]; [intros _; left|].
  intros H. right. apply IH, H.
Qed.

Lemma with_extensions_length t k : (k <= String.length (with_extensions t k))%nat.
Proof.
  induction k as [|k IH]; simpl; [lia|].
  rewrite string_length_app. simpl. lia.
Qed.

(** A folder lists finitely many names: some table has no file one
    extension longer. *)
Lemma tables_not_closed :
  (forall t, t ∈ Api.get_gold_tables gold -> Api.file gold (t +:+ ".parquet") <> None) ->
  Api.get_gold_tables gold = [].
Proof.
  intros Hclosed.
  destruct (Api.get_gold_tables gold) as [|t ts] eqn:Et; [reflexivity|]. exfalso.
  rewrite <- Et in Hclosed.
  assert (forall k, with_extensions t k ∈ Api.get_gold_tables gold) as Hall.
  { induction k as [|k IH]; simpl; [rewrite Et; left|].
    pose proof (Hclosed _ IH) as Hfile.
    destruct (Api.file gold (with_extensions t k +:+ ".parquet")) as [x|] eqn:Ef;
      [|congruence].
    unfold Api.get_gold_tables. apply list_elem_of_In, filter_In. split.
    - apply list_elem_of_In. eapply file_listed, Ef.
    - apply endswith_app. }
  set (bound := max_list (map String.length (map fst gold))).
  specialize (Hall (S bound)).
  unfold Api.get_gold_tables in Hall.
  apply list_elem_of_In, filter_In in Hall as [Hin _].
  assert (String.length (with_extensions t (S bound)) <= bound)%nat as Hle.
  { apply max_list_elem_of_le. apply list_elem_of_In, in_map, Hin. }
  pose proof (with_extensions_length t (S bound)). lia.
Qed.

Lemma search_loop_returns column value limit now tables :
  forall results c found c',
    Api.search_loop gold total_seconds contains column value limit now tables results c =
      (Api.Returns found, c') ->
    forall t, t ∈ tables -> Api.file gold (t +:+ ".parquet") <> None.
Proof.
  induction tables as [|table_name tables IH]; intros results c found c' H t Ht.
  - apply elem_of_nil in Ht. contradiction.
  - cbn [Api.search_loop] in H. unfold Api.load_table in H.
    destruct (Api.file gold (table_name +:+ ".parquet")) as [content|] eqn:Ef;
      [|discriminate].
    apply elem_of_cons in Ht as [->|Ht]; [congruence|].
    revert H.
    destruct (c !! table_name) as [[df ts]|];
      [destruct (Qlt_le_dec _ _)|]; try destruct content as [df'|e];
      try discriminate;
      repeat match goal with
             | |- context [has_column ?d column] => destruct (has_column d column)
             | |- context [contains ?s value] => destruct (contains s value)
             end;
      try discriminate; intros H; eapply IH; eauto.
Qed.

End Search.

(** [search_tables] never finds anything.  It asks [load_table] for each
    name [get_gold_tables] lists, extension included, and [load_table] adds
    the extension again: a request returns only when the folder lists no
    table, and then with no result; with a valid token and a table in the
    folder it raises. *)
Theorem search_tables_finds_nothing gold total_seconds contains x_api_key
    column value limit now c :
  (forall found c',
     Api.search_tables gold total_seconds contains x_api_key column value limit now c =
       (Api.Returns found, c') ->
     found = [] /\ Api.get_gold_tables gold = [] /\ c' = c) /\
  (Api.get_gold_tables gold <> [] ->
   exists err c',
     Api.search_tables gold total_seconds contains x_api_key column value limit now c =
       (Api.Raises err, c')).
Proof.
  assert (forall found c',
     Api.search_tables gold total_seconds contains x_api_key column value limit now c =
       (Api.Returns found, c') ->
     found = [] /\ Api.get_gold_tables gold = [] /\ c' = c) as Hret.
  { intros found c'. unfold Api.search_tables.
    destruct (Api.verify_token x_api_key); [|discriminate]. intros H.
    pose proof (tables_not_closed gold
                  (search_loop_returns gold total_seconds contains column value limit now
                     _ _ _ _ _ H)) as Hnone.
    rewrite Hnone in H. cbn [Api.search_loop] in H. injection H as <- <-.
    repeat split. exact Hnone. }
  split; [exact Hret|]. intros Hne.
  destruct (Api.search_tables gold total_seconds contains x_api_key column value limit
              now c) as [[found|err] c'] eqn:E; [|eauto].
  destruct (Hret found c' eq_refl) as (_ & Hnone & _). contradiction.
Qed.

(** With the table [sales_gold.parquet] in the folder, a search asks for the
    file [sales_gold.parquet.parquet] and ends with 404. *)
Lemma search_tables_example :
  Api.get_gold_tables gold_folder <> [] /\
  fst (Api.search_tables gold_folder same_day_seconds no_contains Api.API_TOKEN
         "Sales" "100" 100 (fun _ => at_time 9 0) ∅) =
  Api.Raises (Api.HTTPException 404 "Table 'sales_gold.parquet' not found").
Proof.
  split; [discriminate|].
  destruct (search_tables_finds_nothing gold_folder same_day_seconds no_contains
              Api.API_TOKEN "Sales" "100" 100 (fun _ => at_time 9 0) ∅) as [_ Hraise].
  destruct (Hraise ltac:(discriminate)) as (err & c' & H).
  rewrite H. vm_compute in H. injection H as <- _. reflexivity.
Defined.

Section Pagination.



End Pagination.




Section SharedMetrics.

Variable df : DataFrame.

Lemma lookup_insert_key {A} (m : gmap string A) k x key v (P : string -> Prop) :
  P k -> (m !! key = Some v -> P key) -> <[k := x]> m !! key = Some v -> P key.
Proof.
  intros Hk Hm. destruct (decide (key = k)) as [->|Hne]; [intros _; exact Hk|].
  rewrite lookup_insert_ne by congruence. exact Hm.
Qed.

(** The entries of the API's dictionary, from the values of the two
    measures it reads. *)
Lemma calculate_metrics_entries :
  (forall col, col ∈ KPI_COLUMNS -> has_column df col = true ->
               Forall measure (column df col)) ->
  exists m,
    Api.calculate_metrics df = Ok m /\
    (forall key v, m !! key = Some v -> key ∈ shared_metrics) /\
    (if has_column df "Sales"
     then exists xs, Metrics.numbers (column df "Sales") = Ok xs /\
            m !! "total_sales" = Some (Metrics.series_sum xs) /\
            m !! "avg_sales" = Some (Metrics.series_mean xs) /\
            m !! "max_sales" = Some (Metrics.series_max xs) /\
            m !! "min_sales" = Some (Metrics.series_min xs)
     else m !! "total_sales" = None /\ m !! "avg_sales" = None /\
          m !! "max_sales" = None /\ m !! "min_sales" = None) /\
    (if has_column df "Quantity"
     then exists ys, Metrics.numbers (column df "Quantity") = Ok ys /\
            m !! "total_quantity" = Some (Metrics.series_sum ys) /\
            m !! "avg_quantity" = Some (Metrics.series_mean ys)
     else m !! "total_quantity" = None /\ m !! "avg_quantity" = None).
Proof.
  intros Hm. unfold Api.calculate_metrics.
  assert ("Sales" ∈ KPI_COLUMNS) as H1 by (left).
  assert ("Quantity" ∈ KPI_COLUMNS) as H2 by (right; left).
  destruct (measure_values df "Sales" (Hm _ H1)) as [(Hs & xs & Hxs & _)|Hs];
  destruct (measure_values df "Quantity" (Hm _ H2)) as [(Hq & ys & Hys & _)|Hq];
  rewrite Hs, Hq, ?Hxs, ?Hys; cbn [mbind res_bind];
  (eexists; split; [reflexivity|]); (split; [|split]);
  try (intros key v;
       repeat (apply (lookup_insert_key _ _ _ _ _ (fun k => k ∈ shared_metrics));
               [unfold shared_metrics; solve [repeat first [left | right]]|]);
       rewrite lookup_empty; discriminate);
  try (eexists; split; [reflexivity|]); repeat split;
  repeat (rewrite lookup_insert_ne by discriminate);
  first [apply lookup_insert_eq | apply lookup_empty].
Qed.

End SharedMetrics.

(** The API and the pipeline agree on the metrics they both compute.  On a
    table with at least one row whose measures are numeric,
    [calculate_metrics] and [calculate_kpis] both return a dictionary; the
    API's has no key outside the six shared ones, and under each of the six
    the two dictionaries hold the same thing. *)
Theorem calculate_metrics_agrees_with_kpis df :
  rows df <> [] ->
  (forall col, col ∈ KPI_COLUMNS -> has_column df col = true ->
               Forall measure (column df col)) ->
  exists metrics kpis,
    Api.calculate_metrics df = Ok metrics /\
    Metrics.calculate_kpis df = Ok kpis /\
    (forall key v, metrics !! key = Some v -> key ∈ shared_metrics) /\
    (forall key, key ∈ shared_metrics -> metrics !! key = kpis !! key).
Proof.
  intros Hrows Hm.
  destruct (calculate_metrics_entries df Hm) as (metrics & Hmetrics & Hkeys & Hs & Hq).
  destruct (calculate_kpis_entries df Hrows Hm) as (kpis & Hkpis & Hk).
  exists metrics, kpis. split; [exact Hmetrics|]. split; [exact Hkpis|].
  split; [exact Hkeys|].
  pose proof (Hk "Sales" ltac:(left)) as Ks.
  pose proof (Hk "Quantity" ltac:(right; left)) as Kq.
  clear Hk.
  assert (metrics !! "total_sales" = kpis !! "total_sales" /\
          metrics !! "avg_sales" = kpis !! "avg_sales" /\
          metrics !! "max_sales" = kpis !! "max_sales" /\
          metrics !! "min_sales" = kpis !! "min_sales") as (S1 & S2 & S3 & S4).
  { destruct (has_column df "Sales").
    - destruct Hs as (xs & Hxs & -> & -> & -> & ->).
      destruct Ks as (xs' & Hxs' & B1 & B2 & B3 & B4 & _).
      rewrite Hxs in Hxs'. injection Hxs' as <-.
      repeat split; symmetry; assumption.
    - destruct Hs as (-> & -> & -> & ->).
      destruct Ks as (B1 & B2 & B3 & B4 & _).
      repeat split; symmetry; assumption. }
  assert (metrics !! "total_quantity" = kpis !! "total_quantity" /\
          metrics !! "avg_quantity" = kpis !! "avg_quantity") as (Q1 & Q2).
  { destruct (has_column df "Quantity").
    - destruct Hq as (ys & Hys & -> & ->).
      destruct Kq as (ys' & Hys' & B1 & B2 & _).
      rewrite Hys in Hys'. injection Hys' as <-.
      split; symmetry; assumption.
    - destruct Hq as (-> & ->).
      destruct Kq as (B1 & B2 & _).
      split; symmetry; assumption. }
  intros key Hin. unfold shared_metrics in Hin.
  rewrite !elem_of_cons, elem_of_nil in Hin.
  destruct Hin as [->|[->|[->|[->|[->|[->|[]]]]]]]; assumption.
Qed.

(** Five days of sales: the API's total of the sales is the pipeline's. *)
Lemma calculate_metrics_agrees_example :
  rows week_batch <> [] /\
  exists metrics kpis,
    Api.calculate_metrics week_batch = Ok metrics /\
    Metrics.calculate_kpis week_batch = Ok kpis /\
    metrics !! "total_sales" = kpis !! "total_sales" /\
    metrics !! "total_sales" = Some (VFloat 550).
Proof.
  split; [discriminate|].
  destruct (calculate_metrics_agrees_with_kpis week_batch) as (metrics & kpis & H1 & H2 & _ & H).
  - discriminate.
  - intros col Hin _. unfold KPI_COLUMNS in Hin.
    rewrite !elem_of_cons, elem_of_nil in Hin.
    destruct Hin as [->|[->|[->|[]]]]; vm_compute; repeat constructor.
  - exists metrics, kpis. split; [exact H1|]. split; [exact H2|].
    split; [apply H; left|].
    vm_compute in H1. injection H1 as <-. reflexivity.
Defined.
